(** * A shallow embedding of [main.py], the PyQt terminal emulator.

    The development follows the source file top-down:

    - [PyStr]    the Python [str] methods the program calls
                 ([strip], [lower], [startswith], slicing, [ljust], ...);
    - [PosixPath] [os.path.join], [os.path.normpath], [os.path.abspath],
                 [os.path.basename] for POSIX hosts;
    - [Shlex]    [shlex.split], the tokenizer of [ls], [cp] and [mv];
    - [Host]     the operating system and [psutil], as a record of calls;
    - [Terminal] the [TerminalWidget] class: its fields, [execute_command],
                 every built-in, [keyPressEvent], and the event loop.

    A Python [str] is modelled as a Rocq [string] whose characters are the
    code points below 256.  Exceptions are values of [Result]: the message of
    the exception ([str(e)]) on the left, the returned value on the right. *)

From Stdlib Require Import Bool Arith ZArith NArith QArith Qabs Lia List.
From Stdlib Require Import Ascii String Permutation Sorted.
From Stdlib Require Import DecimalString.
Import ListNotations.

Close Scope Q_scope.
Open Scope string_scope.
Open Scope list_scope.
Open Scope nat_scope.

(** ** Exceptions as values *)

Definition Result (A : Type) : Type := (string + A)%type.

Definition ok {A : Type} (a : A) : Result A := inr a.
Definition raise {A : Type} (msg : string) : Result A := inl msg.

Definition bind {A B : Type} (r : Result A) (k : A -> Result B) : Result B :=
  match r with
  | inl msg => inl msg
  | inr a => k a
  end.

Notation "x <- r ;; k" := (bind r (fun x => k))
  (at level 61, r at next level, right associativity).

(** ** Python [str] methods *)

Module PyStr.

(** [c.isspace()] for the code points below 256: the characters removed by
    [str.strip()]. *)
Definition isspace (c : ascii) : bool :=
  let n := nat_of_ascii c in
  ((9 <=? n) && (n <=? 13)) || ((28 <=? n) && (n <=? 32))
  || (n =? 133) || (n =? 160).

Fixpoint lstrip (s : string) : string :=
  match s with
  | EmptyString => EmptyString
  | String c s' => if isspace c then lstrip s' else s
  end.

(** [rstrip] keeps a character when something that is not white space
    follows it or when it is not white space itself. *)
Fixpoint rstrip (s : string) : string :=
  match s with
  | EmptyString => EmptyString
  | String c s' =>
      match rstrip s' with
      | EmptyString => if isspace c then EmptyString else String c EmptyString
      | r => String c r
      end
  end.

Definition strip (s : string) : string := rstrip (lstrip s).

(** [c.lower()] below 256: A-Z, and the Latin-1 capitals except the
    multiplication sign. *)
Definition lower_char (c : ascii) : ascii :=
  let n := nat_of_ascii c in
  if ((65 <=? n) && (n <=? 90))
     || ((192 <=? n) && (n <=? 222) && negb (n =? 215))
  then ascii_of_nat (n + 32) else c.

Fixpoint lower (s : string) : string :=
  match s with
  | EmptyString => EmptyString
  | String c s' => String (lower_char c) (lower s')
  end.

(** [s.startswith(p)] *)
Fixpoint startswith (s p : string) {struct p} : bool :=
  match p, s with
  | EmptyString, _ => true
  | String _ _, EmptyString => false
  | String c p', String d s' => Ascii.eqb c d && startswith s' p'
  end.

(** [s[n:]] for [n >= 0] *)
Fixpoint drop (n : nat) (s : string) : string :=
  match n, s with
  | O, _ => s
  | S n', EmptyString => EmptyString
  | S n', String _ s' => drop n' s'
  end.

(** [c in s] for a one-character [c] *)
Fixpoint contains (c : ascii) (s : string) : bool :=
  match s with
  | EmptyString => false
  | String d s' => Ascii.eqb c d || contains c s'
  end.

Fixpoint spaces (n : nat) : string :=
  match n with
  | O => EmptyString
  | S n' => String " " (spaces n')
  end.

(** [s.ljust(w)] and [s.rjust(w)] *)
Definition ljust (s : string) (w : nat) : string :=
  s ++ spaces (w - String.length s).

Definition rjust (s : string) (w : nat) : string :=
  spaces (w - String.length s) ++ s.

(** [str(n)] for a natural number *)
Definition of_N (n : N) : string := NilZero.string_of_uint (N.to_uint n).
Definition of_nat (n : nat) : string := of_N (N.of_nat n).

(** [str(z)] for an integer *)
Definition of_Z (z : Z) : string :=
  match z with
  | Zneg p => "-" ++ of_N (Npos p)
  | _ => of_N (Z.to_N z)
  end.

(** [not s]: the empty string is the only false one. *)
Definition is_empty (s : string) : bool :=
  match s with
  | EmptyString => true
  | _ => false
  end.

(** The exact value of [round(q * 10)] as [format] computes it for a
    non-negative [q]: to nearest, ties to even. *)
Definition round_half_even (q : Q) : Z :=
  let n := Qnum q in
  let d := Zpos (Qden q) in
  let fl := (n / d)%Z in
  let r := (n mod d)%Z in
  if (2 * r <? d)%Z then fl
  else if (d <? 2 * r)%Z then (fl + 1)%Z
  else if Z.even fl then fl else (fl + 1)%Z.

(** [f"{q:.1f}"] on the number a float denotes. *)
Definition format_1f (q : Q) : string :=
  let t := round_half_even (Qabs q * (10 # 1))%Q in
  (if (Qnum q <? 0)%Z then "-" else EmptyString)
  ++ of_Z (t / 10) ++ "." ++ of_Z (t mod 10).

(** The double quote, which a string literal cannot hold. *)
Definition dquote : string := String (ascii_of_nat 34) EmptyString.

End PyStr.

(** ** [os.path] on a POSIX host *)

Module PosixPath.

Definition sep : ascii := "/"%char.

(** [path.endswith('/')] *)
Fixpoint ends_with_sep (s : string) : bool :=
  match s with
  | EmptyString => false
  | String c EmptyString => Ascii.eqb c sep
  | String _ s' => ends_with_sep s'
  end.

(** [os.path.isabs] *)
Definition isabs (p : string) : bool := PyStr.startswith p "/".

(** [os.path.join(a, b)]: an absolute [b] discards [a]. *)
Definition join (a b : string) : string :=
  if PyStr.startswith b "/" then b
  else if PyStr.is_empty a || ends_with_sep a then (a ++ b)%string
  else (a ++ "/" ++ b)%string.

(** [path.split('/')] *)
Fixpoint split_sep (s : string) : list string :=
  match s with
  | EmptyString => [EmptyString]
  | String c s' =>
      if Ascii.eqb c sep then EmptyString :: split_sep s'
      else match split_sep s' with
           | [] => [String c EmptyString]
           | w :: ws => String c w :: ws
           end
  end.

(** ['/'.join(comps)] *)
Fixpoint join_sep (comps : list string) : string :=
  match comps with
  | [] => EmptyString
  | [c] => c
  | c :: cs => (c ++ "/" ++ join_sep cs)%string
  end.

(** The loop of [normpath]; [new_comps] is kept with its last element
    first, so that [append] is a cons and [pop] drops the head. *)
Fixpoint normpath_loop (initial_slashes : nat) (comps : list string)
    (new_comps : list string) : list string :=
  match comps with
  | [] => new_comps
  | comp :: rest =>
      if String.eqb comp EmptyString || String.eqb comp "." then
        normpath_loop initial_slashes rest new_comps
      else if negb (String.eqb comp "..")
              || ((initial_slashes =? 0)
                  && match new_comps with [] => true | _ => false end)
              || match new_comps with
                 | last :: _ => String.eqb last ".."
                 | [] => false
                 end
      then normpath_loop initial_slashes rest (comp :: new_comps)
      else match new_comps with
           | _ :: popped => normpath_loop initial_slashes rest popped
           | [] => normpath_loop initial_slashes rest new_comps
           end
  end.

Fixpoint slashes (n : nat) : string :=
  match n with
  | O => EmptyString
  | S n' => String sep (slashes n')
  end.

(** [os.path.normpath] *)
Definition normpath (path : string) : string :=
  if PyStr.is_empty path then "."
  else
    let initial_slashes :=
      if PyStr.startswith path "/" then
        if PyStr.startswith path "//" && negb (PyStr.startswith path "///")
        then 2 else 1
      else 0 in
    let comps := rev (normpath_loop initial_slashes (split_sep path) []) in
    let path' := (slashes initial_slashes ++ join_sep comps)%string in
    if PyStr.is_empty path' then "." else path'.

(** [os.path.abspath], for a process whose working directory is [cwd]. *)
Definition abspath (cwd path : string) : string :=
  normpath (if isabs path then path else join cwd path).

(** [os.path.basename]: what follows the last slash. *)
Fixpoint basename (p : string) : string :=
  match p with
  | EmptyString => EmptyString
  | String c p' =>
      if PyStr.contains sep p' then basename p'
      else if Ascii.eqb c sep then p' else p
  end.

End PosixPath.

(** ** [shlex.split(s)]: POSIX mode, [whitespace_split], no comments *)

Module Shlex.

(** [self.state]: [' '], ['a'], an opening quote, or the escape character.
    [None] (end of input) is the end of the recursion below. *)
Inductive state : Type :=
| Blank
| Word
| Quote (q : ascii)
| Escape.

Definition is_whitespace (c : ascii) : bool := PyStr.contains c
  (String " " (String (ascii_of_nat 9) (String (ascii_of_nat 13)
     (String (ascii_of_nat 10) EmptyString)))).
Definition is_quote (c : ascii) : bool :=
  Ascii.eqb c "'" || Ascii.eqb c (ascii_of_nat 34).
Definition is_escape (c : ascii) : bool := Ascii.eqb c "\".
Definition is_escapedquote (c : ascii) : bool := Ascii.eqb c (ascii_of_nat 34).

Definition push (token : string) (c : ascii) : string :=
  (token ++ String c EmptyString)%string.

(** The end of [read_token]: a token that is empty and was never quoted is
    [None], which ends the iteration. *)
Definition emit (token : string) (quoted : bool) : option string :=
  if negb quoted && PyStr.is_empty token then None else Some token.

(** All the calls of [read_token] over the input, one character at a time.
    [token], [quoted] and [escapedstate] are the variables of the call in
    progress; they start again after each token. *)
Fixpoint read_tokens (input : string) (st : state) (token : string)
    (quoted : bool) (escapedstate : state) : Result (list string) :=
  match input with
  | EmptyString =>
      match st with
      | Blank | Word =>
          match emit token quoted with
          | None => ok []
          | Some t => ok [t]
          end
      | Quote _ => raise "No closing quotation"
      | Escape => raise "No escaped character"
      end
  | String nextchar rest =>
      match st with
      | Blank =>
          if is_whitespace nextchar then
            if negb (PyStr.is_empty token) || quoted then
              match emit token quoted with
              | None => ok []
              | Some t =>
                  ts <- read_tokens rest Blank EmptyString false Blank ;;
                  ok (t :: ts)
              end
            else read_tokens rest Blank token quoted escapedstate
          else if is_escape nextchar then
            read_tokens rest Escape token quoted Word
          else if is_quote nextchar then
            read_tokens rest (Quote nextchar) token quoted escapedstate
          else
            read_tokens rest Word (String nextchar EmptyString) quoted
              escapedstate
      | Quote q =>
          if Ascii.eqb nextchar q then
            read_tokens rest Word token true escapedstate
          else if is_escape nextchar && is_escapedquote q then
            read_tokens rest Escape token true (Quote q)
          else read_tokens rest (Quote q) (push token nextchar) true
                 escapedstate
      | Escape =>
          let token' :=
            match escapedstate with
            | Quote q =>
                if negb (is_escape nextchar) && negb (Ascii.eqb nextchar q)
                then push token "\" else token
            | _ => token
            end in
          read_tokens rest escapedstate (push token' nextchar) quoted
            escapedstate
      | Word =>
          if is_whitespace nextchar then
            if negb (PyStr.is_empty token) || quoted then
              match emit token quoted with
              | None => ok []
              | Some t =>
                  ts <- read_tokens rest Blank EmptyString false Blank ;;
                  ok (t :: ts)
              end
            else read_tokens rest Blank token quoted escapedstate
          else if is_quote nextchar then
            read_tokens rest (Quote nextchar) token quoted escapedstate
          else if is_escape nextchar then
            read_tokens rest Escape token quoted Word
          else read_tokens rest Word (push token nextchar) quoted
                 escapedstate
      end
  end.

Definition split (s : string) : Result (list string) :=
  read_tokens s Blank EmptyString false Blank.

End Shlex.

(** ** The host: operating system, [shutil], [subprocess] and [psutil]

    The program reaches the outside world only through library calls.  A
    host gives each of them a meaning over a type [W] of world states.  A
    call that fails returns the text of its exception; a call that changes
    the world returns the new world as well (also when it fails, since a
    failed [rmtree] may have removed part of the tree).

    A host call is a function, so the embedding describes the runs in
    which every host call comes back.  [communicate()] has no timeout: a
    command that never ends keeps [execute_system_command] waiting, and
    nothing below speaks of such a run. *)

(** [os.stat_result], the two fields the program reads.  [st_mtime] is the
    number the float denotes. *)
Record stat_result : Type := {
  st_size : N;
  st_mtime : Q
}.

(** [proc.info] for the attributes asked of [process_iter]; [psutil] fills
    an attribute it may not read with [None].  [memory_info] is its [rss]. *)
Record proc_info : Type := {
  pid : N;
  name : option string;
  username : option string;
  cpu_percent : option Q;
  memory_info : option N
}.

(** [psutil.virtual_memory()] and [psutil.disk_usage('/')] *)
Record usage : Type := {
  total : N;
  used : N;
  percent : Q
}.

Inductive access_mode : Type := R_OK | W_OK | X_OK.

Record Host (W : Type) : Type := {
  (** [os.getcwd()]: the working directory of the process, which the
      program never changes *)
  getcwd : string;
  (** [os.getlogin()]; [setup_ui] calls it unguarded, so it succeeded *)
  getlogin : string;
  (** [os.path.expanduser("~")] *)
  expanduser_home : string;
  isdir : W -> string -> bool;
  isfile : W -> string -> bool;
  exists_ : W -> string -> bool;
  access : W -> string -> access_mode -> bool;
  listdir : W -> string -> Result (list string);
  stat : W -> string -> Result stat_result;
  (** [datetime.fromtimestamp(t).strftime('%Y-%m-%d %H:%M')] in the
      host's time zone; [fromtimestamp] raises for a time stamp outside
      the years it knows *)
  strftime_local : Q -> Result string;
  (** [str(x)] of a float *)
  repr_float : Q -> string;
  (** [os.makedirs(p, exist_ok=True)] *)
  makedirs : W -> string -> W * Result unit;
  rmtree : W -> string -> W * Result unit;
  remove : W -> string -> W * Result unit;
  copytree : W -> string -> string -> W * Result unit;
  copy2 : W -> string -> string -> W * Result unit;
  move : W -> string -> string -> W * Result unit;
  (** [subprocess.Popen(command, shell=True, cwd=cwd, ...)] followed by
      [communicate()], when the command ends: the captured standard
      output and standard error *)
  popen_communicate : W -> string -> string -> W * Result (string * string);
  process_iter : W -> Result (list proc_info);
  cpu_count : W -> Result (option N);
  cpu_percent_total : W -> Result Q;
  cpu_percent_percpu : W -> Result (list Q);
  virtual_memory : W -> Result usage;
  disk_usage_root : W -> Result usage
}.

Arguments getcwd {W}.
Arguments getlogin {W}.
Arguments expanduser_home {W}.
Arguments isdir {W}.
Arguments isfile {W}.
Arguments exists_ {W}.
Arguments access {W}.
Arguments listdir {W}.
Arguments stat {W}.
Arguments strftime_local {W}.
Arguments repr_float {W}.
Arguments makedirs {W}.
Arguments rmtree {W}.
Arguments remove {W}.
Arguments copytree {W}.
Arguments copy2 {W}.
Arguments move {W}.
Arguments popen_communicate {W}.
Arguments process_iter {W}.
Arguments cpu_count {W}.
Arguments cpu_percent_total {W}.
Arguments cpu_percent_percpu {W}.
Arguments virtual_memory {W}.
Arguments disk_usage_root {W}.

(** ** The fields of [TerminalWidget] *)

Record Terminal : Type := {
  current_dir : string;
  command_history : list string;
  history_index : Z;
  (** the blocks given to [output_area.append], oldest first *)
  output_area : list string;
  (** [input_field.text()] *)
  input_field : string;
  prompt_label : string;
  monitor_label : string;
  (** [QApplication.quit()] was called *)
  quit_called : bool
}.

Definition set_current_dir (d : string) (t : Terminal) : Terminal :=
  {| current_dir := d;
     command_history := command_history t;
     history_index := history_index t;
     output_area := output_area t;
     input_field := input_field t;
     prompt_label := prompt_label t;
     monitor_label := monitor_label t;
     quit_called := quit_called t |}.

Definition set_command_history (l : list string) (t : Terminal) : Terminal :=
  {| current_dir := current_dir t;
     command_history := l;
     history_index := history_index t;
     output_area := output_area t;
     input_field := input_field t;
     prompt_label := prompt_label t;
     monitor_label := monitor_label t;
     quit_called := quit_called t |}.

Definition set_history_index (i : Z) (t : Terminal) : Terminal :=
  {| current_dir := current_dir t;
     command_history := command_history t;
     history_index := i;
     output_area := output_area t;
     input_field := input_field t;
     prompt_label := prompt_label t;
     monitor_label := monitor_label t;
     quit_called := quit_called t |}.

Definition set_output_area (o : list string) (t : Terminal) : Terminal :=
  {| current_dir := current_dir t;
     command_history := command_history t;
     history_index := history_index t;
     output_area := o;
     input_field := input_field t;
     prompt_label := prompt_label t;
     monitor_label := monitor_label t;
     quit_called := quit_called t |}.

Definition set_input_field (s : string) (t : Terminal) : Terminal :=
  {| current_dir := current_dir t;
     command_history := command_history t;
     history_index := history_index t;
     output_area := output_area t;
     input_field := s;
     prompt_label := prompt_label t;
     monitor_label := monitor_label t;
     quit_called := quit_called t |}.

Definition set_prompt_label (s : string) (t : Terminal) : Terminal :=
  {| current_dir := current_dir t;
     command_history := command_history t;
     history_index := history_index t;
     output_area := output_area t;
     input_field := input_field t;
     prompt_label := s;
     monitor_label := monitor_label t;
     quit_called := quit_called t |}.

Definition set_monitor_label (s : string) (t : Terminal) : Terminal :=
  {| current_dir := current_dir t;
     command_history := command_history t;
     history_index := history_index t;
     output_area := output_area t;
     input_field := input_field t;
     prompt_label := prompt_label t;
     monitor_label := s;
     quit_called := quit_called t |}.

Definition set_quit_called (b : bool) (t : Terminal) : Terminal :=
  {| current_dir := current_dir t;
     command_history := command_history t;
     history_index := history_index t;
     output_area := output_area t;
     input_field := input_field t;
     prompt_label := prompt_label t;
     monitor_label := monitor_label t;
     quit_called := b |}.

(** ** Methods as state transformers that may raise

    A method body runs over the widget and the world.  What it did before
    an exception stays done, so a computation returns the new widget and
    world together with its result or the exception. *)

Section Methods.

Variable W : Type.
Variable h : Host W.

Definition M (A : Type) : Type := Terminal -> W -> Terminal * W * Result A.

Definition ret {A : Type} (a : A) : M A := fun t w => (t, w, inr a).

Definition throw {A : Type} (msg : string) : M A := fun t w => (t, w, inl msg).

Definition mbind {A B : Type} (m : M A) (k : A -> M B) : M B :=
  fun t w =>
    match m t w with
    | (t', w', inr a) => k a t' w'
    | (t', w', inl msg) => (t', w', inl msg)
    end.

Notation "x <-- m ;; k" := (mbind m (fun x => k))
  (at level 61, m at next level, right associativity).
Notation "m ;;; k" := (mbind m (fun _ => k))
  (at level 61, right associativity).

(** A library call that reads the world. *)
Definition ask {A : Type} (f : W -> A) : M A := fun t w => (t, w, inr (f w)).

(** A library call that reads the world and may raise. *)
Definition call {A : Type} (f : W -> Result A) : M A := fun t w => (t, w, f w).

(** A library call that changes the world and may raise. *)
Definition perform {A : Type} (f : W -> W * Result A) : M A :=
  fun t w => let (w', r) := f w in (t, w', r).

(** A pure computation that may raise. *)
Definition lift {A : Type} (r : Result A) : M A := fun t w => (t, w, r).

(** Reading and writing the fields of [self]. *)
Definition get {A : Type} (f : Terminal -> A) : M A :=
  fun t w => (t, w, inr (f t)).
Definition modify (f : Terminal -> Terminal) : M unit :=
  fun t w => (f t, w, inr tt).

(** [try: body except Exception as e: handler(str(e))] *)
Definition try_except (body : M unit) (handler : string -> M unit) : M unit :=
  fun t w =>
    match body t w with
    | (t', w', inr u) => (t', w', inr u)
    | (t', w', inl msg) => handler msg t' w'
    end.

(** [for x in xs: body(x)] *)
Fixpoint for_each {A : Type} (xs : list A) (body : A -> M unit) : M unit :=
  match xs with
  | [] => ret tt
  | x :: rest => body x ;;; for_each rest body
  end.

(** [self.output_area.append(text)] *)
Definition append (text : string) : M unit :=
  modify (fun t => set_output_area (output_area t ++ [text]) t).

(** [l[i]] with Python's negative indices and [IndexError]. *)
Definition py_index {A : Type} (l : list A) (i : Z) : Result A :=
  let n := Z.of_nat (List.length l) in
  let j := if (i <? 0)%Z then (i + n)%Z else i in
  if (j <? 0)%Z then raise "list index out of range"
  else match nth_error l (Z.to_nat j) with
       | Some a => ok a
       | None => raise "list index out of range"
       end.

Definition nl : string := String (ascii_of_nat 10) EmptyString.
Definition tab : string := String (ascii_of_nat 9) EmptyString.

(** [str(x)] of a value that may be [None]. *)
Definition str_opt {A : Type} (f : A -> string) (o : option A) : string :=
  match o with
  | Some a => f a
  | None => "None"
  end.

(** *** [print_welcome] and [update_prompt] *)

Definition welcome_msg (dir : string) : string :=
  (nl ++ "Python Terminal Emulator" ++ nl
   ++ "Type 'help' for available commands" ++ nl
   ++ "Current directory: " ++ dir ++ nl)%string.

Definition update_prompt : M unit :=
  cur <-- get current_dir ;;
  let dir_name := PosixPath.basename cur in
  let dir_name := if PyStr.is_empty dir_name then "/" else dir_name in
  modify (set_prompt_label
            (getlogin h ++ "@pyterm:" ++ dir_name ++ "$ ")%string).

(** *** [change_directory] *)

Definition change_directory (path : string) : M unit :=
  try_except
    (let path := if PyStr.is_empty path then expanduser_home h else path in
     cur <-- get current_dir ;;
     let new_dir := PosixPath.abspath (getcwd h) (PosixPath.join cur path) in
     is_dir <-- ask (fun w => isdir h w new_dir) ;;
     if is_dir then
       modify (set_current_dir new_dir) ;;;
       update_prompt
     else
       append ("Error: Directory not found: " ++ path)%string)
    (fun e => append ("Error: " ++ e)%string).

(** *** [list_files] *)

(** The two identical f-strings of [list_files]: type, the three access
    checks, [size:8], the time and the name shown. *)
Definition detail_line (full_path shown : string) : M string :=
  st <-- call (fun w => stat h w full_path) ;;
  let size := st_size st in
  mtime <-- lift (strftime_local h (st_mtime st)) ;;
  is_file <-- ask (fun w => isfile h w full_path) ;;
  r <-- ask (fun w => access h w full_path R_OK) ;;
  wr <-- ask (fun w => access h w full_path W_OK) ;;
  x <-- ask (fun w => access h w full_path X_OK) ;;
  ret ((if is_file then "-" else "d") ++ (if r then "r" else "-")
       ++ (if wr then "w" else "-") ++ (if x then "x" else "-")
       ++ " " ++ PyStr.rjust (PyStr.of_N size) 8 ++ " " ++ mtime
       ++ " " ++ shown)%string.

(** What [list_files] reads off [parts]: the path, [show_all] and
    [long_format]. *)
Definition ls_options (cur : string) (parts : list string)
    : string * bool * bool :=
  match parts with
  | _ :: p1 :: more =>
      if PyStr.startswith p1 "-" then
        let flags := p1 in
        let show_all := PyStr.contains "a" flags in
        let long_format := PyStr.contains "l" flags in
        match more with
        | p2 :: _ => (PosixPath.join cur p2, show_all, long_format)
        | [] => (cur, show_all, long_format)
        end
      else (PosixPath.join cur p1, false, false)
  | _ => (cur, false, false)
  end.

(** [files = [f for f in files if not f.startswith('.')]] unless
    [show_all] *)
Definition visible (show_all : bool) (files : list string) : list string :=
  if show_all then files
  else filter (fun f => negb (PyStr.startswith f ".")) files.

(** [max([len(f) for f in names] + [0])] *)
Definition max_length (names : list string) : nat :=
  fold_right Nat.max 0 (map String.length names).

(** One of the two column loops: [line] comes in from what ran before,
    [i] is the index [enumerate] gives the first of [items].  Returns the
    rows appended and the line left over. *)
Fixpoint column_loop (max_len per_line : nat) (suffix : string)
    (items : list string) (i : nat) (line : string)
    : list string * string :=
  match items with
  | [] => ([], line)
  | d :: rest =>
      let line := (line ++ PyStr.ljust (d ++ suffix) max_len)%string in
      if (i + 1) mod per_line =? 0 then
        let (rows, left) :=
          column_loop max_len per_line suffix rest (i + 1) EmptyString in
        (line :: rows, left)
      else column_loop max_len per_line suffix rest (i + 1) line
  end.

(** The rows of the short format, from the directories and the files. *)
Definition short_rows (dirs files : list string) : list string :=
  let max_len := max_length (files ++ dirs) + 2 in
  let per_line := Nat.max 1 (80 / max_len) in
  let (rows_d, line) :=
    column_loop max_len per_line "/" dirs 0 EmptyString in
  let (rows_f, line) :=
    column_loop max_len per_line EmptyString files 0 line in
  rows_d ++ rows_f ++ (if PyStr.is_empty line then [] else [line]).

Definition list_files (command : string) : M unit :=
  try_except
    (parts <-- lift (Shlex.split command) ;;
     cur <-- get current_dir ;;
     let '(path, show_all, long_format) := ls_options cur parts in
     found <-- ask (fun w => exists_ h w path) ;;
     if negb found then
       append ("Error: Path not found: " ++ path)%string
     else
       is_file <-- ask (fun w => isfile h w path) ;;
       if is_file then
         line <-- detail_line path (PosixPath.basename path) ;;
         append line
       else
         files <-- call (fun w => listdir h w path) ;;
         let files := visible show_all files in
         if long_format then
           for_each files (fun f =>
             line <-- detail_line (PosixPath.join path f) f ;;
             append line)
         else
           dirs <-- ask (fun w =>
             filter (fun f => isdir h w (PosixPath.join path f)) files) ;;
           files <-- ask (fun w =>
             filter (fun f => isfile h w (PosixPath.join path f)) files) ;;
           for_each (short_rows dirs files) append)
    (fun e => append ("Error: " ++ e)%string).

(** *** [make_directory], [remove_file_or_dir], [copy_file_or_dir],
    [move_file_or_dir] *)

Definition make_directory (path : string) : M unit :=
  try_except
    (if PyStr.is_empty path then
       append "Error: mkdir requires a directory name"
     else
       cur <-- get current_dir ;;
       let full_path := PosixPath.join cur path in
       perform (fun w => makedirs h w full_path) ;;;
       append ("Created directory: " ++ path)%string)
    (fun e => append ("Error: " ++ e)%string).

Definition remove_file_or_dir (path : string) : M unit :=
  try_except
    (if PyStr.is_empty path then
       append "Error: rm requires a path"
     else
       cur <-- get current_dir ;;
       let full_path := PosixPath.join cur path in
       is_dir <-- ask (fun w => isdir h w full_path) ;;
       if is_dir then
         perform (fun w => rmtree h w full_path) ;;;
         append ("Removed directory: " ++ path)%string
       else
         perform (fun w => remove h w full_path) ;;;
         append ("Removed file: " ++ path)%string)
    (fun e => append ("Error: " ++ e)%string).

Definition copy_file_or_dir (command : string) : M unit :=
  try_except
    (parts <-- lift (Shlex.split command) ;;
     match parts with
     | _ :: p1 :: p2 :: _ =>
         cur <-- get current_dir ;;
         let src := PosixPath.join cur p1 in
         let dst := PosixPath.join cur p2 in
         is_dir <-- ask (fun w => isdir h w src) ;;
         if is_dir then
           perform (fun w => copytree h w src dst) ;;;
           append ("Copied directory: " ++ p1 ++ " to " ++ p2)%string
         else
           perform (fun w => copy2 h w src dst) ;;;
           append ("Copied file: " ++ p1 ++ " to " ++ p2)%string
     | _ => append "Error: cp requires source and destination"
     end)
    (fun e => append ("Error: " ++ e)%string).

Definition move_file_or_dir (command : string) : M unit :=
  try_except
    (parts <-- lift (Shlex.split command) ;;
     match parts with
     | _ :: p1 :: p2 :: _ =>
         cur <-- get current_dir ;;
         let src := PosixPath.join cur p1 in
         let dst := PosixPath.join cur p2 in
         perform (fun w => move h w src dst) ;;;
         append ("Moved: " ++ p1 ++ " to " ++ p2)%string
     | _ => append "Error: mv requires source and destination"
     end)
    (fun e => append ("Error: " ++ e)%string).

(** *** [execute_system_command] *)

Definition execute_system_command (command : string) : M unit :=
  try_except
    (cur <-- get current_dir ;;
     streams <-- perform (fun w => popen_communicate h w command cur) ;;
     let (stdout, stderr) := streams : string * string in
     (if PyStr.is_empty stdout then ret tt else append stdout) ;;;
     (if PyStr.is_empty stderr then ret tt
      else append ("Error: " ++ stderr)%string))
    (fun e => append ("Error executing command: " ++ e)%string).

(** *** [show_help] and [show_history] *)

Definition help_text : string :=
  (nl ++ "Available commands:" ++ nl
   ++ "  cd [dir]         Change directory" ++ nl
   ++ "  pwd              Show current directory" ++ nl
   ++ "  ls [options]     List files (-a: show hidden, -l: long format)" ++ nl
   ++ "  mkdir <dir>      Create directory" ++ nl
   ++ "  rm <path>        Remove file or directory" ++ nl
   ++ "  cp <src> <dst>   Copy file or directory" ++ nl
   ++ "  mv <src> <dst>   Move file or directory" ++ nl
   ++ "  clear            Clear screen" ++ nl
   ++ "  history          Show command history" ++ nl
   ++ "  ps               Show running processes" ++ nl
   ++ "  top              Show system statistics" ++ nl
   ++ "  exit             Exit terminal" ++ nl)%string.

Definition show_help : M unit := append help_text.

(** [enumerate(xs)] counting from [i] *)
Fixpoint enumerate_from {A : Type} (i : nat) (xs : list A) : list (nat * A) :=
  match xs with
  | [] => []
  | x :: rest => (i, x) :: enumerate_from (i + 1) rest
  end.

Definition show_history : M unit :=
  hist <-- get command_history ;;
  for_each (enumerate_from 0 hist) (fun ic =>
    append (PyStr.of_nat (fst ic + 1) ++ ": " ++ snd ic)%string).

(** *** [show_processes] *)

(** [x['cpu_percent'] or 0] *)
Definition cpu_key (p : proc_info) : Q :=
  match cpu_percent p with
  | Some c => c
  | None => 0%Q
  end.

(** [list.sort(key=..., reverse=True)] is stable: of two processes with
    equal keys the one that came first stays first. *)
Fixpoint insert_desc (p : proc_info) (sorted : list proc_info)
    : list proc_info :=
  match sorted with
  | [] => [p]
  | q :: rest =>
      if Qle_bool (cpu_key q) (cpu_key p) then p :: sorted
      else q :: insert_desc p rest
  end.

Definition sort_by_cpu (processes : list proc_info) : list proc_info :=
  fold_right insert_desc [] processes.

(** [f"{x:.1f}"]: [None] has no such format. *)
Definition format_1f_opt (x : option Q) : Result string :=
  match x with
  | Some q => ok (PyStr.format_1f q)
  | None => raise "unsupported format string passed to NoneType.__format__"
  end.

Definition process_line (p : proc_info) : Result string :=
  let mem_mb :=
    match memory_info p with
    | Some rss => (Z.of_N rss # 1) / (1024 # 1) / (1024 # 1)
    | None => 0
    end%Q in
  cpu <- format_1f_opt (cpu_percent p) ;;
  ok (PyStr.of_N (pid p) ++ tab ++ str_opt id (name p) ++ tab
      ++ str_opt id (username p) ++ tab ++ cpu ++ tab
      ++ PyStr.format_1f mem_mb ++ "MB")%string.

Definition show_processes : M unit :=
  try_except
    (processes <-- call (process_iter h) ;;
     let processes := sort_by_cpu processes in
     append ("PID" ++ tab ++ "NAME" ++ tab ++ "USER" ++ tab ++ "CPU%" ++ tab
             ++ "MEMORY")%string ;;;
     for_each (firstn 10 processes) (fun p =>
       line <-- lift (process_line p) ;;
       append line))
    (fun e => append ("Error: " ++ e)%string).

(** *** [update_system_monitor] and [show_system_stats] *)

Definition update_system_monitor : M unit :=
  try_except
    (cpu <-- call (cpu_percent_total h) ;;
     memory <-- call (virtual_memory h) ;;
     disk <-- call (disk_usage_root h) ;;
     modify (set_monitor_label
       ("CPU: " ++ repr_float h cpu ++ "% | Memory: "
        ++ repr_float h (percent memory) ++ "% | Disk: "
        ++ repr_float h (percent disk) ++ "%")%string))
    (fun _ => modify (set_monitor_label "System monitor unavailable")).

(** [x / 1024 / 1024 / 1024] formatted with [.1f] *)
Definition gigabytes (x : N) : string :=
  PyStr.format_1f ((Z.of_N x # 1) / (1024 # 1) / (1024 # 1) / (1024 # 1))%Q.

Definition show_system_stats : M unit :=
  try_except
    (count <-- call (cpu_count h) ;;
     per_cpu <-- call (cpu_percent_percpu h) ;;
     memory <-- call (virtual_memory h) ;;
     disk <-- call (disk_usage_root h) ;;
     append "=== SYSTEM STATISTICS ===" ;;;
     append ("CPU Cores: " ++ str_opt PyStr.of_N count)%string ;;;
     append "CPU Usage per core:" ;;;
     for_each (enumerate_from 0 per_cpu) (fun iu =>
       append ("  Core " ++ PyStr.of_nat (fst iu + 1) ++ ": "
               ++ repr_float h (snd iu) ++ "%")%string) ;;;
     append ("Memory Total: " ++ gigabytes (total memory) ++ " GB")%string ;;;
     append ("Memory Used: " ++ gigabytes (used memory) ++ " GB ("
             ++ repr_float h (percent memory) ++ "%)")%string ;;;
     append ("Disk Total: " ++ gigabytes (total disk) ++ " GB")%string ;;;
     append ("Disk Used: " ++ gigabytes (used disk) ++ " GB ("
             ++ repr_float h (percent disk) ++ "%)")%string)
    (fun e => append ("Error getting system stats: " ++ e)%string).

(** *** [execute_command] *)

(** The branch the [if]/[elif] chain of [execute_command] takes, with the
    argument it hands to the method it calls. *)
Inductive action : Type :=
| Exit
| Help
| ChangeDirectory (path : string)
| Pwd
| ListFiles (command : string)
| MakeDirectory (path : string)
| Remove (path : string)
| Copy (command : string)
| Move (command : string)
| Clear
| History
| Processes
| SystemStats
| External (command : string).

Definition dispatch (command : string) : action :=
  if String.eqb (PyStr.lower command) "exit" then Exit
  else if String.eqb (PyStr.lower command) "help" then Help
  else if PyStr.startswith command "cd " then
    ChangeDirectory (PyStr.drop 3 command)
  else if String.eqb command "cd" then ChangeDirectory EmptyString
  else if String.eqb command "pwd" then Pwd
  else if String.eqb command "ls" || PyStr.startswith command "ls " then
    ListFiles command
  else if PyStr.startswith command "mkdir " then
    MakeDirectory (PyStr.drop 6 command)
  else if PyStr.startswith command "rm " then Remove (PyStr.drop 3 command)
  else if PyStr.startswith command "cp " then Copy command
  else if PyStr.startswith command "mv " then Move command
  else if String.eqb command "clear" then Clear
  else if String.eqb command "history" then History
  else if String.eqb command "ps" then Processes
  else if String.eqb command "top" then SystemStats
  else External command.

Definition perform_action (a : action) : M unit :=
  match a with
  | Exit => modify (set_quit_called true)
  | Help => show_help
  | ChangeDirectory path => change_directory path
  | Pwd => cur <-- get current_dir ;; append cur
  | ListFiles command => list_files command
  | MakeDirectory path => make_directory path
  | Remove path => remove_file_or_dir path
  | Copy command => copy_file_or_dir command
  | Move command => move_file_or_dir command
  | Clear => modify (set_output_area [])
  | History => show_history
  | Processes => show_processes
  | SystemStats => show_system_stats
  | External command => execute_system_command command
  end.

Definition execute_command : M unit :=
  text <-- get input_field ;;
  let command := PyStr.strip text in
  modify (set_input_field EmptyString) ;;;
  if PyStr.is_empty command then ret tt
  else
    modify (fun t =>
      set_command_history (command_history t ++ [command]) t) ;;;
    modify (fun t =>
      set_history_index (Z.of_nat (List.length (command_history t))) t) ;;;
    append ("$ " ++ command)%string ;;;
    perform_action (dispatch command).

(** *** [keyPressEvent] *)

Inductive key : Type := Key_Up | Key_Down | Key_Other.

Definition keyPressEvent (k : key) : M unit :=
  hist <-- get command_history ;;
  idx <-- get history_index ;;
  let len := Z.of_nat (List.length hist) in
  match k with
  | Key_Up =>
      if negb (Z.eqb len 0) && (0 <? idx)%Z then
        modify (set_history_index (idx - 1)%Z) ;;;
        entry <-- lift (py_index hist (idx - 1)%Z) ;;
        modify (set_input_field entry)
      else ret tt
  | Key_Down =>
      if negb (Z.eqb len 0) && (idx <? len - 1)%Z then
        modify (set_history_index (idx + 1)%Z) ;;;
        entry <-- lift (py_index hist (idx + 1)%Z) ;;
        modify (set_input_field entry)
      else
        modify (set_history_index len) ;;;
        modify (set_input_field EmptyString)
  | Key_Other => ret tt
  end.

(** *** [__init__] *)

Definition init : Terminal :=
  {| current_dir := getcwd h;
     command_history := [];
     history_index := (-1)%Z;
     output_area := [welcome_msg (getcwd h)];
     input_field := EmptyString;
     prompt_label := (getlogin h ++ "@pyterm:$ ")%string;
     monitor_label := EmptyString;
     quit_called := false |}.

(** ** The event loop

    Between [__init__] and [QApplication.quit()] the widget is driven by
    events: the user edits the input line, presses Return or another key,
    the monitor timer fires, and meanwhile the world changes on its own.
    An event whose handler raises is not a step. *)

Inductive event : Type :=
| TextEdited (text : string)
| ReturnPressed
| KeyPressed (k : key)
| MonitorTimeout
| WorldChanged (w' : W).

Definition handle (e : event) : M unit :=
  match e with
  | TextEdited text => modify (set_input_field text)
  | ReturnPressed => execute_command
  | KeyPressed k => keyPressEvent k
  | MonitorTimeout => update_system_monitor
  | WorldChanged w' => fun t _ => (t, w', inr tt)
  end.

Inductive step : Terminal * W -> event -> Terminal * W -> Prop :=
| step_handled : forall t w e t' w',
    quit_called t = false ->
    handle e t w = (t', w', inr tt) ->
    step (t, w) e (t', w').

Inductive reachable (w0 : W) : Terminal * W -> Prop :=
| reachable_init : reachable w0 (init, w0)
| reachable_step : forall s e s',
    reachable w0 s -> step s e s' -> reachable w0 s'.

End Methods.

Arguments ret {W A}.
Arguments throw {W A}.
Arguments mbind {W A B}.
Arguments ask {W A}.
Arguments call {W A}.
Arguments perform {W A}.
Arguments lift {W A}.
Arguments get {W A}.
Arguments modify {W}.
Arguments try_except {W}.
Arguments for_each {W A}.
Arguments append {W}.
Arguments update_prompt {W}.
Arguments change_directory {W}.
Arguments detail_line {W}.
Arguments list_files {W}.
Arguments make_directory {W}.
Arguments remove_file_or_dir {W}.
Arguments copy_file_or_dir {W}.
Arguments move_file_or_dir {W}.
Arguments execute_system_command {W}.
Arguments show_help {W}.
Arguments show_history {W}.
Arguments show_processes {W}.
Arguments update_system_monitor {W}.
Arguments show_system_stats {W}.
Arguments perform_action {W}.
Arguments execute_command {W}.
Arguments keyPressEvent {W}.
Arguments init {W}.
Arguments handle {W}.
Arguments step {W}.
Arguments reachable {W}.

(** ** A small host for concrete runs

    A world is a table from normalised absolute paths to what is there,
    in the order the host lists them, and a process table. *)

Module Demo.

Inductive node : Type :=
| Directory
| Regular (size : N)
| Fifo
| DanglingLink.

Record world : Type := {
  nodes : list (string * node);
  processes : list proc_info
}.

Fixpoint lookup (tbl : list (string * node)) (p : string) : option node :=
  match tbl with
  | [] => None
  | (q, n) :: rest => if String.eqb q p then Some n else lookup rest p
  end.

Definition node_at (w : world) (p : string) : option node :=
  lookup (nodes w) (PosixPath.normpath p).

Definition quoted (p : string) : string := ("'" ++ p ++ "'")%string.

Definition enoent {A : Type} (p : string) : Result A :=
  raise ("[Errno 2] No such file or directory: " ++ quoted p)%string.

Definition is_child (dir p : string) : bool :=
  negb (PyStr.is_empty (PosixPath.basename p))
  && String.eqb p (PosixPath.join dir (PosixPath.basename p)).

Definition children (w : world) (dir : string) : list string :=
  map (fun e => PosixPath.basename (fst e))
    (filter (fun e => is_child dir (fst e)) (nodes w)).

Definition under (dir p : string) : bool :=
  String.eqb p dir || PyStr.startswith p (dir ++ "/")%string.

Definition remove_under (w : world) (dir : string) : world :=
  {| nodes := filter (fun e => negb (under dir (fst e))) (nodes w);
     processes := processes w |}.

Definition add_node (w : world) (p : string) (n : node) : world :=
  {| nodes := nodes w ++ [(p, n)]; processes := processes w |}.

(** Makes the directories named by the prefixes of [comps] below [base]. *)
Fixpoint make_prefixes (w : world) (base : string) (comps : list string)
    : world * Result unit :=
  match comps with
  | [] => (w, ok tt)
  | c :: rest =>
      if PyStr.is_empty c then make_prefixes w base rest
      else
        let p := PosixPath.join base c in
        match lookup (nodes w) p with
        | Some Directory => make_prefixes w p rest
        | Some _ => (w, raise ("[Errno 17] File exists: " ++ quoted p)%string)
        | None => make_prefixes (add_node w p Directory) p rest
        end
  end.

Definition demo_stat (w : world) (p : string) : Result stat_result :=
  match node_at w p with
  | Some Directory => ok {| st_size := 4096; st_mtime := 0 |}
  | Some (Regular n) => ok {| st_size := n; st_mtime := 0 |}
  | Some Fifo => ok {| st_size := 0; st_mtime := 0 |}
  | Some DanglingLink | None => enoent p
  end.

Definition demo_listdir (w : world) (p : string) : Result (list string) :=
  match node_at w p with
  | Some Directory => ok (children w (PosixPath.normpath p))
  | Some DanglingLink | None => enoent p
  | Some _ => raise ("[Errno 20] Not a directory: " ++ quoted p)%string
  end.

Definition demo_remove (w : world) (p : string) : world * Result unit :=
  match node_at w p with
  | Some Directory =>
      (w, raise ("[Errno 21] Is a directory: " ++ quoted p)%string)
  | Some _ => (remove_under w (PosixPath.normpath p), ok tt)
  | None => (w, enoent p)
  end.

Definition demo_rmtree (w : world) (p : string) : world * Result unit :=
  match node_at w p with
  | Some Directory => (remove_under w (PosixPath.normpath p), ok tt)
  | Some _ => (w, raise ("[Errno 20] Not a directory: " ++ quoted p)%string)
  | None => (w, enoent p)
  end.

Definition demo_copy2 (w : world) (src dst : string) : world * Result unit :=
  match node_at w src with
  | Some (Regular n) =>
      let target :=
        match node_at w dst with
        | Some Directory => PosixPath.join dst (PosixPath.basename src)
        | _ => dst
        end in
      (add_node (remove_under w (PosixPath.normpath target))
         (PosixPath.normpath target) (Regular n), ok tt)
  | Some Directory =>
      (w, raise ("[Errno 21] Is a directory: " ++ quoted src)%string)
  | _ => (w, enoent src)
  end.

Definition rebase (src dst p : string) : string :=
  (dst ++ PyStr.drop (String.length src) p)%string.

Definition demo_copytree (w : world) (src dst : string)
    : world * Result unit :=
  match node_at w dst with
  | Some _ => (w, raise ("[Errno 17] File exists: " ++ quoted dst)%string)
  | None =>
      let s := PosixPath.normpath src in
      let d := PosixPath.normpath dst in
      ({| nodes := nodes w
                   ++ map (fun e => (rebase s d (fst e), snd e))
                        (filter (fun e => under s (fst e)) (nodes w));
          processes := processes w |}, ok tt)
  end.

Definition demo_move (w : world) (src dst : string) : world * Result unit :=
  match node_at w src with
  | None => (w, enoent src)
  | Some _ =>
      let s := PosixPath.normpath src in
      let d :=
        match node_at w dst with
        | Some Directory =>
            PosixPath.normpath (PosixPath.join dst (PosixPath.basename s))
        | _ => PosixPath.normpath dst
        end in
      ({| nodes := map (fun e =>
                     if under s (fst e) then (rebase s d (fst e), snd e)
                     else e) (nodes w);
          processes := processes w |}, ok tt)
  end.

(** The shell has a command that writes a line to each stream, and a
    [mkdir] that misses its operand. *)
Definition demo_shell (w : world) (command cwd : string)
    : world * Result (string * string) :=
  if String.eqb command "warn" then
    (w, ok (("data" ++ nl)%string, ("warning" ++ nl)%string))
  else if String.eqb command "mkdir" then
    (w, ok (EmptyString, ("mkdir: missing operand" ++ nl)%string))
  else
    (w, ok (EmptyString,
            ("/bin/sh: 1: " ++ command ++ ": not found" ++ nl)%string)).

Definition host : Host world :=
  {| getcwd := "/home/user";
     getlogin := "user";
     expanduser_home := "/home/user";
     isdir := fun w p =>
       match node_at w p with Some Directory => true | _ => false end;
     isfile := fun w p =>
       match node_at w p with Some (Regular _) => true | _ => false end;
     exists_ := fun w p =>
       match node_at w p with
       | Some DanglingLink | None => false
       | Some _ => true
       end;
     access := fun w p _ =>
       match node_at w p with
       | Some DanglingLink | None => false
       | Some _ => true
       end;
     listdir := demo_listdir;
     stat := demo_stat;
     strftime_local := fun t =>
       if Qeq_bool t 0 then ok "1970-01-01 00:00"
       else if Qle_bool 0 t && Qle_bool t 253402300799
       then ok "2024-01-01 00:00"
       else raise "year 10000 is out of range";
     repr_float := PyStr.format_1f;
     makedirs := fun w p =>
       make_prefixes w "/" (PosixPath.split_sep (PosixPath.normpath p));
     rmtree := demo_rmtree;
     remove := demo_remove;
     copytree := demo_copytree;
     copy2 := demo_copy2;
     move := demo_move;
     popen_communicate := demo_shell;
     process_iter := fun w => ok (processes w);
     cpu_count := fun _ => ok (Some 1%N);
     cpu_percent_total := fun _ => ok 0%Q;
     cpu_percent_percpu := fun _ => ok [0%Q];
     virtual_memory := fun _ =>
       ok {| total := 1073741824; used := 536870912; percent := 50 |};
     disk_usage_root := fun _ =>
       ok {| total := 1073741824; used := 268435456; percent := 25 |} |}.

Definition long_name : string := "a_file_with_a_quite_long_name_here.txt".

(** [/home/user] holds two directories, a regular file, a hidden file, a
    named pipe and a symbolic link whose target is gone. *)
Definition home_world : world :=
  {| nodes := [ ("/", Directory);
                ("/home", Directory);
                ("/home/user", Directory);
                ("/home/user/docs", Directory);
                ("/home/user/my dir", Directory);
                ("/home/user/notes.txt", Regular 120);
                ("/home/user/.profile", Regular 64);
                ("/home/user/pipe", Fifo);
                ("/home/user/stale", DanglingLink);
                ("/home/user/docs/sub", Directory);
                (("/home/user/docs/" ++ long_name)%string, Regular 7);
                ("/home/user/docs/b", Regular 1) ];
     processes :=
       [ {| pid := 1; name := Some "init"; username := Some "root";
            cpu_percent := None; memory_info := None |} ] |}.

(** The widget after the user typed [text]. *)
Definition typed (text : string) (t : Terminal) : Terminal :=
  set_input_field text t.

(** Runs the lines one after the other from the start-up state and returns
    the output pane. *)
Fixpoint run_lines (lines : list string) (t : Terminal) (w : world)
    : Terminal * world :=
  match lines with
  | [] => (t, w)
  | l :: rest =>
      match execute_command host (typed l t) w with
      | (t', w', _) => run_lines rest t' w'
      end
  end.

End Demo.

(** * The vocabulary of the properties

    The definitions below say nothing new about the program: they name
    what the statements talk about. *)

(** What [execute_command] does before it looks at the verb: the line is
    taken from the input field, recorded and echoed. *)
Definition accepted (command : string) (t : Terminal) : Terminal :=
  set_output_area (output_area t ++ [("$ " ++ command)%string])
    (set_history_index
       (Z.of_nat (List.length (command_history t ++ [command])))
       (set_command_history (command_history t ++ [command])
          (set_input_field EmptyString t))).

(** The blocks [execute_system_command] appends for the two captured
    streams. *)
Definition stream_blocks (stdout stderr : string) : list string :=
  (if PyStr.is_empty stdout then [] else [stdout])
  ++ (if PyStr.is_empty stderr then [] else [("Error: " ++ stderr)%string]).

(** The verbs of the built-in table. *)
Inductive verb : Type :=
| VExit | VHelp | VCd | VPwd | VLs | VMkdir | VRm | VCp | VMv
| VClear | VHistory | VPs | VTop.

(** The built-in an action runs; the external executor is none. *)
Definition builtin_of (a : action) : option verb :=
  match a with
  | Exit => Some VExit
  | Help => Some VHelp
  | ChangeDirectory _ => Some VCd
  | Pwd => Some VPwd
  | ListFiles _ => Some VLs
  | MakeDirectory _ => Some VMkdir
  | Remove _ => Some VRm
  | Copy _ => Some VCp
  | Move _ => Some VMv
  | Clear => Some VClear
  | History => Some VHistory
  | Processes => Some VPs
  | SystemStats => Some VTop
  | External _ => None
  end.

(** The verb table as the specification has it: [exit] and [help] in any
    case, the others in lower case. *)
Definition verb_of_token (tok : string) : option verb :=
  if String.eqb (PyStr.lower tok) "exit" then Some VExit
  else if String.eqb (PyStr.lower tok) "help" then Some VHelp
  else if String.eqb tok "cd" then Some VCd
  else if String.eqb tok "pwd" then Some VPwd
  else if String.eqb tok "ls" then Some VLs
  else if String.eqb tok "mkdir" then Some VMkdir
  else if String.eqb tok "rm" then Some VRm
  else if String.eqb tok "cp" then Some VCp
  else if String.eqb tok "mv" then Some VMv
  else if String.eqb tok "clear" then Some VClear
  else if String.eqb tok "history" then Some VHistory
  else if String.eqb tok "ps" then Some VPs
  else if String.eqb tok "top" then Some VTop
  else None.

(** The dispatcher in the words of the specification: the first token of
    the line, looked up in the verb table. *)
Definition first_token_verb (command : string) : option verb :=
  match Shlex.split command with
  | inr (tok :: _) => verb_of_token tok
  | _ => None
  end.

(** The first word of a line: what stands before its first blank. *)
Fixpoint first_word (c : string) : string :=
  match c with
  | EmptyString => EmptyString
  | String a rest =>
      if Ascii.eqb a " " then EmptyString else String a (first_word rest)
  end.

(** What the [if]/[elif] chain tests: the whole line for the verbs without
    arguments, the verb and one blank at the start of the line for the
    others. *)
Inductive selects (c : string) : action -> Prop :=
| sel_exit : PyStr.lower c = "exit" -> selects c Exit
| sel_help : PyStr.lower c = "help" -> selects c Help
| sel_cd_arg : forall p, c = ("cd " ++ p)%string ->
    selects c (ChangeDirectory p)
| sel_cd : c = "cd" -> selects c (ChangeDirectory EmptyString)
| sel_pwd : c = "pwd" -> selects c Pwd
| sel_ls : c = "ls" \/ (exists r, c = ("ls " ++ r)%string) ->
    selects c (ListFiles c)
| sel_mkdir : forall p, c = ("mkdir " ++ p)%string ->
    selects c (MakeDirectory p)
| sel_rm : forall p, c = ("rm " ++ p)%string -> selects c (Remove p)
| sel_cp : (exists r, c = ("cp " ++ r)%string) -> selects c (Copy c)
| sel_mv : (exists r, c = ("mv " ++ r)%string) -> selects c (Move c)
| sel_clear : c = "clear" -> selects c Clear
| sel_history : c = "history" -> selects c History
| sel_ps : c = "ps" -> selects c Processes
| sel_top : c = "top" -> selects c SystemStats
| sel_external :
    PyStr.lower c <> "exit" -> PyStr.lower c <> "help" ->
    ~ In c ["cd"; "pwd"; "ls"; "clear"; "history"; "ps"; "top"] ->
    (forall v r, In v ["cd"; "ls"; "mkdir"; "rm"; "cp"; "mv"] ->
                 c <> (v ++ " " ++ r)%string) ->
    selects c (External c).

(** An entry [ls] hides unless [-a] is given. *)
Definition hidden (f : string) : bool := PyStr.startswith f ".".

(** The strings of a list put end to end. *)
Definition join_all (l : list string) : string :=
  fold_right String.append EmptyString l.

Section Views.

Variable W : Type.
Variable h : Host W.

(** The line [detail_line] returns, as a function of the world: the text
    for a given [stat] result and rendered time, and the result or the
    exception of [stat] or of the rendering. *)
Definition detail_text (w : W) (full_path shown : string)
    (st : stat_result) (mtime : string) : string :=
  ((if isfile h w full_path then "-" else "d")
   ++ (if access h w full_path R_OK then "r" else "-")
   ++ (if access h w full_path W_OK then "w" else "-")
   ++ (if access h w full_path X_OK then "x" else "-")
   ++ " " ++ PyStr.rjust (PyStr.of_N (st_size st)) 8 ++ " "
   ++ mtime ++ " " ++ shown)%string.

Definition detail_of (w : W) (full_path shown : string) : Result string :=
  st <- stat h w full_path ;;
  mtime <- strftime_local h (st_mtime st) ;;
  ok (detail_text w full_path shown st mtime).

(** The lines the long format prints for [files], up to the first entry
    whose line the host cannot give, and the exception met there. *)
Fixpoint long_lines (w : W) (path : string) (files : list string)
    : list string * option string :=
  match files with
  | [] => ([], None)
  | f :: rest =>
      match detail_of w (PosixPath.join path f) f with
      | inl e => ([], Some e)
      | inr line =>
          let (lines, err) := long_lines w path rest in (line :: lines, err)
      end
  end.

(** A computation that leaves [command_history] and [history_index] as
    they are, whatever it returns. *)
Definition keeps_history {A : Type} (m : M W A) : Prop :=
  forall t w,
    command_history (fst (fst (m t w))) = command_history t
    /\ history_index (fst (fst (m t w))) = history_index t.

End Views.

Arguments detail_text {W}.
Arguments detail_of {W}.
Arguments long_lines {W}.
Arguments keeps_history {W A}.

Definition history_length (t : Terminal) : Z :=
  Z.of_nat (List.length (command_history t)).

(** The range the specification gives the cursor. *)
Definition cursor_in_range (t : Terminal) : Prop :=
  (0 <= history_index t <= history_length t)%Z.

(** The cursor as the program keeps it: [-1] as long as nothing was
    recorded and the Down key was not pressed, in range afterwards. *)
Definition cursor_ok (t : Terminal) : Prop :=
  (history_index t = (-1)%Z /\ command_history t = [])
  \/ cursor_in_range t.

(** ** Views, runs and key presses *)

(** A line of white space only. *)
Fixpoint all_space (s : string) : bool :=
  match s with
  | EmptyString => true
  | String c s' => PyStr.isspace c && all_space s'
  end.

(** A word the tokenizer takes as it is: not empty, and without white
    space, quote or backslash. *)
Definition plain_char (c : ascii) : bool :=
  negb (Shlex.is_whitespace c) && negb (Shlex.is_quote c)
  && negb (Shlex.is_escape c).

Fixpoint all_plain (s : string) : bool :=
  match s with
  | EmptyString => true
  | String c s' => plain_char c && all_plain s'
  end.

Definition plain_word (s : string) : bool :=
  negb (PyStr.is_empty s) && all_plain s.

(** The words of a line with one blank between them. *)
Fixpoint unwords (ws : list string) : string :=
  match ws with
  | [] => EmptyString
  | [w] => w
  | w :: rest => (w ++ " " ++ unwords rest)%string
  end.

Section Runs.

Variable W : Type.
Variable h : Host W.

(** The user replaces the text of the input field by [text] and presses
    Return. *)
Definition submit (text : string) : M W unit :=
  fun t w => execute_command h (set_input_field text t) w.

(** The user submits the lines one after the other. *)
Fixpoint submit_all (lines : list string) (t : Terminal) (w : W)
    : Terminal * W :=
  match lines with
  | [] => (t, w)
  | l :: rest =>
      match submit l t w with
      | (t', w', _) => submit_all rest t' w'
      end
  end.

(** The widget after [n] presses of [k], as long as the handler does not
    raise. *)
Fixpoint press (k : key) (n : nat) (t : Terminal) (w : W)
    : Result Terminal :=
  match n with
  | O => ok t
  | S n' =>
      match keyPressEvent k t w with
      | (t', _, inr _) => press k n' t' w
      | (_, _, inl e) => raise e
      end
  end.

(** A computation that no exception leaves, whatever the widget and the
    world are. *)
Definition never_raises {A : Type} (m : M W A) : Prop :=
  forall t w, exists a, snd (m t w) = inr a.

(** A computation that leaves what [view] shows of the widget and the
    world as it is. *)
Definition keeps_view {V A : Type} (view : Terminal -> W -> V)
    (m : M W A) : Prop :=
  forall t w, view (fst (fst (m t w))) (snd (fst (m t w))) = view t w.

End Runs.

Arguments submit {W}.
Arguments submit_all {W}.
Arguments press {W}.
Arguments never_raises {W A}.
Arguments keeps_view {W V A}.

(** The demo host with a shell that cannot start in a directory that is
    not there, as [Popen] cannot. *)
Definition strict_host : Host Demo.world :=
  {| getcwd := getcwd Demo.host;
     getlogin := getlogin Demo.host;
     expanduser_home := expanduser_home Demo.host;
     isdir := isdir Demo.host;
     isfile := isfile Demo.host;
     exists_ := exists_ Demo.host;
     access := access Demo.host;
     listdir := listdir Demo.host;
     stat := stat Demo.host;
     strftime_local := strftime_local Demo.host;
     repr_float := repr_float Demo.host;
     makedirs := makedirs Demo.host;
     rmtree := rmtree Demo.host;
     remove := remove Demo.host;
     copytree := copytree Demo.host;
     copy2 := copy2 Demo.host;
     move := move Demo.host;
     popen_communicate := fun w command cwd =>
       if isdir Demo.host w cwd then popen_communicate Demo.host w command cwd
       else (w, Demo.enoent cwd);
     process_iter := process_iter Demo.host;
     cpu_count := cpu_count Demo.host;
     cpu_percent_total := cpu_percent_total Demo.host;
     cpu_percent_percpu := cpu_percent_percpu Demo.host;
     virtual_memory := virtual_memory Demo.host;
     disk_usage_root := disk_usage_root Demo.host |}.

(** The demo world with a process table that has every CPU percentage. *)
Definition busy_world : Demo.world :=
  {| Demo.nodes := Demo.nodes Demo.home_world;
     Demo.processes :=
       [ {| pid := 1; name := Some "init"; username := Some "root";
            cpu_percent := Some (0 # 1)%Q; memory_info := Some 1048576%N |};
         {| pid := 42; name := Some "python"; username := Some "user";
            cpu_percent := Some (25 # 2)%Q; memory_info := None |} ] |}.

(** A world with a directory [/srv] that holds a symbolic link whose
    target is gone and a named pipe, both hidden, and a regular file. *)
Definition hidden_world : Demo.world :=
  {| Demo.nodes := [ ("/", Demo.Directory);
                     ("/home", Demo.Directory);
                     ("/home/user", Demo.Directory);
                     ("/srv", Demo.Directory);
                     ("/srv/.lock", Demo.DanglingLink);
                     ("/srv/.sock", Demo.Fifo);
                     ("/srv/a", Demo.Regular 1) ];
     Demo.processes := [] |}.

(** The actions that only read the world. *)
Definition read_only (a : action) : bool :=
  match a with
  | MakeDirectory _ | Remove _ | Copy _ | Move _ | External _ => false
  | _ => true
  end.

(** Descending by [cpu_key]. *)
Definition cpu_ge (p q : proc_info) : Prop := (cpu_key q <= cpu_key p)%Q.

(** The line [ps] prints for a process whose CPU percentage is [c]. *)
Definition process_row (p : proc_info) (c : Q) : string :=
  (PyStr.of_N (pid p) ++ tab ++ str_opt id (name p) ++ tab
   ++ str_opt id (username p) ++ tab ++ PyStr.format_1f c ++ tab
   ++ PyStr.format_1f
        match memory_info p with
        | Some rss => ((Z.of_N rss # 1) / (1024 # 1) / (1024 # 1))%Q
        | None => 0%Q
        end ++ "MB")%string.

(** The lines of [history] for the commands [cmds], the first of them
    numbered [i + 1]. *)
Definition numbered (i : nat) (cmds : list string) : list string :=
  map (fun ic => (PyStr.of_nat (fst ic + 1) ++ ": " ++ snd ic)%string)
    (enumerate_from i cmds).

(** * Properties *)

(** ** Strings *)

Section StringFacts.

Import PyStr.

Lemma rstrip_fixed (s : string) : rstrip (rstrip s) = rstrip s.
Proof.
  induction s as [|c s IH]; simpl; [reflexivity|].
  destruct (rstrip s) as [|a r] eqn:E.
  - destruct (isspace c) eqn:Ec; simpl; [reflexivity|].
    now rewrite Ec.
  - change (rstrip (String c (String a r))) with
      (match rstrip (String a r) with
       | EmptyString =>
           if isspace c then EmptyString else String c EmptyString
       | String _ _ as r' => String c r'
       end).
    now rewrite IH.
Qed.

Lemma strip_fixed (s : string) : rstrip (strip s) = strip s.
Proof. apply rstrip_fixed. Qed.

(** A stripped line does not end with the blank that follows a verb. *)
Lemma strip_verb_argument (text verb arg : string) :
  strip text = (verb ++ " " ++ arg)%string -> arg <> EmptyString.
Proof.
  intros E ->.
  pose proof (strip_fixed text) as F. rewrite E in F.
  clear E. induction verb as [|c v IH]; simpl in F; [discriminate|].
  destruct (rstrip (v ++ " ")%string) as [|a r] eqn:Ev.
  - destruct (isspace c); [discriminate|].
    injection F as F. destruct v; discriminate.
  - injection F as F. apply IH. simpl. rewrite Ev. exact F.
Qed.

Lemma is_empty_spec (s : string) : is_empty s = true <-> s = EmptyString.
Proof. destruct s; simpl; split; congruence. Qed.

Lemma is_empty_false (s : string) : is_empty s = false <-> s <> EmptyString.
Proof. destruct s; simpl; split; congruence. Qed.

Lemma startswith_append (p s : string) : startswith (p ++ s) p = true.
Proof.
  induction p as [|c p IH]; simpl; [reflexivity|].
  now rewrite Ascii.eqb_refl.
Qed.

Lemma startswith_inv (s p : string) :
  startswith s p = true -> s = (p ++ drop (String.length p) s)%string.
Proof.
  revert s.
  induction p as [|c p IH]; intros s H; simpl in *; [reflexivity|].
  destruct s as [|d s]; [discriminate|].
  destruct (Ascii.eqb c d) eqn:E; [|discriminate].
  apply Ascii.eqb_eq in E. subst d. simpl. f_equal. now apply IH.
Qed.

Lemma drop_append (p s : string) : drop (String.length p) (p ++ s) = s.
Proof. induction p; simpl; auto. Qed.

Lemma string_length_append (a b : string) :
  String.length (a ++ b) = String.length a + String.length b.
Proof. induction a; simpl; auto. Qed.

Lemma string_append_assoc (a b c : string) :
  ((a ++ b) ++ c = a ++ b ++ c)%string.
Proof. induction a; simpl; [reflexivity | now f_equal]. Qed.

Lemma spaces_length (n : nat) : String.length (spaces n) = n.
Proof. induction n; simpl; auto. Qed.

Lemma ljust_length (s : string) (w : nat) :
  String.length (ljust s w) = Nat.max (String.length s) w.
Proof.
  unfold ljust. rewrite string_length_append, spaces_length. lia.
Qed.

End StringFacts.

(** ** The dispatcher on lines that begin with a verb and a blank *)

Section DispatchFacts.

Lemma dispatch_cd (p : string) :
  dispatch ("cd " ++ p) = ChangeDirectory p.
Proof. reflexivity. Qed.

Lemma dispatch_mkdir (p : string) :
  dispatch ("mkdir " ++ p) = MakeDirectory p.
Proof. reflexivity. Qed.

Lemma dispatch_rm (p : string) : dispatch ("rm " ++ p) = Remove p.
Proof. reflexivity. Qed.

Lemma dispatch_cp (p : string) :
  dispatch ("cp " ++ p) = Copy ("cp " ++ p).
Proof. reflexivity. Qed.

Lemma dispatch_mv (p : string) :
  dispatch ("mv " ++ p) = Move ("mv " ++ p).
Proof. reflexivity. Qed.

Lemma dispatch_ls (p : string) :
  dispatch ("ls " ++ p) = ListFiles ("ls " ++ p).
Proof. reflexivity. Qed.

End DispatchFacts.

(** ** [cd] *)

Lemma execute_command_accepted (W : Type) (h : Host W) (t : Terminal)
    (w : W) (command : string) :
  PyStr.strip (input_field t) = command ->
  command <> EmptyString ->
  execute_command h t w
  = perform_action h (dispatch command) (accepted command t) w.
Proof.
  intros E N. unfold execute_command, mbind, get, modify. rewrite E.
  apply is_empty_false in N. rewrite N. reflexivity.
Qed.

(** C1.  Submitting [cd P]: when the resolved path is not a directory the
    current directory stays and the only output after the echoed line is
    the error naming [P] as typed; when it is a directory it becomes the
    current directory and nothing is printed after the echoed line. *)
Theorem cd_outcome (W : Type) (h : Host W) (t : Terminal) (w : W)
    (P : string) :
  PyStr.strip (input_field t) = ("cd " ++ P)%string ->
  exists t',
    execute_command h t w = (t', w, inr tt)
    /\ (isdir h w (PosixPath.abspath (getcwd h)
                     (PosixPath.join (current_dir t) P)) = false ->
        current_dir t' = current_dir t
        /\ output_area t'
           = output_area t
             ++ [("$ cd " ++ P)%string;
                 ("Error: Directory not found: " ++ P)%string])
    /\ (isdir h w (PosixPath.abspath (getcwd h)
                     (PosixPath.join (current_dir t) P)) = true ->
        current_dir t'
        = PosixPath.abspath (getcwd h) (PosixPath.join (current_dir t) P)
        /\ output_area t' = output_area t ++ [("$ cd " ++ P)%string]).
Proof.
  intros E.
  assert (NP : P <> EmptyString) by exact (strip_verb_argument _ "cd" _ E).
  rewrite (execute_command_accepted W h t w _ E) by discriminate.
  rewrite dispatch_cd. cbn [perform_action].
  unfold change_directory, try_except, mbind, get, ask.
  apply is_empty_false in NP. rewrite NP.
  cbn [accepted current_dir set_output_area set_history_index
       set_command_history set_input_field].
  destruct (isdir h w _) eqn:D.
  - eexists. split; [reflexivity|]. split; [discriminate|].
    intros _. split; [reflexivity|].
    cbn. reflexivity.
  - eexists. split; [reflexivity|]. split; [|discriminate].
    intros _. split; [reflexivity|].
    cbn. rewrite <- app_assoc. reflexivity.
Qed.

Lemma cd_outcome_witness :
  PyStr.strip (input_field (Demo.typed "cd nope" (init Demo.host)))
  = "cd nope"
  /\ exists t',
       execute_command Demo.host (Demo.typed "cd nope" (init Demo.host))
         Demo.home_world = (t', Demo.home_world, inr tt)
       /\ (isdir Demo.host Demo.home_world
             (PosixPath.abspath (getcwd Demo.host)
                (PosixPath.join
                   (current_dir (Demo.typed "cd nope" (init Demo.host)))
                   "nope")) = false ->
           current_dir t'
           = current_dir (Demo.typed "cd nope" (init Demo.host))
           /\ output_area t'
              = output_area (Demo.typed "cd nope" (init Demo.host))
                ++ ["$ cd nope"; "Error: Directory not found: nope"])
       /\ (isdir Demo.host Demo.home_world
             (PosixPath.abspath (getcwd Demo.host)
                (PosixPath.join
                   (current_dir (Demo.typed "cd nope" (init Demo.host)))
                   "nope")) = true ->
           current_dir t'
           = PosixPath.abspath (getcwd Demo.host)
               (PosixPath.join
                  (current_dir (Demo.typed "cd nope" (init Demo.host)))
                  "nope")
           /\ output_area t'
              = output_area (Demo.typed "cd nope" (init Demo.host))
                ++ ["$ cd nope"]).
Proof.
  split; [reflexivity|].
  apply (cd_outcome Demo.world Demo.host
           (Demo.typed "cd nope" (init Demo.host)) Demo.home_world "nope").
  reflexivity.
Defined.

(** ** The dispatcher and the verb table *)

Section DispatcherProperties.

Import PyStr.

(** A letter that lowers to a lower-case ASCII letter [l] is [l] or its
    capital. *)
Lemma lower_char_inv (a l : ascii) :
  In l ["e"; "x"; "i"; "t"; "h"; "l"; "p"]%char ->
  lower_char a = l ->
  a = l \/ a = ascii_of_nat (nat_of_ascii l - 32).
Proof.
  intros Hl E.
  destruct a as [[] [] [] [] [] [] [] []];
    vm_compute in E; subst l;
    simpl in Hl; try (left; reflexivity); try (right; reflexivity);
    exfalso; repeat (destruct Hl as [Hl|Hl]; [discriminate Hl|]);
    exact Hl.
Qed.

Lemma lower_four (c : string) (l1 l2 l3 l4 : ascii) :
  In l1 ["e"; "x"; "i"; "t"; "h"; "l"; "p"]%char ->
  In l2 ["e"; "x"; "i"; "t"; "h"; "l"; "p"]%char ->
  In l3 ["e"; "x"; "i"; "t"; "h"; "l"; "p"]%char ->
  In l4 ["e"; "x"; "i"; "t"; "h"; "l"; "p"]%char ->
  lower c = String l1 (String l2 (String l3 (String l4 EmptyString))) ->
  exists a1 a2 a3 a4,
    c = String a1 (String a2 (String a3 (String a4 EmptyString)))
    /\ (a1 = l1 \/ a1 = ascii_of_nat (nat_of_ascii l1 - 32))
    /\ (a2 = l2 \/ a2 = ascii_of_nat (nat_of_ascii l2 - 32))
    /\ (a3 = l3 \/ a3 = ascii_of_nat (nat_of_ascii l3 - 32))
    /\ (a4 = l4 \/ a4 = ascii_of_nat (nat_of_ascii l4 - 32)).
Proof.
  intros H1 H2 H3 H4 E.
  destruct c as [|a1 [|a2 [|a3 [|a4 [|a5 c]]]]]; try discriminate E.
  simpl in E. injection E as E1 E2 E3 E4.
  exists a1, a2, a3, a4. split; [reflexivity|].
  repeat split; eapply lower_char_inv; eassumption.
Qed.

(** A line that is [exit] or [help] in some case is its own single token,
    and the verb table knows it. *)
Lemma first_token_verb_exit (c : string) :
  lower c = "exit" -> first_token_verb c = Some VExit.
Proof.
  intros E.
  destruct (lower_four c "e" "x" "i" "t") as (a1 & a2 & a3 & a4 & -> & H);
    simpl; auto 10.
  destruct H as ([-> | ->] & [-> | ->] & [-> | ->] & [-> | ->]);
    reflexivity.
Qed.

Lemma first_token_verb_help (c : string) :
  lower c = "help" -> first_token_verb c = Some VHelp.
Proof.
  intros E.
  destruct (lower_four c "h" "e" "l" "p") as (a1 & a2 & a3 & a4 & -> & H);
    simpl; auto 10.
  destruct H as ([-> | ->] & [-> | ->] & [-> | ->] & [-> | ->]);
    reflexivity.
Qed.

(** After a verb and a blank the tokenizer has the verb as first token, or
    fails on what follows. *)
Lemma first_token_after_verb (v r : string) (k : verb) :
  In (v, k) [("cd", VCd); ("ls", VLs); ("mkdir", VMkdir); ("rm", VRm);
             ("cp", VCp); ("mv", VMv)] ->
  first_token_verb (v ++ " " ++ r) = Some k
  \/ exists e, Shlex.split (v ++ " " ++ r) = inl e.
Proof.
  intros H. simpl in H.
  repeat (destruct H as [H|H];
          [injection H as <- <-;
           unfold first_token_verb, Shlex.split; cbn;
           destruct (Shlex.read_tokens r Shlex.Blank EmptyString false
                       Shlex.Blank) as [e|ts];
           [right; eexists; reflexivity | left; reflexivity]|]).
  destruct H.
Qed.

End DispatcherProperties.

Section DispatcherTheorems.

Import PyStr.

Lemma startswith_verb_false (c v : string) :
  startswith c (v ++ " ") = false ->
  forall r, c <> (v ++ " " ++ r)%string.
Proof.
  intros F r ->.
  rewrite <- string_append_assoc, startswith_append in F. discriminate.
Qed.

Lemma startswith_verb_true (c v : string) :
  startswith c (v ++ " ") = true ->
  c = (v ++ " " ++ drop (String.length (v ++ " ")) c)%string.
Proof.
  intros T. apply startswith_inv in T.
  rewrite T at 1. apply string_append_assoc.
Qed.

Lemma dispatch_selects (c : string) (a : action) :
  dispatch c = a <-> selects c a.
Proof.
  split.
  - intros <-. unfold dispatch.
    destruct (String.eqb (lower c) "exit") eqn:T1;
      [apply String.eqb_eq in T1; now constructor|].
    destruct (String.eqb (lower c) "help") eqn:T2;
      [apply String.eqb_eq in T2; now constructor|].
    destruct (startswith c "cd ") eqn:T3;
      [apply (startswith_verb_true c "cd") in T3; now constructor|].
    destruct (String.eqb c "cd") eqn:T4;
      [apply String.eqb_eq in T4; now constructor|].
    destruct (String.eqb c "pwd") eqn:T5;
      [apply String.eqb_eq in T5; now constructor|].
    destruct (String.eqb c "ls") eqn:T6;
      [apply String.eqb_eq in T6; constructor; now left|].
    destruct (startswith c "ls ") eqn:T7;
      [apply (startswith_verb_true c "ls") in T7; constructor; right;
       eexists; exact T7|].
    cbn [orb].
    destruct (startswith c "mkdir ") eqn:T8;
      [apply (startswith_verb_true c "mkdir") in T8; now constructor|].
    destruct (startswith c "rm ") eqn:T9;
      [apply (startswith_verb_true c "rm") in T9; now constructor|].
    destruct (startswith c "cp ") eqn:T10;
      [apply (startswith_verb_true c "cp") in T10; constructor;
       eexists; exact T10|].
    destruct (startswith c "mv ") eqn:T11;
      [apply (startswith_verb_true c "mv") in T11; constructor;
       eexists; exact T11|].
    destruct (String.eqb c "clear") eqn:T12;
      [apply String.eqb_eq in T12; now constructor|].
    destruct (String.eqb c "history") eqn:T13;
      [apply String.eqb_eq in T13; now constructor|].
    destruct (String.eqb c "ps") eqn:T14;
      [apply String.eqb_eq in T14; now constructor|].
    destruct (String.eqb c "top") eqn:T15;
      [apply String.eqb_eq in T15; now constructor|].
    apply String.eqb_neq in T1, T2, T4, T5, T6, T12, T13, T14, T15.
    constructor; try assumption.
    + simpl. intuition congruence.
    + intros v r Hv. simpl in Hv.
      destruct Hv as [<-|[<-|[<-|[<-|[<-|[<-|[]]]]]]];
        now apply startswith_verb_false.
  - intros H. destruct H as
      [E|E|p E|E|E|E|p E|p E|E|E|E|E|E|E|N1 N2 N3 N4].
    + unfold dispatch. now rewrite E.
    + unfold dispatch. now rewrite E.
    + now subst c.
    + now subst c.
    + now subst c.
    + destruct E as [->|[r ->]]; reflexivity.
    + now subst c.
    + now subst c.
    + destruct E as [r ->]; reflexivity.
    + destruct E as [r ->]; reflexivity.
    + now subst c.
    + now subst c.
    + now subst c.
    + now subst c.
    + unfold dispatch.
      apply String.eqb_neq in N1, N2. rewrite N1, N2.
      assert (P : forall v, In v ["cd"; "ls"; "mkdir"; "rm"; "cp"; "mv"] ->
                  startswith c (v ++ " ") = false).
      { intros v Hv. destruct (startswith c (v ++ " ")) eqn:T; auto.
        apply startswith_verb_true in T. now apply N4 in T. }
      assert (Q : forall v,
                 In v ["cd"; "pwd"; "ls"; "clear"; "history"; "ps"; "top"] ->
                 String.eqb c v = false).
      { intros v Hv. apply String.eqb_neq. now intros ->. }
      pose proof (P "cd") as P1. pose proof (P "ls") as P2.
      pose proof (P "mkdir") as P3. pose proof (P "rm") as P4.
      pose proof (P "cp") as P5. pose proof (P "mv") as P6.
      cbn [String.append] in P1, P2, P3, P4, P5, P6.
      rewrite P1, P2, P3, P4, P5, P6 by (simpl; auto 10).
      rewrite (Q "cd"), (Q "pwd"), (Q "ls"), (Q "clear"), (Q "history"),
        (Q "ps"), (Q "top") by (simpl; auto 10).
      reflexivity.
Qed.

(** C2, as stated, fails: the first token of [pwd x] is the verb [pwd],
    and the line goes to the external executor. *)
Lemma first_token_dispatch_fails :
  first_token_verb "pwd x" = Some VPwd
  /\ dispatch "pwd x" = External "pwd x"
  /\ ~ (forall command, command <> EmptyString ->
          builtin_of (dispatch command) = first_token_verb command).
Proof.
  split; [reflexivity|]. split; [reflexivity|].
  intros H. specialize (H "pwd x"). discriminate H. discriminate.
Qed.

(** C2, amended.  The dispatcher selects [exit] and [help] when the whole
    line is the verb in any case, [pwd], [clear], [history], [ps] and
    [top] when the whole line is the verb, [cd] and [ls] when the line is
    the verb or starts with the verb and a blank, and [mkdir], [rm], [cp]
    and [mv] when the line starts with the verb and a blank.  A line
    that passes none of these tests, and is not one of the bare verbs
    [mkdir], [rm], [cp] and [mv], goes to the external executor.  When a
    built-in is selected, it is the first word of the line, and its first
    token whenever the tokenizer splits the line; so a line whose first
    token is no verb goes to the external executor. *)
Theorem dispatch_by_line (c : string) :
  (~ In c ["mkdir"; "rm"; "cp"; "mv"] ->
   forall a, dispatch c = a <-> selects c a)
  /\ (forall v, builtin_of (dispatch c) = Some v ->
        verb_of_token (first_word c) = Some v)
  /\ (forall v tok toks,
        Shlex.split c = inr (tok :: toks) ->
        builtin_of (dispatch c) = Some v -> verb_of_token tok = Some v)
  /\ (forall tok toks, Shlex.split c = inr (tok :: toks) ->
        verb_of_token tok = None -> dispatch c = External c).
Proof.
  assert (B : forall v, builtin_of (dispatch c) = Some v ->
            first_token_verb c = Some v \/ exists e, Shlex.split c = inl e).
  { intros v Hv.
    destruct (proj1 (dispatch_selects c _) eq_refl) as
      [E|E|p E|E|E|E|p E|p E|E|E|E|E|E|E|N1 N2 N3 N4];
      try (injection Hv as <-); try discriminate Hv;
      try (subst c; left; reflexivity).
    - left. now apply first_token_verb_exit.
    - left. now apply first_token_verb_help.
    - subst c. apply (first_token_after_verb "cd"). simpl; auto 10.
    - destruct E as [->|[r ->]]; [left; reflexivity|].
      apply (first_token_after_verb "ls"). simpl; auto 10.
    - subst c. apply (first_token_after_verb "mkdir"). simpl; auto 10.
    - subst c. apply (first_token_after_verb "rm"). simpl; auto 10.
    - destruct E as [r ->].
      apply (first_token_after_verb "cp"). simpl; auto 10.
    - destruct E as [r ->].
      apply (first_token_after_verb "mv"). simpl; auto 10. }
  assert (T : forall v tok toks,
            Shlex.split c = inr (tok :: toks) ->
            builtin_of (dispatch c) = Some v -> verb_of_token tok = Some v).
  { intros v tok toks S Hv. destruct (B v Hv) as [F|[e F]].
    - unfold first_token_verb in F. now rewrite S in F.
    - congruence. }
  split; [intros _ a; apply dispatch_selects|]. split; [|split].
  - intros v Hv.
    destruct (proj1 (dispatch_selects c _) eq_refl) as
      [E|E|p E|E|E|E|p E|p E|E|E|E|E|E|E|N1 N2 N3 N4];
      try (injection Hv as <-); try discriminate Hv;
      try (subst c; reflexivity).
    + destruct (lower_four c "e" "x" "i" "t")
        as (a1 & a2 & a3 & a4 & -> & H); simpl; auto 10.
      destruct H as ([-> | ->] & [-> | ->] & [-> | ->] & [-> | ->]);
        reflexivity.
    + destruct (lower_four c "h" "e" "l" "p")
        as (a1 & a2 & a3 & a4 & -> & H); simpl; auto 10.
      destruct H as ([-> | ->] & [-> | ->] & [-> | ->] & [-> | ->]);
        reflexivity.
    + destruct E as [->|[r ->]]; reflexivity.
    + destruct E as [r ->]; reflexivity.
    + destruct E as [r ->]; reflexivity.
  - exact T.
  - intros tok toks S N.
    destruct (builtin_of (dispatch c)) as [v|] eqn:V.
    + rewrite (T v tok toks S eq_refl) in N. discriminate.
    + destruct (proj1 (dispatch_selects c _) eq_refl); try discriminate V.
      reflexivity.
Qed.

Lemma dispatch_by_line_witness :
  ~ In "Exit now" ["mkdir"; "rm"; "cp"; "mv"]
  /\ (dispatch "Exit now" = External "Exit now"
      <-> selects "Exit now" (External "Exit now")).
Proof.
  assert (N : ~ In "Exit now" ["mkdir"; "rm"; "cp"; "mv"])
    by (simpl; intuition discriminate).
  split; [exact N|].
  exact (proj1 (dispatch_by_line "Exit now") N (External "Exit now")).
Defined.

End DispatcherTheorems.

(** ** The external executor *)

(** C3.  A line the dispatcher hands to the external executor is run by
    the host shell in the session's current directory; when the run
    returns, the output gains the captured standard output as it is, if
    there is any, and then the captured standard error as an [Error:]
    block, if there is any; with both streams non-empty both blocks are
    there, standard output first. *)
Theorem external_command_blocks (W : Type) (h : Host W) (t : Terminal)
    (w w' : W) (command stdout stderr : string) :
  PyStr.strip (input_field t) = command ->
  command <> EmptyString ->
  dispatch command = External command ->
  popen_communicate h w command (current_dir t) = (w', inr (stdout, stderr)) ->
  exists t',
    execute_command h t w = (t', w', inr tt)
    /\ current_dir t' = current_dir t
    /\ output_area t'
       = output_area t ++ [("$ " ++ command)%string]
         ++ stream_blocks stdout stderr
    /\ (stdout <> EmptyString -> stderr <> EmptyString ->
        stream_blocks stdout stderr
        = [stdout; ("Error: " ++ stderr)%string]).
Proof.
  intros E N D P.
  rewrite (execute_command_accepted W h t w _ E N), D.
  cbn [perform_action].
  unfold execute_system_command, try_except, mbind, get, perform.
  cbn [accepted current_dir set_output_area set_history_index
       set_command_history set_input_field].
  rewrite P. unfold stream_blocks.
  destruct (PyStr.is_empty stdout) eqn:Eo;
    destruct (PyStr.is_empty stderr) eqn:Ee;
    eexists; (split; [reflexivity|]); (split; [reflexivity|]);
    (split; [cbn; rewrite <- ?app_assoc; reflexivity|]);
    intros No Ne;
    try (apply is_empty_spec in Eo; contradiction);
    try (apply is_empty_spec in Ee; contradiction);
    reflexivity.
Qed.

Lemma external_command_blocks_witness :
  exists t',
    execute_command Demo.host (Demo.typed "warn" (init Demo.host))
      Demo.home_world = (t', Demo.home_world, inr tt)
    /\ current_dir t' = current_dir (Demo.typed "warn" (init Demo.host))
    /\ output_area t'
       = output_area (Demo.typed "warn" (init Demo.host)) ++ ["$ warn"]
         ++ stream_blocks ("data" ++ nl) ("warning" ++ nl)
    /\ (("data" ++ nl)%string <> EmptyString ->
        ("warning" ++ nl)%string <> EmptyString ->
        stream_blocks ("data" ++ nl) ("warning" ++ nl)
        = [("data" ++ nl)%string; ("Error: " ++ "warning" ++ nl)%string]).
Proof.
  apply (external_command_blocks Demo.world Demo.host
           (Demo.typed "warn" (init Demo.host))
           Demo.home_world Demo.home_world "warn").
  - reflexivity.
  - discriminate.
  - reflexivity.
  - reflexivity.
Defined.

(** ** [mkdir] *)

(** With a path, [make_directory] asks the host for the whole path under
    the current directory, existing directories allowed, and reports it. *)
Lemma make_directory_with_path (W : Type) (h : Host W) (t : Terminal)
    (w : W) (path : string) :
  path <> EmptyString ->
  make_directory h path t w
  = match makedirs h w (PosixPath.join (current_dir t) path) with
    | (w', inr _) =>
        (set_output_area
           (output_area t ++ [("Created directory: " ++ path)%string]) t,
         w', inr tt)
    | (w', inl e) =>
        (set_output_area (output_area t ++ [("Error: " ++ e)%string]) t,
         w', inr tt)
    end.
Proof.
  intros N. apply is_empty_false in N.
  unfold make_directory, try_except, mbind, get, perform. rewrite N.
  destruct (makedirs h w _) as [w' [e|[]]]; reflexivity.
Qed.

(** C4.  [make_directory] has the answer for a missing path, but the
    dispatcher never gives it an empty path: a stripped line that starts
    with [mkdir] and a blank has something after the blank, and the bare
    line [mkdir] is run by the host shell. *)
Theorem mkdir_without_path_goes_to_shell (W : Type) (h : Host W)
    (t : Terminal) (w : W) :
  make_directory h EmptyString t w
  = (set_output_area
       (output_area t ++ ["Error: mkdir requires a directory name"]) t,
     w, inr tt)
  /\ (forall text path,
        dispatch (PyStr.strip text) = MakeDirectory path ->
        path <> EmptyString)
  /\ dispatch (PyStr.strip "mkdir") = External "mkdir"
  /\ (PyStr.strip (input_field t) = "mkdir" ->
      execute_command h t w
      = execute_system_command h "mkdir" (accepted "mkdir" t) w)
  /\ output_area
       (fst (Demo.run_lines ["mkdir"] (init Demo.host) Demo.home_world))
     = [welcome_msg "/home/user"; "$ mkdir";
        ("Error: mkdir: missing operand" ++ nl)%string].
Proof.
  split; [reflexivity|]. split.
  - intros text path D. apply dispatch_selects in D.
    inversion D as [| |? |  | | |p E| | | | | | | |]; subst.
    exact (strip_verb_argument text "mkdir" path E).
  - split; [reflexivity|]. split; [|reflexivity].
    intros E. now rewrite (execute_command_accepted W h t w _ E).
Qed.

Lemma mkdir_without_path_goes_to_shell_witness :
  PyStr.strip (input_field (Demo.typed "mkdir" (init Demo.host))) = "mkdir"
  /\ execute_command Demo.host (Demo.typed "mkdir" (init Demo.host))
       Demo.home_world
     = execute_system_command Demo.host "mkdir"
         (accepted "mkdir" (Demo.typed "mkdir" (init Demo.host)))
         Demo.home_world.
Proof.
  split; [reflexivity|].
  apply (mkdir_without_path_goes_to_shell Demo.world Demo.host
           (Demo.typed "mkdir" (init Demo.host)) Demo.home_world).
  reflexivity.
Defined.

(** ** The tokenizer and the arguments of the built-ins *)

Section TokenizerFacts.

Import PyStr.

Lemma push_cons (tok s : string) (c : ascii) :
  (Shlex.push tok c ++ s = tok ++ String c s)%string.
Proof.
  unfold Shlex.push. now rewrite string_append_assoc.
Qed.

(** Between single quotes every character is taken as it is. *)
Lemma read_single_quoted (s tok : string) (quoted : bool)
    (esc : Shlex.state) :
  contains "'" s = false ->
  Shlex.read_tokens (s ++ "'") (Shlex.Quote "'") tok quoted esc
  = inr [(tok ++ s)%string].
Proof.
  revert tok quoted.
  induction s as [|c s IH]; intros tok quoted H.
  - simpl. unfold Shlex.emit. simpl.
    replace (tok ++ EmptyString)%string with tok; [reflexivity|].
    clear. induction tok; simpl; [reflexivity | now f_equal].
  - cbn [contains] in H. apply orb_false_iff in H. destruct H as [Hc Hs].
    change ((String c s ++ "'")%string) with (String c (s ++ "'")).
    cbn [Shlex.read_tokens].
    rewrite (Ascii.eqb_sym c "'"), Hc.
    replace (Shlex.is_escape c && Shlex.is_escapedquote "'") with false
      by (now rewrite andb_false_r).
    rewrite IH by assumption. now rewrite push_cons.
Qed.

(** Between double quotes every character but the double quote and the
    backslash is taken as it is. *)
Lemma read_double_quoted (s tok : string) (quoted : bool)
    (esc : Shlex.state) :
  contains (ascii_of_nat 34) s = false ->
  contains "\" s = false ->
  Shlex.read_tokens (s ++ dquote) (Shlex.Quote (ascii_of_nat 34)) tok
    quoted esc
  = inr [(tok ++ s)%string].
Proof.
  revert tok quoted.
  induction s as [|c s IH]; intros tok quoted H B.
  - simpl. unfold Shlex.emit. simpl.
    replace (tok ++ EmptyString)%string with tok; [reflexivity|].
    clear. induction tok; simpl; [reflexivity | now f_equal].
  - cbn [contains] in H, B.
    apply orb_false_iff in H. destruct H as [Hc Hs].
    apply orb_false_iff in B. destruct B as [Bc Bs].
    change ((String c s ++ dquote)%string) with (String c (s ++ dquote)).
    cbn [Shlex.read_tokens].
    rewrite (Ascii.eqb_sym c (ascii_of_nat 34)), Hc.
    unfold Shlex.is_escape at 1. rewrite (Ascii.eqb_sym c "\"), Bc.
    cbn [andb].
    rewrite IH by assumption. now rewrite push_cons.
Qed.

End TokenizerFacts.

Section ArgumentTheorems.

Import PyStr.

(** [cp] and [mv] act on the second and third token of the line. *)
Lemma copy_uses_tokens (W : Type) (h : Host W) (t : Terminal) (w : W)
    (c v src dst : string) (rest : list string) :
  Shlex.split c = inr (v :: src :: dst :: rest) ->
  copy_file_or_dir h c t w
  = let from := PosixPath.join (current_dir t) src in
    let to := PosixPath.join (current_dir t) dst in
    let kind := if isdir h w from then "directory" else "file" in
    match (if isdir h w from then copytree h w from to
           else copy2 h w from to) with
    | (w', inr _) =>
        (set_output_area
           (output_area t
            ++ [("Copied " ++ kind ++ ": " ++ src ++ " to " ++ dst)%string])
           t, w', inr tt)
    | (w', inl e) =>
        (set_output_area (output_area t ++ [("Error: " ++ e)%string]) t,
         w', inr tt)
    end.
Proof.
  intros S. unfold copy_file_or_dir, try_except, mbind, lift, get, ask,
    perform.
  rewrite S. cbn zeta.
  destruct (isdir h w _).
  - destruct (copytree h w _ _) as [w' [e|[]]]; reflexivity.
  - destruct (copy2 h w _ _) as [w' [e|[]]]; reflexivity.
Qed.

Lemma move_uses_tokens (W : Type) (h : Host W) (t : Terminal) (w : W)
    (c v src dst : string) (rest : list string) :
  Shlex.split c = inr (v :: src :: dst :: rest) ->
  move_file_or_dir h c t w
  = match move h w (PosixPath.join (current_dir t) src)
            (PosixPath.join (current_dir t) dst) with
    | (w', inr _) =>
        (set_output_area
           (output_area t ++ [("Moved: " ++ src ++ " to " ++ dst)%string])
           t, w', inr tt)
    | (w', inl e) =>
        (set_output_area (output_area t ++ [("Error: " ++ e)%string]) t,
         w', inr tt)
    end.
Proof.
  intros S. unfold move_file_or_dir, try_except, mbind, lift, get, perform.
  rewrite S.
  destruct (move h w _ _) as [w' [e|[]]]; reflexivity.
Qed.

(** C5, as stated, fails for [cd]: the tokenizer reads the quoted name
    [my dir], [change_directory] is given the name with its quotes, and
    the directory that is there is not found. *)
Lemma cd_argument_keeps_quotes :
  Shlex.split ("cd " ++ dquote ++ "my dir" ++ dquote)
  = inr ["cd"; "my dir"]
  /\ dispatch ("cd " ++ dquote ++ "my dir" ++ dquote)
     = ChangeDirectory (dquote ++ "my dir" ++ dquote)
  /\ (dquote ++ "my dir" ++ dquote)%string <> "my dir"
  /\ isdir Demo.host Demo.home_world "/home/user/my dir" = true
  /\ output_area
       (fst (Demo.run_lines [("cd " ++ dquote ++ "my dir" ++ dquote)%string]
               (init Demo.host) Demo.home_world))
     = [welcome_msg "/home/user";
        ("$ cd " ++ dquote ++ "my dir" ++ dquote)%string;
        ("Error: Directory not found: " ++ dquote ++ "my dir" ++ dquote)
          %string].
Proof. repeat split; try reflexivity. discriminate. Qed.

End ArgumentTheorems.

(** ** [ls], short format *)

(** C6.  The file loop of the short format starts counting at zero again
    while the line still holds the directories left over from the
    directory loop.  In a directory with one sub-directory and two files,
    the longest name 38 characters long, the column is 40 wide and two
    entries fit a row; the listing is one row of three entries, 120
    characters long. *)
Theorem short_listing_row_too_long :
  max_length [Demo.long_name; "b"; "sub"] + 2 = 40
  /\ Nat.max 1 (80 / 40) = 2
  /\ short_rows ["sub"] [Demo.long_name; "b"]
     = [(PyStr.ljust "sub/" 40 ++ PyStr.ljust Demo.long_name 40
         ++ PyStr.ljust "b" 40)%string]
  /\ map String.length (short_rows ["sub"] [Demo.long_name; "b"]) = [120]
  /\ output_area
       (fst (Demo.run_lines ["ls docs"] (init Demo.host) Demo.home_world))
     = [welcome_msg "/home/user"; "$ ls docs"]
       ++ short_rows ["sub"] [Demo.long_name; "b"].
Proof. repeat split; vm_compute; reflexivity. Qed.

(** ** [ps] *)

(** C7.  The sort reads a missing CPU percentage as zero, the row does
    not: with one process whose CPU percentage is [None], [ps] prints the
    header and then the text of the exception instead of the row. *)
Theorem ps_fails_on_missing_cpu_percent :
  map cpu_percent (Demo.processes Demo.home_world) = [None]
  /\ sort_by_cpu (Demo.processes Demo.home_world)
     = Demo.processes Demo.home_world
  /\ output_area
       (fst (Demo.run_lines ["ps"] (init Demo.host) Demo.home_world))
     = [welcome_msg "/home/user"; "$ ps";
        ("PID" ++ tab ++ "NAME" ++ tab ++ "USER" ++ tab ++ "CPU%" ++ tab
         ++ "MEMORY")%string;
        "Error: unsupported format string passed to NoneType.__format__"].
Proof. repeat split; vm_compute; reflexivity. Qed.

(** ** [ls] on a directory *)

Section ListingFacts.

Variable W : Type.
Variable h : Host W.

Lemma set_output_area_same (t : Terminal) :
  set_output_area (output_area t) t = t.
Proof. now destruct t. Qed.

Lemma set_output_area_twice (t : Terminal) (o o' : list string) :
  set_output_area o' (set_output_area o t) = set_output_area o' t.
Proof. reflexivity. Qed.

Lemma for_each_append (rows : list string) (t : Terminal) (w : W) :
  for_each rows append t w
  = (set_output_area (output_area t ++ rows) t, w, inr tt).
Proof.
  revert t. induction rows as [|r rows IH]; intros t.
  - cbn. now rewrite app_nil_r, set_output_area_same.
  - cbn [for_each]. unfold mbind at 1. unfold append at 1, modify.
    rewrite IH. cbn [output_area set_output_area].
    now rewrite <- app_assoc.
Qed.

Lemma detail_line_pure (full_path shown : string) (t : Terminal) (w : W) :
  detail_line h full_path shown t w = (t, w, detail_of h w full_path shown).
Proof.
  unfold detail_line, detail_of, detail_text, mbind, call, lift, ask, ret,
    bind.
  destruct (stat h w full_path) as [e|st]; [reflexivity|].
  now destruct (strftime_local h (st_mtime st)).
Qed.

Lemma for_each_detail (path : string) (files : list string)
    (t : Terminal) (w : W) :
  for_each files
    (fun f => mbind (detail_line h (PosixPath.join path f) f)
                (fun line => append line)) t w
  = (set_output_area (output_area t ++ fst (long_lines h w path files)) t, w,
     match snd (long_lines h w path files) with
     | None => inr tt
     | Some e => inl e
     end).
Proof.
  revert t. induction files as [|f files IH]; intros t.
  - cbn. now rewrite app_nil_r, set_output_area_same.
  - cbn [for_each long_lines]. unfold mbind at 1 2.
    rewrite detail_line_pure.
    destruct (detail_of h w (PosixPath.join path f) f) as [e|line].
    + cbn. now rewrite app_nil_r, set_output_area_same.
    + unfold append at 1, modify. rewrite IH.
      destruct (long_lines h w path files) as [lines err].
      cbn [fst snd output_area set_output_area].
      now rewrite <- app_assoc.
Qed.

(** [list_files] on a directory the host can list. *)
Lemma list_files_directory (t : Terminal) (w : W) (command : string)
    (parts : list string) (path : string) (show_all long_format : bool)
    (files : list string) :
  Shlex.split command = inr parts ->
  ls_options (current_dir t) parts = (path, show_all, long_format) ->
  exists_ h w path = true ->
  isfile h w path = false ->
  listdir h w path = inr files ->
  list_files h command t w
  = (set_output_area
       (output_area t
        ++ if long_format then
             fst (long_lines h w path (visible show_all files))
             ++ match snd (long_lines h w path (visible show_all files)) with
                | None => []
                | Some e => [("Error: " ++ e)%string]
                end
           else
             short_rows
               (filter (fun f => isdir h w (PosixPath.join path f))
                  (visible show_all files))
               (filter (fun f => isfile h w (PosixPath.join path f))
                  (visible show_all files))) t,
     w, inr tt).
Proof.
  intros S O E F L.
  unfold list_files, try_except.
  unfold mbind at 1. unfold lift. rewrite S.
  unfold mbind at 1. unfold get. rewrite O.
  unfold mbind at 1. unfold ask at 1. rewrite E. cbn [negb].
  unfold mbind at 1. unfold ask at 1. rewrite F.
  unfold mbind at 1. unfold call. rewrite L.
  destruct long_format.
  - rewrite for_each_detail.
    destruct (long_lines h w path (visible show_all files)) as [lines [e|]];
      cbn [fst snd].
    + unfold append, modify. cbn [output_area set_output_area].
      now rewrite <- app_assoc.
    + now rewrite app_nil_r.
  - unfold mbind, ask. now rewrite for_each_append.
Qed.

Lemma detail_of_ok (w : W) (full_path shown : string) (st : stat_result)
    (mtime : string) :
  stat h w full_path = inr st ->
  strftime_local h (st_mtime st) = inr mtime ->
  detail_of h w full_path shown
  = inr (detail_text h w full_path shown st mtime).
Proof. intros S T. unfold detail_of, bind. now rewrite S, T. Qed.

Lemma long_lines_map (w : W) (path : string) (files : list string)
    (line_of : string -> string) :
  (forall g, In g files ->
     detail_of h w (PosixPath.join path g) g = inr (line_of g)) ->
  long_lines h w path files = (map line_of files, None).
Proof.
  induction files as [|f files IH]; intros A; [reflexivity|].
  cbn [long_lines map]. rewrite (A f (or_introl eq_refl)).
  rewrite IH by (intros g Hg; apply A; now right). reflexivity.
Qed.

Lemma long_lines_ok (w : W) (path : string) (files : list string) :
  (forall g, In g files ->
     exists line, detail_of h w (PosixPath.join path g) g = inr line) ->
  snd (long_lines h w path files) = None
  /\ List.length (fst (long_lines h w path files)) = List.length files.
Proof.
  induction files as [|f files IH]; intros A; [split; reflexivity|].
  destruct IH as [IH1 IH2]; [intros g Hg; apply A; now right|].
  destruct (A f (or_introl eq_refl)) as [line Hl].
  cbn [long_lines]. rewrite Hl.
  destruct (long_lines h w path files) as [lines err].
  cbn [fst snd List.length] in *. now rewrite IH2.
Qed.

Lemma long_lines_app (w : W) (path : string) (before rest : list string) :
  snd (long_lines h w path before) = None ->
  long_lines h w path (before ++ rest)
  = (fst (long_lines h w path before) ++ fst (long_lines h w path rest),
     snd (long_lines h w path rest)).
Proof.
  induction before as [|b before IH]; intros N.
  - cbn. now destruct (long_lines h w path rest).
  - cbn [long_lines app] in *.
    destruct (detail_of h w (PosixPath.join path b) b) as [e|line];
      [discriminate N|].
    destruct (long_lines h w path before) as [lines err] eqn:L.
    cbn [fst snd] in *. rewrite (IH N). reflexivity.
Qed.

Lemma join_all_app (a b : list string) :
  join_all (a ++ b) = (join_all a ++ join_all b)%string.
Proof.
  induction a as [|x a IH]; cbn; [reflexivity|].
  fold (join_all (a ++ b)). fold (join_all a).
  now rewrite IH, string_append_assoc.
Qed.

Lemma string_append_empty (s : string) : (s ++ EmptyString)%string = s.
Proof. induction s; cbn; [reflexivity | now f_equal]. Qed.

(** All the rows of a column loop, put end to end, are what came in
    followed by the cells of the items. *)
Lemma column_loop_cells (max_len per_line : nat) (suffix : string)
    (items : list string) (i : nat) (line : string) :
  (join_all (fst (column_loop max_len per_line suffix items i line))
   ++ snd (column_loop max_len per_line suffix items i line))%string
  = (line ++ join_all (map (fun d => PyStr.ljust (d ++ suffix) max_len)
                         items))%string.
Proof.
  revert i line. induction items as [|d items IH]; intros i line.
  - cbn. now rewrite string_append_empty.
  - cbn [column_loop map].
    destruct ((i + 1) mod per_line =? 0).
    + specialize (IH (i + 1) EmptyString).
      destruct (column_loop max_len per_line suffix items (i + 1)
                  EmptyString) as [rows left].
      cbn [fst snd] in *. cbn [join_all fold_right].
      fold (join_all rows).
      fold (join_all (map (fun d => PyStr.ljust (d ++ suffix) max_len)
                        items)).
      cbn [String.append] in IH.
      now rewrite !string_append_assoc, IH.
    + rewrite IH. cbn [join_all fold_right].
      now rewrite string_append_assoc.
Qed.

Lemma short_rows_cells (dirs files : list string) :
  join_all (short_rows dirs files)
  = join_all
      (map (fun d => PyStr.ljust (d ++ "/") (max_length (files ++ dirs) + 2))
         dirs
       ++ map (fun f => PyStr.ljust f (max_length (files ++ dirs) + 2))
            files).
Proof.
  unfold short_rows.
  set (m := max_length (files ++ dirs) + 2).
  set (p := Nat.max 1 (80 / m)).
  pose proof (column_loop_cells m p "/" dirs 0 EmptyString) as D.
  destruct (column_loop m p "/" dirs 0 EmptyString) as [rows_d line_d].
  pose proof (column_loop_cells m p EmptyString files 0 line_d) as F.
  destruct (column_loop m p EmptyString files 0 line_d) as [rows_f line_f].
  cbn [fst snd] in *.
  assert (T : join_all (if PyStr.is_empty line_f then [] else [line_f])
              = line_f).
  { destruct line_f; cbn; [reflexivity|].
    now rewrite string_append_empty. }
  rewrite !join_all_app, T, F, <- string_append_assoc, D.
  cbn [String.append]. f_equal.
  f_equal. apply map_ext. intros f. now rewrite string_append_empty.
Qed.

End ListingFacts.

(** ** What each built-in does with its arguments *)

Section ArgumentsOfBuiltins.

Import PyStr.

(** [list_files] as a function of the words of the line. *)
Lemma list_files_tokens (W : Type) (h : Host W) (t : Terminal) (w : W)
    (command : string) (parts : list string) (path : string)
    (show_all long_format : bool) :
  Shlex.split command = inr parts ->
  ls_options (current_dir t) parts = (path, show_all, long_format) ->
  list_files h command t w
  = (set_output_area
       (output_area t
        ++ if negb (exists_ h w path) then
             [("Error: Path not found: " ++ path)%string]
           else if isfile h w path then
             match detail_of h w path (PosixPath.basename path) with
             | inr line => [line]
             | inl e => [("Error: " ++ e)%string]
             end
           else
             match listdir h w path with
             | inl e => [("Error: " ++ e)%string]
             | inr files =>
                 if long_format then
                   fst (long_lines h w path (visible show_all files))
                   ++ match snd (long_lines h w path
                                   (visible show_all files)) with
                      | None => []
                      | Some e => [("Error: " ++ e)%string]
                      end
                 else
                   short_rows
                     (filter (fun f => isdir h w (PosixPath.join path f))
                        (visible show_all files))
                     (filter (fun f => isfile h w (PosixPath.join path f))
                        (visible show_all files))
             end) t,
     w, inr tt).
Proof.
  intros S O.
  destruct (exists_ h w path) eqn:E; cbn [negb].
  - destruct (isfile h w path) eqn:F.
    + unfold list_files, try_except.
      unfold mbind at 1. unfold lift. rewrite S.
      unfold mbind at 1. unfold get. rewrite O.
      unfold mbind at 1. unfold ask at 1. rewrite E. cbn [negb].
      unfold mbind at 1. unfold ask at 1. rewrite F.
      unfold mbind at 1. rewrite detail_line_pure.
      now destruct (detail_of h w path (PosixPath.basename path)).
    + destruct (listdir h w path) as [e|files] eqn:L.
      * unfold list_files, try_except.
        unfold mbind at 1. unfold lift. rewrite S.
        unfold mbind at 1. unfold get. rewrite O.
        unfold mbind at 1. unfold ask at 1. rewrite E. cbn [negb].
        unfold mbind at 1. unfold ask at 1. rewrite F.
        unfold mbind at 1. unfold call. now rewrite L.
      * exact (list_files_directory W h t w command parts path show_all
                 long_format files S O E F L).
  - unfold list_files, try_except, mbind, lift, get, ask.
    now rewrite S, O, E.
Qed.

(** [change_directory], [make_directory] and [remove_file_or_dir] on a
    path that is not empty: the path is joined to the current directory
    as it is. *)
Lemma change_directory_literal (W : Type) (h : Host W) (t : Terminal)
    (w : W) (path : string) :
  path <> EmptyString ->
  change_directory h path t w
  = let target :=
      PosixPath.abspath (getcwd h)
        (PosixPath.join (current_dir t) path) in
    if isdir h w target then
      (set_prompt_label
         (getlogin h ++ "@pyterm:"
          ++ (if is_empty (PosixPath.basename target) then "/"
              else PosixPath.basename target) ++ "$ ")
         (set_current_dir target t), w, inr tt)
    else
      (set_output_area
         (output_area t
          ++ [("Error: Directory not found: " ++ path)%string]) t,
       w, inr tt).
Proof.
  intros N. apply is_empty_false in N.
  unfold change_directory, try_except, mbind, get, ask. rewrite N.
  cbv zeta. destruct (isdir h w _); reflexivity.
Qed.

Lemma remove_literal (W : Type) (h : Host W) (t : Terminal) (w : W)
    (path : string) :
  path <> EmptyString ->
  remove_file_or_dir h path t w
  = let full_path := PosixPath.join (current_dir t) path in
    let kind := if isdir h w full_path then "directory" else "file" in
    match (if isdir h w full_path then rmtree h w full_path
           else remove h w full_path) with
    | (w', inr _) =>
        (set_output_area
           (output_area t ++ [("Removed " ++ kind ++ ": " ++ path)%string])
           t, w', inr tt)
    | (w', inl e) =>
        (set_output_area (output_area t ++ [("Error: " ++ e)%string]) t,
         w', inr tt)
    end.
Proof.
  intros N. apply is_empty_false in N.
  unfold remove_file_or_dir, try_except, mbind, get, ask, perform.
  rewrite N. cbv zeta.
  destruct (isdir h w _).
  - destruct (rmtree h w _) as [w' [e|[]]]; reflexivity.
  - destruct (remove h w _) as [w' [e|[]]]; reflexivity.
Qed.

(** C5, amended.  [ls], [cp] and [mv] split the whole line the way a POSIX
    shell does: what stands between single quotes, or between double
    quotes without a backslash, is one word with its blanks, and a
    backslash makes the next character literal; in particular the line
    [cp "my file.txt" dest.txt] has the two arguments [my file.txt]
    and [dest.txt].  [ls] lists the path its words name, [cp] and [mv]
    act on the second and third word.  [cd], [mkdir] and [rm] are given
    the rest of the line after the verb and one blank as it is typed, and
    join it to the current directory as it is: quotes and backslashes
    are part of the path. *)
Theorem arguments_by_verb :
  Shlex.split ("cp " ++ dquote ++ "my file.txt" ++ dquote ++ " dest.txt")
  = inr ["cp"; "my file.txt"; "dest.txt"]
  /\ (forall s, contains "'" s = false ->
        Shlex.split ("'" ++ s ++ "'") = inr [s])
  /\ (forall s, contains (ascii_of_nat 34) s = false ->
        contains "\" s = false ->
        Shlex.split (dquote ++ s ++ dquote) = inr [s])
  /\ (forall c : ascii,
        Shlex.split (String "\" (String c EmptyString))
        = inr [String c EmptyString])
  /\ (forall W (h : Host W) r,
        perform_action h (dispatch ("ls " ++ r)) = list_files h ("ls " ++ r)
        /\ perform_action h (dispatch ("cp " ++ r))
           = copy_file_or_dir h ("cp " ++ r)
        /\ perform_action h (dispatch ("mv " ++ r))
           = move_file_or_dir h ("mv " ++ r)
        /\ perform_action h (dispatch ("cd " ++ r)) = change_directory h r
        /\ perform_action h (dispatch ("mkdir " ++ r))
           = make_directory h r
        /\ perform_action h (dispatch ("rm " ++ r))
           = remove_file_or_dir h r)
  /\ (forall W (h : Host W) t w command parts path show_all long_format,
        Shlex.split command = inr parts ->
        ls_options (current_dir t) parts = (path, show_all, long_format) ->
        list_files h command t w
        = (set_output_area
             (output_area t
              ++ if negb (exists_ h w path) then
                   [("Error: Path not found: " ++ path)%string]
                 else if isfile h w path then
                   match detail_of h w path (PosixPath.basename path) with
                   | inr line => [line]
                   | inl e => [("Error: " ++ e)%string]
                   end
                 else
                   match listdir h w path with
                   | inl e => [("Error: " ++ e)%string]
                   | inr files =>
                       if long_format then
                         fst (long_lines h w path (visible show_all files))
                         ++ match snd (long_lines h w path
                                         (visible show_all files)) with
                            | None => []
                            | Some e => [("Error: " ++ e)%string]
                            end
                       else
                         short_rows
                           (filter
                              (fun f => isdir h w (PosixPath.join path f))
                              (visible show_all files))
                           (filter
                              (fun f => isfile h w (PosixPath.join path f))
                              (visible show_all files))
                   end) t,
           w, inr tt))
  /\ (forall W (h : Host W) t w c v src dst rest,
        Shlex.split c = inr (v :: src :: dst :: rest) ->
        copy_file_or_dir h c t w
        = (let from := PosixPath.join (current_dir t) src in
           let to := PosixPath.join (current_dir t) dst in
           let kind := if isdir h w from then "directory" else "file" in
           match (if isdir h w from then copytree h w from to
                  else copy2 h w from to) with
           | (w', inr _) =>
               (set_output_area
                  (output_area t
                   ++ [("Copied " ++ kind ++ ": " ++ src ++ " to " ++ dst)
                         %string]) t, w', inr tt)
           | (w', inl e) =>
               (set_output_area
                  (output_area t ++ [("Error: " ++ e)%string]) t,
                w', inr tt)
           end)
        /\ move_file_or_dir h c t w
           = match move h w (PosixPath.join (current_dir t) src)
                     (PosixPath.join (current_dir t) dst) with
             | (w', inr _) =>
                 (set_output_area
                    (output_area t
                     ++ [("Moved: " ++ src ++ " to " ++ dst)%string]) t,
                  w', inr tt)
             | (w', inl e) =>
                 (set_output_area
                    (output_area t ++ [("Error: " ++ e)%string]) t,
                  w', inr tt)
             end)
  /\ (forall W (h : Host W) t w path,
        path <> EmptyString ->
        change_directory h path t w
        = (let target :=
             PosixPath.abspath (getcwd h)
               (PosixPath.join (current_dir t) path) in
           if isdir h w target then
             (set_prompt_label
                (getlogin h ++ "@pyterm:"
                 ++ (if is_empty (PosixPath.basename target) then "/"
                     else PosixPath.basename target) ++ "$ ")
                (set_current_dir target t), w, inr tt)
           else
             (set_output_area
                (output_area t
                 ++ [("Error: Directory not found: " ++ path)%string]) t,
              w, inr tt))
        /\ make_directory h path t w
           = match makedirs h w (PosixPath.join (current_dir t) path) with
             | (w', inr _) =>
                 (set_output_area
                    (output_area t
                     ++ [("Created directory: " ++ path)%string]) t,
                  w', inr tt)
             | (w', inl e) =>
                 (set_output_area
                    (output_area t ++ [("Error: " ++ e)%string]) t,
                  w', inr tt)
             end
        /\ remove_file_or_dir h path t w
           = (let full_path := PosixPath.join (current_dir t) path in
              let kind :=
                if isdir h w full_path then "directory" else "file" in
              match (if isdir h w full_path then rmtree h w full_path
                     else remove h w full_path) with
              | (w', inr _) =>
                  (set_output_area
                     (output_area t
                      ++ [("Removed " ++ kind ++ ": " ++ path)%string])
                     t, w', inr tt)
              | (w', inl e) =>
                  (set_output_area
                     (output_area t ++ [("Error: " ++ e)%string]) t,
                   w', inr tt)
              end)).
Proof.
  split; [reflexivity|].
  split.
  { intros s H. unfold Shlex.split.
    change (("'" ++ s ++ "'")%string) with (String "'" (s ++ "'")).
    cbn [Shlex.read_tokens]. change (Shlex.is_whitespace "'") with false.
    change (Shlex.is_escape "'") with false.
    change (Shlex.is_quote "'") with true. cbn iota.
    now rewrite read_single_quoted. }
  split.
  { intros s H B. unfold Shlex.split.
    change ((dquote ++ s ++ dquote)%string)
      with (String (ascii_of_nat 34) (s ++ dquote)).
    cbn [Shlex.read_tokens].
    change (Shlex.is_whitespace (ascii_of_nat 34)) with false.
    change (Shlex.is_escape (ascii_of_nat 34)) with false.
    change (Shlex.is_quote (ascii_of_nat 34)) with true. cbn iota.
    now rewrite read_double_quoted. }
  split; [intros c; reflexivity|].
  split; [intros W h r; repeat split|].
  split; [intros W h t w command parts path show_all long_format;
          apply list_files_tokens|].
  split.
  { intros W h t w c v src dst rest S. split.
    - exact (copy_uses_tokens W h t w c v src dst rest S).
    - exact (move_uses_tokens W h t w c v src dst rest S). }
  intros W h t w path N. split; [|split].
  - exact (change_directory_literal W h t w path N).
  - exact (make_directory_with_path W h t w path N).
  - exact (remove_literal W h t w path N).
Qed.

Lemma arguments_by_verb_witness :
  Shlex.split "'my file.txt'" = inr ["my file.txt"].
Proof.
  apply (proj1 (proj2 arguments_by_verb) "my file.txt"). reflexivity.
Defined.

End ArgumentsOfBuiltins.

(** ** [ls] with and without [-a] *)

Lemma filter_split_permutation {A : Type} (p : A -> bool) (l : list A) :
  Permutation l (filter (fun x => negb (p x)) l ++ filter p l).
Proof.
  induction l as [|x l IH]; simpl; [constructor|].
  destruct (p x); simpl.
  - now apply Permutation_cons_app.
  - now constructor.
Qed.

Lemma filter_commute {A : Type} (p q : A -> bool) (l : list A) :
  filter p (filter q l) = filter q (filter p l).
Proof.
  induction l as [|x l IH]; [reflexivity|]. cbn [filter].
  destruct (p x) eqn:P, (q x) eqn:Q; cbn [filter];
    rewrite ?P, ?Q, IH; reflexivity.
Qed.

(** C8, as stated, fails: [/srv] holds two dot entries, a symbolic link
    whose target is gone and a named pipe, and a regular file.  In short
    format [ls -a] prints what [ls] prints, so the dot entries are not
    the difference; in long format [ls -l] prints the line of the file
    and [ls -la] prints no entry at all, since the listing ends at the
    link. *)
Lemma hidden_entries_are_not_the_difference :
  listdir Demo.host hidden_world "/srv" = inr [".lock"; ".sock"; "a"]
  /\ output_area
       (fst (Demo.run_lines ["ls /srv"] (init Demo.host) hidden_world))
     = [welcome_msg "/home/user"; "$ ls /srv"; "a  "]
  /\ output_area
       (fst (Demo.run_lines ["ls -a /srv"] (init Demo.host) hidden_world))
     = [welcome_msg "/home/user"; "$ ls -a /srv"; "a  "]
  /\ output_area
       (fst (Demo.run_lines ["ls -l /srv"] (init Demo.host) hidden_world))
     = [welcome_msg "/home/user"; "$ ls -l /srv";
        "-rwx        1 1970-01-01 00:00 a"]
  /\ output_area
       (fst (Demo.run_lines ["ls -la /srv"] (init Demo.host) hidden_world))
     = [welcome_msg "/home/user"; "$ ls -la /srv";
        "Error: [Errno 2] No such file or directory: '/srv/.lock'"].
Proof. repeat split; vm_compute; reflexivity. Qed.

(** C8, amended.  Take the current directory, listed by the host as
    [files].  In short format [ls -a] prints the cells of the entries
    that are directories or regular files, and [ls] the cells of those
    among them that do not start with a dot: the names [ls -a] prints
    are those [ls] prints together with the dot entries among them, so
    there are at least as many, and a name [ls -a] prints is missing
    from [ls] exactly when it starts with a dot.  In long format, when
    the host can give the line of every entry, [ls -la] prints a line
    for every entry and [ls -l] a line for every entry that does not
    start with a dot, with the same relation between the two. *)
Theorem ls_all_is_superset (W : Type) (h : Host W) (t : Terminal) (w : W)
    (files : list string) :
  exists_ h w (current_dir t) = true ->
  isfile h w (current_dir t) = false ->
  listdir h w (current_dir t) = inr files ->
  let dirs := fun show_all : bool =>
    filter (fun f => isdir h w (PosixPath.join (current_dir t) f))
      (visible show_all files) in
  let regs := fun show_all : bool =>
    filter (fun f => isfile h w (PosixPath.join (current_dir t) f))
      (visible show_all files) in
  (forall show_all : bool,
     output_area
       (fst (fst (list_files h (if show_all then "ls -a" else "ls") t w)))
     = output_area t ++ short_rows (dirs show_all) (regs show_all)
     /\ join_all (short_rows (dirs show_all) (regs show_all))
        = join_all
            (map (fun d => PyStr.ljust (d ++ "/")
                    (max_length (regs show_all ++ dirs show_all) + 2))
               (dirs show_all)
             ++ map (fun f => PyStr.ljust f
                       (max_length (regs show_all ++ dirs show_all) + 2))
                  (regs show_all)))
  /\ dirs false ++ regs false
     = filter (fun f => negb (hidden f)) (dirs true ++ regs true)
  /\ Permutation (dirs true ++ regs true)
       ((dirs false ++ regs false)
        ++ filter hidden (dirs true ++ regs true))
  /\ List.length (dirs true ++ regs true)
     = List.length (dirs false ++ regs false)
       + List.length (filter hidden (dirs true ++ regs true))
  /\ (forall f, In f (dirs false ++ regs false) ->
        In f (dirs true ++ regs true))
  /\ (forall f, In f (dirs true ++ regs true) ->
        (~ In f (dirs false ++ regs false) <-> hidden f = true))
  /\ (forall line_of : string -> string,
        (forall g, In g files ->
           detail_of h w (PosixPath.join (current_dir t) g) g
           = inr (line_of g)) ->
        (forall show_all : bool,
           output_area
             (fst (fst (list_files h
                          (if show_all then "ls -la" else "ls -l") t w)))
           = output_area t ++ map line_of (visible show_all files))
        /\ visible true files = files
        /\ visible false files = filter (fun f => negb (hidden f)) files
        /\ Permutation (map line_of (visible true files))
             (map line_of (visible false files)
              ++ map line_of (filter hidden files))
        /\ (forall f, In f (visible true files) ->
              (~ In f (visible false files) <-> hidden f = true))).
Proof.
  intros E F L dirs regs.
  assert (N : dirs false ++ regs false
              = filter (fun f => negb (hidden f)) (dirs true ++ regs true)).
  { subst dirs regs. cbv beta. unfold visible, hidden.
    now rewrite filter_app, !(filter_commute (fun f => negb _)). }
  assert (P := filter_split_permutation hidden (dirs true ++ regs true)).
  split.
  { intros show_all. split; [|apply short_rows_cells].
    rewrite (list_files_directory W h t w _
               (if show_all then ["ls"; "-a"] else ["ls"])
               (current_dir t) show_all false files);
      try assumption; now destruct show_all. }
  split; [exact N|]. rewrite N.
  split; [exact P|].
  split; [rewrite <- length_app; now apply Permutation_length|].
  split; [intros f H; apply filter_In in H; tauto|].
  split.
  { intros f H. split.
    - intros X. destruct (hidden f) eqn:Hf; [reflexivity|].
      exfalso. apply X. apply filter_In. now rewrite Hf.
    - intros Hf X. apply filter_In in X. destruct X as [_ X].
      rewrite Hf in X. discriminate. }
  intros line_of A. split.
  { intros show_all.
    rewrite (list_files_directory W h t w _
               (if show_all then ["ls"; "-la"] else ["ls"; "-l"])
               (current_dir t) show_all true files);
      try assumption; try (now destruct show_all).
    cbn [fst output_area set_output_area].
    rewrite (long_lines_map W h w (current_dir t) (visible show_all files)
               line_of).
    - cbn [fst snd]. now rewrite app_nil_r.
    - intros g Hg. apply A. destruct show_all; [exact Hg|].
      unfold visible in Hg. apply filter_In in Hg. tauto. }
  split; [reflexivity|]. split; [reflexivity|]. split.
  { rewrite <- map_app. apply Permutation_map.
    apply (filter_split_permutation hidden files). }
  unfold visible, hidden. intros f H. split.
  - intros X. destruct (PyStr.startswith f ".") eqn:Hf; [reflexivity|].
    exfalso. apply X. apply filter_In. now rewrite Hf.
  - intros Hf X. apply filter_In in X. destruct X as [_ X].
    rewrite Hf in X. discriminate.
Qed.

Lemma ls_all_is_superset_witness :
  output_area
    (fst (fst (list_files Demo.host "ls -a" (init Demo.host)
                 Demo.home_world)))
  = output_area (init Demo.host)
    ++ short_rows ["docs"; "my dir"] ["notes.txt"; ".profile"].
Proof.
  apply (proj1 (ls_all_is_superset Demo.world Demo.host (init Demo.host)
                  Demo.home_world
                  ["docs"; "my dir"; "notes.txt"; ".profile"; "pipe";
                   "stale"] eq_refl eq_refl eq_refl) true).
Defined.

(** ** Entries that are neither regular files nor directories *)

(** C10, as stated, fails for a symbolic link whose target is gone: the
    host lists it, it is neither a file nor a directory, the short format
    leaves it out, and the long format has no line for it either: [stat]
    raises, and the listing ends there with the text of the exception. *)
Lemma dangling_link_has_no_long_line :
  listdir Demo.host Demo.home_world "/home/user"
  = inr ["docs"; "my dir"; "notes.txt"; ".profile"; "pipe"; "stale"]
  /\ isdir Demo.host Demo.home_world "/home/user/stale" = false
  /\ isfile Demo.host Demo.home_world "/home/user/stale" = false
  /\ output_area
       (fst (Demo.run_lines ["ls"] (init Demo.host) Demo.home_world))
     = [welcome_msg "/home/user"; "$ ls";
        "docs/      my dir/    notes.txt  "]
  /\ output_area
       (fst (Demo.run_lines ["ls -l"] (init Demo.host) Demo.home_world))
     = [welcome_msg "/home/user"; "$ ls -l";
        "drwx     4096 1970-01-01 00:00 docs";
        "drwx     4096 1970-01-01 00:00 my dir";
        "-rwx      120 1970-01-01 00:00 notes.txt";
        "drwx        0 1970-01-01 00:00 pipe";
        "Error: [Errno 2] No such file or directory: '/home/user/stale'"].
Proof. repeat split; vm_compute; reflexivity. Qed.

(** C10, amended.  Take a directory the host lists, and in it an entry
    [f] among those shown that is neither a regular file nor a
    directory.  In short format the rows are made of the cells of the
    directories and of the regular files, and [f] is in neither list.
    In long format, when the host can [stat] the entries shown before
    [f] and render their times, they have their lines, and then: when
    the host can [stat] [f] and render its time, the next line is the
    line of [f], of type [d], whatever happens to the entries after it;
    when the host cannot [stat] [f] (a symbolic link whose target is
    gone) or cannot render its time, the output ends with the text of
    the exception, with no line for [f] or for what follows it. *)
Theorem ls_entry_neither_file_nor_directory (W : Type) (h : Host W)
    (t : Terminal) (w : W) (command : string) (parts : list string)
    (path : string) (show_all long_format : bool) (files : list string)
    (f : string) :
  Shlex.split command = inr parts ->
  ls_options (current_dir t) parts = (path, show_all, long_format) ->
  exists_ h w path = true ->
  isfile h w path = false ->
  listdir h w path = inr files ->
  In f (visible show_all files) ->
  isdir h w (PosixPath.join path f) = false ->
  isfile h w (PosixPath.join path f) = false ->
  let shown := visible show_all files in
  let dirs := filter (fun g => isdir h w (PosixPath.join path g)) shown in
  let regs := filter (fun g => isfile h w (PosixPath.join path g)) shown in
  let out := output_area (fst (fst (list_files h command t w))) in
  (long_format = false ->
   out = output_area t ++ short_rows dirs regs
   /\ join_all (short_rows dirs regs)
      = join_all
          (map (fun d => PyStr.ljust (d ++ "/") (max_length (regs ++ dirs) + 2))
             dirs
           ++ map (fun r => PyStr.ljust r (max_length (regs ++ dirs) + 2))
                regs)
   /\ ~ In f dirs /\ ~ In f regs)
  /\ (long_format = true ->
      forall before after,
        shown = before ++ f :: after ->
        (forall g, In g before ->
           exists st mtime,
             stat h w (PosixPath.join path g) = inr st
             /\ strftime_local h (st_mtime st) = inr mtime) ->
        List.length (fst (long_lines h w path before)) = List.length before
        /\ (forall st mtime,
              stat h w (PosixPath.join path f) = inr st ->
              strftime_local h (st_mtime st) = inr mtime ->
              exists rest more,
                detail_text h w (PosixPath.join path f) f st mtime
                = String "d" rest
                /\ out = output_area t ++ fst (long_lines h w path before)
                         ++ String "d" rest :: more)
        /\ (forall e,
              stat h w (PosixPath.join path f) = inl e ->
              out = output_area t ++ fst (long_lines h w path before)
                    ++ [("Error: " ++ e)%string])
        /\ (forall st e,
              stat h w (PosixPath.join path f) = inr st ->
              strftime_local h (st_mtime st) = inl e ->
              out = output_area t ++ fst (long_lines h w path before)
                    ++ [("Error: " ++ e)%string])).
Proof.
  intros S O E F L Hf Nd Nf shown dirs regs out.
  subst out. rewrite (list_files_directory W h t w command parts path
                        show_all long_format files S O E F L).
  cbn [fst output_area set_output_area]. fold shown. fold dirs. fold regs.
  split.
  - intros ->. split; [reflexivity|]. split; [apply short_rows_cells|].
    subst dirs regs. split; intros H; apply filter_In in H;
      destruct H as [_ H]; congruence.
  - intros -> before after B A. rewrite B.
    destruct (long_lines_ok W h w path before) as [K1 K2].
    { intros g Hg. destruct (A g Hg) as (st & mtime & X & Y).
      eexists. exact (detail_of_ok W h w _ g st mtime X Y). }
    rewrite (long_lines_app W h w path before (f :: after) K1).
    cbn [fst snd long_lines]. split; [exact K2|].
    split; [|split].
    + intros st mtime X Y.
      rewrite (detail_of_ok W h w _ f st mtime X Y).
      unfold detail_text. rewrite Nf. cbn [String.append].
      destruct (long_lines h w path after) as [lines err].
      cbn [fst snd]. eexists. eexists. split; [reflexivity|].
      rewrite <- !app_assoc. cbn [app]. reflexivity.
    + intros e X. unfold detail_of, bind. rewrite X. cbn [fst snd].
      now rewrite app_nil_r.
    + intros st e X Y. unfold detail_of, bind. rewrite X, Y.
      cbn [fst snd]. now rewrite app_nil_r.
Qed.

Lemma ls_entry_neither_file_nor_directory_witness :
  exists rest more,
    detail_text Demo.host Demo.home_world
      (PosixPath.join "/home/user" "pipe") "pipe"
      {| st_size := 0; st_mtime := 0 |} "1970-01-01 00:00"
    = String "d" rest
    /\ output_area
         (fst (fst (list_files Demo.host "ls -l" (init Demo.host)
                      Demo.home_world)))
       = output_area (init Demo.host)
         ++ fst (long_lines Demo.host Demo.home_world "/home/user"
                   ["docs"; "my dir"; "notes.txt"])
         ++ String "d" rest :: more.
Proof.
  refine (proj1 (proj2 (proj2
    (ls_entry_neither_file_nor_directory Demo.world Demo.host
       (init Demo.host) Demo.home_world "ls -l" ["ls"; "-l"] "/home/user"
       false true
       ["docs"; "my dir"; "notes.txt"; ".profile"; "pipe"; "stale"] "pipe"
       eq_refl eq_refl eq_refl eq_refl eq_refl _ eq_refl eq_refl)
    eq_refl ["docs"; "my dir"; "notes.txt"] ["stale"] eq_refl _))
    {| st_size := 0; st_mtime := 0 |} "1970-01-01 00:00" eq_refl eq_refl).
  - simpl; auto 10.
  - intros g Hg. simpl in Hg.
    destruct Hg as [<-|[<-|[<-|[]]]]; eexists; eexists; split; reflexivity.
Defined.

(** ** The history and its cursor *)

Section HistoryFacts.

Variable W : Type.
Variable h : Host W.

Lemma keeps_ret {A : Type} (a : A) : keeps_history (ret (W := W) a).
Proof. intros t w. now split. Qed.

Lemma keeps_ask {A : Type} (f : W -> A) : keeps_history (ask f).
Proof. intros t w. now split. Qed.

Lemma keeps_call {A : Type} (f : W -> Result A) : keeps_history (call f).
Proof. intros t w. now split. Qed.

Lemma keeps_lift {A : Type} (r : Result A) : keeps_history (lift (W := W) r).
Proof. intros t w. now split. Qed.

Lemma keeps_get {A : Type} (f : Terminal -> A) :
  keeps_history (get (W := W) f).
Proof. intros t w. now split. Qed.

Lemma keeps_perform {A : Type} (f : W -> W * Result A) :
  keeps_history (perform f).
Proof. intros t w. unfold perform. now destruct (f w). Qed.

Lemma keeps_modify (f : Terminal -> Terminal) :
  (forall t, command_history (f t) = command_history t
             /\ history_index (f t) = history_index t) ->
  keeps_history (modify (W := W) f).
Proof. intros H t w. apply H. Qed.

Lemma keeps_append (text : string) : keeps_history (append (W := W) text).
Proof. apply keeps_modify. intros t. now split. Qed.

Lemma keeps_mbind {A B : Type} (m : M W A) (k : A -> M W B) :
  keeps_history m -> (forall a, keeps_history (k a)) ->
  keeps_history (mbind m k).
Proof.
  intros Hm Hk t w. unfold mbind. specialize (Hm t w).
  destruct (m t w) as [[t' w'] [e|a]]; cbn [fst] in *; [exact Hm|].
  destruct (Hk a t' w') as [K1 K2]. destruct Hm as [M1 M2].
  split; congruence.
Qed.

Lemma keeps_try_except (body : M W unit) (handler : string -> M W unit) :
  keeps_history body -> (forall e, keeps_history (handler e)) ->
  keeps_history (try_except body handler).
Proof.
  intros Hb Hh t w. unfold try_except. specialize (Hb t w).
  destruct (body t w) as [[t' w'] [e|u]]; cbn [fst] in *; [|exact Hb].
  destruct (Hh e t' w') as [K1 K2]. destruct Hb as [B1 B2].
  split; congruence.
Qed.

Lemma keeps_for_each {A : Type} (xs : list A) (body : A -> M W unit) :
  (forall x, keeps_history (body x)) -> keeps_history (for_each xs body).
Proof.
  intros Hb. induction xs as [|x xs IH]; cbn [for_each].
  - apply keeps_ret.
  - apply keeps_mbind; [apply Hb | intros _; exact IH].
Qed.

Ltac keeps_step :=
  first
    [ apply keeps_try_except; [|intros ?]
    | apply keeps_mbind; [|intros ?]
    | apply keeps_for_each; intros ?
    | apply keeps_ret | apply keeps_ask | apply keeps_call
    | apply keeps_lift | apply keeps_get | apply keeps_perform
    | apply keeps_append
    | apply keeps_modify; intros ?; split; reflexivity
    | match goal with
      | |- keeps_history (if ?b then _ else _) => destruct b
      | |- keeps_history (match ?x with _ => _ end) => destruct x
      end ].

Ltac keeps := repeat keeps_step.

Lemma keeps_update_prompt : keeps_history (update_prompt h).
Proof. unfold update_prompt. keeps. Qed.

Lemma keeps_detail_line (p s : string) : keeps_history (detail_line h p s).
Proof. unfold detail_line. keeps. Qed.

Lemma keeps_perform_action (a : action) :
  keeps_history (perform_action h a).
Proof.
  destruct a; cbn [perform_action];
    unfold show_help, change_directory, list_files, make_directory,
      remove_file_or_dir, copy_file_or_dir, move_file_or_dir,
      show_history, show_processes, show_system_stats,
      execute_system_command;
    keeps; try apply keeps_update_prompt; try apply keeps_detail_line.
Qed.

Lemma keeps_update_system_monitor :
  keeps_history (update_system_monitor h).
Proof. unfold update_system_monitor. keeps. Qed.

End HistoryFacts.

Section HistoryTheorems.

Variable W : Type.
Variable h : Host W.

Lemma py_index_in_range {A : Type} (l : list A) (i : Z) :
  (0 <= i < Z.of_nat (List.length l))%Z -> exists a, py_index l i = inr a.
Proof.
  intros R. unfold py_index.
  destruct (Z.ltb_spec i 0) as [L|L]; [lia|].
  destruct (Z.ltb_spec i 0) as [L'|L']; [lia|].
  destruct (nth_error l (Z.to_nat i)) as [a|] eqn:E.
  - now exists a.
  - apply nth_error_None in E. lia.
Qed.

(** Recording: a line that is not blank is appended to the history and
    the cursor is put after it. *)
Lemma execute_command_records (t : Terminal) (w : W) :
  PyStr.strip (input_field t) <> EmptyString ->
  command_history (fst (fst (execute_command h t w)))
  = command_history t ++ [PyStr.strip (input_field t)]
  /\ history_index (fst (fst (execute_command h t w)))
     = history_length (fst (fst (execute_command h t w))).
Proof.
  intros N.
  rewrite (execute_command_accepted W h t w _ eq_refl N).
  destruct (keeps_perform_action W h
              (dispatch (PyStr.strip (input_field t)))
              (accepted (PyStr.strip (input_field t)) t) w) as [K1 K2].
  unfold history_length. rewrite K1, K2. split; reflexivity.
Qed.

(** A blank line records nothing. *)
Lemma execute_command_blank (t : Terminal) (w : W) :
  PyStr.strip (input_field t) = EmptyString ->
  execute_command h t w = (set_input_field EmptyString t, w, inr tt).
Proof.
  intros E. unfold execute_command, mbind, get, modify. now rewrite E.
Qed.

(** Recall: the key handler does not raise, leaves the history alone and
    keeps the cursor where the program keeps it. *)
Lemma keyPressEvent_cursor (k : key) (t : Terminal) (w : W) :
  cursor_ok t ->
  exists t',
    keyPressEvent k t w = (t', w, inr tt)
    /\ command_history t' = command_history t
    /\ cursor_ok t'
    /\ (cursor_in_range t -> cursor_in_range t').
Proof.
  intros C. unfold keyPressEvent, mbind, get.
  unfold cursor_ok, cursor_in_range, history_length in *.
  destruct k.
  - destruct (Z.eqb_spec (Z.of_nat (List.length (command_history t))) 0)
      as [Z0|Z0]; cbn [negb andb].
    + eexists. split; [reflexivity|]. auto.
    + destruct (Z.ltb_spec 0 (history_index t)) as [P|P].
      * unfold modify, lift.
        destruct (py_index_in_range (command_history t)
                    (history_index t - 1)) as [a Ha]; [lia|].
        cbn [command_history set_history_index]. rewrite Ha.
        eexists. split; [reflexivity|].
        cbn [command_history history_index set_history_index
             set_input_field].
        split; [reflexivity|]. split; [right|intros _]; lia.
      * eexists. split; [reflexivity|]. auto.
  - destruct (Z.eqb_spec (Z.of_nat (List.length (command_history t))) 0)
      as [Z0|Z0]; cbn [negb andb].
    + unfold modify. eexists. split; [reflexivity|].
      cbn [command_history history_index set_history_index
           set_input_field].
      split; [reflexivity|]. split; [right|intros _]; lia.
    + destruct (Z.ltb_spec (history_index t)
                  (Z.of_nat (List.length (command_history t)) - 1))
        as [P|P].
      * assert (R : (0 <= history_index t)%Z).
        { destruct C as [[_ C]|C]; [|lia].
          rewrite C in Z0. now cbn in Z0. }
        unfold modify, lift.
        destruct (py_index_in_range (command_history t)
                    (history_index t + 1)) as [a Ha]; [lia|].
        cbn [command_history set_history_index]. rewrite Ha.
        eexists. split; [reflexivity|].
        cbn [command_history history_index set_history_index
             set_input_field].
        split; [reflexivity|]. split; [right|intros _]; lia.
      * unfold modify. eexists. split; [reflexivity|].
        cbn [command_history history_index set_history_index
             set_input_field].
        split; [reflexivity|]. split; [right|intros _]; lia.
  - eexists. split; [reflexivity|]. auto.
Qed.

Lemma handle_cursor (e : event W) (t t' : Terminal) (w w' : W) :
  cursor_ok t -> handle h e t w = (t', w', inr tt) -> cursor_ok t'.
Proof.
  intros C H. destruct e as [text| |k| |w1]; cbn [handle] in H.
  - injection H as <- _. exact C.
  - destruct (PyStr.is_empty (PyStr.strip (input_field t))) eqn:E.
    + apply is_empty_spec in E.
      rewrite (execute_command_blank t w E) in H.
      injection H as <- _. exact C.
    + apply is_empty_false in E.
      destruct (execute_command_records t w E) as [_ R].
      rewrite H in R. cbn [fst] in R.
      right. unfold cursor_in_range. rewrite R.
      unfold history_length. lia.
  - destruct (keyPressEvent_cursor k t w C) as (t1 & K & _ & C1 & _).
    rewrite K in H. injection H as <- _. exact C1.
  - destruct (keeps_update_system_monitor W h t w) as [K1 K2].
    rewrite H in K1, K2. cbn [fst] in K1, K2.
    unfold cursor_ok, cursor_in_range, history_length in *.
    rewrite K1, K2. exact C.
  - injection H as <- _. exact C.
Qed.

(** C9, as stated, fails in the first state: [__init__] sets the cursor
    to [-1], below the range [[0, len(history)]]. *)
Lemma initial_cursor_below_range :
  reachable Demo.host Demo.home_world (init Demo.host, Demo.home_world)
  /\ history_index (init Demo.host) = (-1)%Z
  /\ ~ (0 <= history_index (init Demo.host)
        <= Z.of_nat (List.length (command_history (init Demo.host))))%Z.
Proof.
  split; [constructor|]. split; [reflexivity|]. cbn. lia.
Qed.

(** C9, amended.  In every reachable state the cursor is [-1] with an
    empty history, as [__init__] leaves it, or lies in
    [[0, len(history)]].  Recording a line that is not blank appends it
    and puts the cursor at [len(history)], inside the range.  A key
    press does not raise, does not change the history, and leaves a
    cursor that is in the range in the range. *)
Theorem history_cursor_invariant (w0 : W) :
  (forall s, reachable h w0 s -> cursor_ok (fst s))
  /\ (forall t w,
        PyStr.strip (input_field t) <> EmptyString ->
        command_history (fst (fst (execute_command h t w)))
        = command_history t ++ [PyStr.strip (input_field t)]
        /\ history_index (fst (fst (execute_command h t w)))
           = history_length (fst (fst (execute_command h t w)))
        /\ cursor_in_range (fst (fst (execute_command h t w))))
  /\ (forall (k : key) (t : Terminal) (w : W),
        cursor_ok t ->
        exists t',
          keyPressEvent k t w = (t', w, inr tt)
          /\ command_history t' = command_history t
          /\ cursor_ok t'
          /\ (cursor_in_range t -> cursor_in_range t')).
Proof.
  split; [|split].
  - intros s R. induction R as [|s e s' R IH St].
    + left. split; reflexivity.
    + destruct St as [t w e t' w' Q H]. cbn [fst] in *.
      exact (handle_cursor e t t' w w' IH H).
  - intros t w N. destruct (execute_command_records t w N) as [R1 R2].
    split; [exact R1|]. split; [exact R2|].
    unfold cursor_in_range. rewrite R2. unfold history_length. lia.
  - intros k t w C. exact (keyPressEvent_cursor k t w C).
Qed.

End HistoryTheorems.


Lemma history_cursor_invariant_witness :
  cursor_ok
    (fst (fst (execute_command Demo.host
                 (Demo.typed "pwd" (init Demo.host)) Demo.home_world))).
Proof.
  apply (proj1 (history_cursor_invariant Demo.world Demo.host
                  Demo.home_world)
           (fst (fst (execute_command Demo.host
                        (Demo.typed "pwd" (init Demo.host))
                        Demo.home_world)),
            Demo.home_world)).
  apply reachable_step
    with (s := (Demo.typed "pwd" (init Demo.host), Demo.home_world))
         (e := ReturnPressed Demo.world).
  - apply reachable_step
      with (s := (init Demo.host, Demo.home_world))
           (e := TextEdited Demo.world "pwd").
    + constructor.
    + constructor; reflexivity.
  - constructor; reflexivity.
Defined.

(** * Further properties of the interpreter *)

(** ** Blank lines *)

Section BlankLines.

Import PyStr.

Lemma lstrip_all_space (s : string) :
  all_space s = true -> lstrip s = EmptyString.
Proof.
  induction s as [|c s IH]; cbn [all_space lstrip]; [reflexivity|].
  intros H. apply andb_true_iff in H. destruct H as [Hc Hs].
  rewrite Hc. now apply IH.
Qed.

Lemma rstrip_keeps_head (c : ascii) (s : string) :
  isspace c = false -> rstrip (String c s) <> EmptyString.
Proof.
  intros Hc. cbn [rstrip]. destruct (rstrip s); [now rewrite Hc|];
    discriminate.
Qed.

Lemma strip_empty_iff (s : string) :
  strip s = EmptyString <-> all_space s = true.
Proof.
  unfold strip. split.
  - induction s as [|c s IH]; cbn [all_space lstrip]; [reflexivity|].
    destruct (isspace c) eqn:Hc; cbn [andb]; [exact IH|].
    intros H. now apply rstrip_keeps_head in H.
  - intros H. now rewrite lstrip_all_space.
Qed.

(** A line of white space only is dropped: the input field is cleared,
    and neither the history, nor the output, nor the world changes. *)
Theorem blank_line_is_ignored (W : Type) (h : Host W) (t : Terminal)
    (w : W) :
  all_space (input_field t) = true ->
  execute_command h t w = (set_input_field EmptyString t, w, inr tt).
Proof.
  intros H. apply strip_empty_iff in H.
  unfold execute_command, mbind, get, modify. now rewrite H.
Qed.

Lemma blank_line_is_ignored_witness :
  execute_command Demo.host (Demo.typed "   " (init Demo.host))
    Demo.home_world
  = (set_input_field EmptyString (Demo.typed "   " (init Demo.host)),
     Demo.home_world, inr tt).
Proof.
  apply (blank_line_is_ignored Demo.world Demo.host
           (Demo.typed "   " (init Demo.host)) Demo.home_world).
  reflexivity.
Defined.

End BlankLines.

(** ** Exceptions stay inside the methods *)

Section NeverRaises.

Variable W : Type.
Variable h : Host W.

Lemma never_raises_ret {A : Type} (a : A) : never_raises (ret (W := W) a).
Proof. intros t w. now exists a. Qed.

Lemma never_raises_ask {A : Type} (f : W -> A) : never_raises (ask f).
Proof. intros t w. now exists (f w). Qed.

Lemma never_raises_get {A : Type} (f : Terminal -> A) :
  never_raises (get (W := W) f).
Proof. intros t w. now exists (f t). Qed.

Lemma never_raises_modify (f : Terminal -> Terminal) :
  never_raises (modify (W := W) f).
Proof. intros t w. now exists tt. Qed.

Lemma never_raises_append (text : string) :
  never_raises (append (W := W) text).
Proof. apply never_raises_modify. Qed.

Lemma never_raises_mbind {A B : Type} (m : M W A) (k : A -> M W B) :
  never_raises m -> (forall a, never_raises (k a)) ->
  never_raises (mbind m k).
Proof.
  intros Hm Hk t w. unfold mbind. destruct (Hm t w) as [a Ha].
  destruct (m t w) as [[t' w'] r]. cbn [snd] in Ha. subst r.
  apply Hk.
Qed.

Lemma never_raises_try_except (body : M W unit)
    (handler : string -> M W unit) :
  (forall e, never_raises (handler e)) ->
  never_raises (try_except body handler).
Proof.
  intros Hh t w. unfold try_except.
  destruct (body t w) as [[t' w'] [e|u]]; [apply Hh | now exists u].
Qed.

Lemma never_raises_for_each {A : Type} (xs : list A)
    (body : A -> M W unit) :
  (forall x, never_raises (body x)) -> never_raises (for_each xs body).
Proof.
  intros Hb. induction xs as [|x xs IH]; cbn [for_each].
  - apply never_raises_ret.
  - apply never_raises_mbind; [apply Hb | intros _; exact IH].
Qed.

Ltac quiet_step :=
  first
    [ apply never_raises_try_except; intros ?
    | apply never_raises_mbind; [|intros ?]
    | apply never_raises_for_each; intros ?
    | apply never_raises_ret | apply never_raises_ask
    | apply never_raises_get | apply never_raises_append
    | apply never_raises_modify
    | match goal with
      | |- never_raises (if ?b then _ else _) => destruct b
      end ].

Ltac quiet := repeat quiet_step.

Lemma never_raises_perform_action (a : action) :
  never_raises (perform_action h a).
Proof.
  destruct a; cbn [perform_action];
    unfold show_help, change_directory, list_files, make_directory,
      remove_file_or_dir, copy_file_or_dir, move_file_or_dir,
      show_history, show_processes, show_system_stats,
      execute_system_command, update_prompt;
    quiet.
Qed.

(** No exception leaves [execute_command]: whatever the line, the host
    and the world, in a run in which the host calls come back every
    exception of a built-in or of the external executor is caught inside
    the method that met it, and [execute_command] ends normally.  The
    same holds for the monitor timer. *)
Theorem execute_command_never_raises :
  never_raises (execute_command h)
  /\ never_raises (update_system_monitor h).
Proof.
  split.
  - unfold execute_command. quiet. apply never_raises_perform_action.
  - unfold update_system_monitor. quiet.
Qed.

End NeverRaises.

(** ** What a command leaves alone *)

Section Frames.

Variable W : Type.
Variable h : Host W.
Variable V : Type.
Variable view : Terminal -> W -> V.

Lemma view_ret {A : Type} (a : A) : keeps_view view (ret (W := W) a).
Proof. intros t w. reflexivity. Qed.

Lemma view_ask {A : Type} (f : W -> A) : keeps_view view (ask f).
Proof. intros t w. reflexivity. Qed.

Lemma view_call {A : Type} (f : W -> Result A) : keeps_view view (call f).
Proof. intros t w. reflexivity. Qed.

Lemma view_lift {A : Type} (r : Result A) :
  keeps_view view (lift (W := W) r).
Proof. intros t w. reflexivity. Qed.

Lemma view_get {A : Type} (f : Terminal -> A) :
  keeps_view view (get (W := W) f).
Proof. intros t w. reflexivity. Qed.

Lemma view_modify (f : Terminal -> Terminal) :
  (forall t w, view (f t) w = view t w) ->
  keeps_view view (modify (W := W) f).
Proof. intros H t w. apply H. Qed.

Lemma view_perform {A : Type} (f : W -> W * Result A) :
  (forall t w w', view t w' = view t w) ->
  keeps_view view (perform f).
Proof.
  intros H t w. unfold perform. destruct (f w) as [w' r]. apply H.
Qed.

Lemma view_mbind {A B : Type} (m : M W A) (k : A -> M W B) :
  keeps_view view m -> (forall a, keeps_view view (k a)) ->
  keeps_view view (mbind m k).
Proof.
  intros Hm Hk t w. unfold mbind. specialize (Hm t w).
  destruct (m t w) as [[t' w'] [e|a]]; cbn [fst snd] in *; [exact Hm|].
  now rewrite (Hk a t' w').
Qed.

Lemma view_try_except (body : M W unit) (handler : string -> M W unit) :
  keeps_view view body -> (forall e, keeps_view view (handler e)) ->
  keeps_view view (try_except body handler).
Proof.
  intros Hb Hh t w. unfold try_except. specialize (Hb t w).
  destruct (body t w) as [[t' w'] [e|u]]; cbn [fst snd] in *; [|exact Hb].
  now rewrite (Hh e t' w').
Qed.

Lemma view_for_each {A : Type} (xs : list A) (body : A -> M W unit) :
  (forall x, keeps_view view (body x)) ->
  keeps_view view (for_each xs body).
Proof.
  intros Hb. induction xs as [|x xs IH]; cbn [for_each].
  - apply view_ret.
  - apply view_mbind; [apply Hb | intros _; exact IH].
Qed.

End Frames.

Ltac frame_step :=
  first
    [ apply view_try_except; [|intros ?]
    | apply view_mbind; [|intros ?]
    | apply view_for_each; intros ?
    | apply view_ret | apply view_ask | apply view_call
    | apply view_lift | apply view_get
    | apply view_modify; intros ? ?; reflexivity
    | apply view_perform; intros ? ? ?; reflexivity
    | match goal with
      | |- keeps_view _ (if ?b then _ else _) => destruct b
      | |- keeps_view _ (match ?x with _ => _ end) => destruct x
      end ].

Ltac frame := repeat frame_step.

Section FrameTheorems.

Variable W : Type.
Variable h : Host W.

Lemma perform_action_keeps_current_dir (a : action) :
  builtin_of a <> Some VCd ->
  keeps_view (fun t (_ : W) => current_dir t) (perform_action h a).
Proof.
  intros N. destruct a; try (now contradiction N); cbn [perform_action];
    unfold show_help, list_files, make_directory,
      remove_file_or_dir, copy_file_or_dir, move_file_or_dir,
      show_history, show_processes, show_system_stats,
      execute_system_command, detail_line, append;
    frame.
Qed.

Lemma execute_command_keeps_current_dir (t : Terminal) (w : W) :
  builtin_of (dispatch (PyStr.strip (input_field t))) <> Some VCd ->
  current_dir (fst (fst (execute_command h t w))) = current_dir t.
Proof.
  intros N.
  destruct (PyStr.is_empty (PyStr.strip (input_field t))) eqn:E.
  - apply is_empty_spec in E.
    now rewrite (execute_command_blank W h t w E).
  - apply is_empty_false in E.
    rewrite (execute_command_accepted W h t w _ eq_refl E).
    now rewrite (perform_action_keeps_current_dir _ N _ w).
Qed.

(** Only [cd] moves the session: after any line that the dispatcher does
    not give to [change_directory], the current directory is what it
    was, whatever the command did to the world. *)
Theorem only_cd_changes_current_dir (t : Terminal) (w : W) :
  builtin_of (dispatch (PyStr.strip (input_field t))) <> Some VCd ->
  current_dir (fst (fst (execute_command h t w))) = current_dir t.
Proof. exact (execute_command_keeps_current_dir t w). Qed.

Lemma perform_action_keeps_world (a : action) :
  read_only a = true ->
  keeps_view (fun (_ : Terminal) (w : W) => w) (perform_action h a).
Proof.
  intros R. destruct a; try discriminate R; cbn [perform_action];
    unfold show_help, change_directory, list_files, update_prompt,
      show_history, show_processes, show_system_stats, detail_line, append;
    frame.
Qed.

(** [exit], [help], [cd], [pwd], [ls], [clear], [history], [ps] and
    [top] only read the world: after them the world is what it was. *)
Theorem read_only_commands_keep_world (t : Terminal) (w : W) :
  read_only (dispatch (PyStr.strip (input_field t))) = true ->
  snd (fst (execute_command h t w)) = w.
Proof.
  intros R.
  destruct (PyStr.is_empty (PyStr.strip (input_field t))) eqn:E.
  - apply is_empty_spec in E.
    now rewrite (execute_command_blank W h t w E).
  - apply is_empty_false in E.
    rewrite (execute_command_accepted W h t w _ eq_refl E).
    now rewrite (perform_action_keeps_world _ R _ w).
Qed.

Lemma update_system_monitor_sets_label (t : Terminal) (w : W) :
  exists text,
    update_system_monitor h t w = (set_monitor_label text t, w, inr tt).
Proof.
  unfold update_system_monitor, try_except, mbind, call, modify.
  destruct (cpu_percent_total h w) as [e|cpu];
    [eexists; reflexivity|].
  destruct (virtual_memory h w) as [e|memory];
    [eexists; reflexivity|].
  destruct (disk_usage_root h w) as [e|disk];
    eexists; reflexivity.
Qed.

(** The monitor timer writes the monitor label and nothing else: the
    session, the output pane, the input field and the world are what
    they were, and the label is the readout or, when a query fails,
    [System monitor unavailable]. *)
Theorem monitor_changes_only_its_label (t : Terminal) (w : W) :
  exists text,
    update_system_monitor h t w = (set_monitor_label text t, w, inr tt)
    /\ (forall e,
          cpu_percent_total h w = inl e \/ virtual_memory h w = inl e
          \/ disk_usage_root h w = inl e ->
          text = "System monitor unavailable").
Proof.
  unfold update_system_monitor, try_except, mbind, call, modify.
  destruct (cpu_percent_total h w) as [e|cpu];
    [eexists; split; [reflexivity | intros; reflexivity]|].
  destruct (virtual_memory h w) as [e|memory];
    [eexists; split; [reflexivity | intros; reflexivity]|].
  destruct (disk_usage_root h w) as [e|disk];
    [eexists; split; [reflexivity | intros; reflexivity]|].
  eexists. split; [reflexivity|].
  intros e [X|[X|X]]; discriminate X.
Qed.

End FrameTheorems.

Lemma only_cd_changes_current_dir_witness :
  current_dir
    (fst (fst (execute_command Demo.host
                 (Demo.typed "rm docs" (init Demo.host)) Demo.home_world)))
  = current_dir (Demo.typed "rm docs" (init Demo.host)).
Proof.
  apply (only_cd_changes_current_dir Demo.world Demo.host
           (Demo.typed "rm docs" (init Demo.host)) Demo.home_world).
  discriminate.
Defined.

Lemma read_only_commands_keep_world_witness :
  snd (fst (execute_command Demo.host
              (Demo.typed "ls -l" (init Demo.host)) Demo.home_world))
  = Demo.home_world.
Proof.
  apply (read_only_commands_keep_world Demo.world Demo.host
           (Demo.typed "ls -l" (init Demo.host)) Demo.home_world).
  reflexivity.
Defined.

(** ** The current directory is an absolute path *)

Section AbsolutePaths.

Import PyStr.

Lemma isabs_cons (p : string) :
  PosixPath.isabs p = true <-> exists r, p = String "/" r.
Proof.
  unfold PosixPath.isabs. split.
  - destruct p as [|c r]; cbn [startswith]; [discriminate|].
    destruct (Ascii.eqb_spec "/" c) as [<-|]; cbn [andb]; [|discriminate].
    intros _. now exists r.
  - intros [r ->]. reflexivity.
Qed.

Lemma normpath_isabs (p : string) :
  PosixPath.isabs p = true -> PosixPath.isabs (PosixPath.normpath p) = true.
Proof.
  intros H. unfold PosixPath.normpath.
  apply isabs_cons in H. destruct H as [r ->].
  cbn [is_empty]. change (startswith (String "/" r) "/") with true.
  cbv iota.
  destruct (startswith (String "/" r) "//"
            && negb (startswith (String "/" r) "///")); reflexivity.
Qed.

Lemma join_isabs (a b : string) :
  PosixPath.isabs a = true -> PosixPath.isabs (PosixPath.join a b) = true.
Proof.
  intros H. unfold PosixPath.join.
  destruct (startswith b "/") eqn:B; [exact B|].
  apply isabs_cons in H. destruct H as [r ->].
  now destruct (is_empty (String "/" r) || PosixPath.ends_with_sep
                                             (String "/" r)).
Qed.

Lemma abspath_isabs (cwd p : string) :
  PosixPath.isabs cwd = true \/ PosixPath.isabs p = true ->
  PosixPath.isabs (PosixPath.abspath cwd p) = true.
Proof.
  intros H. unfold PosixPath.abspath. apply normpath_isabs.
  destruct (PosixPath.isabs p) eqn:P; [exact P|].
  destruct H as [H|H]; [now apply join_isabs | discriminate].
Qed.

End AbsolutePaths.

Section AbsoluteInvariant.

Variable W : Type.
Variable h : Host W.

(** [change_directory] keeps the current directory or moves it to the
    normalised path it tested. *)
Lemma change_directory_target (path : string) (t : Terminal) (w : W) :
  let target :=
    PosixPath.abspath (getcwd h)
      (PosixPath.join (current_dir t)
         (if PyStr.is_empty path then expanduser_home h else path)) in
  current_dir (fst (fst (change_directory h path t w)))
  = if isdir h w target then target else current_dir t.
Proof.
  unfold change_directory, try_except, mbind, get, ask.
  cbv zeta. destruct (isdir h w _); reflexivity.
Qed.

Lemma keyPressEvent_keeps_current_dir (k : key) :
  keeps_view (fun t (_ : W) => current_dir t) (keyPressEvent k).
Proof. unfold keyPressEvent. destruct k; frame. Qed.

Lemma execute_command_isabs (t : Terminal) (w : W) :
  PosixPath.isabs (current_dir t) = true ->
  PosixPath.isabs (current_dir (fst (fst (execute_command h t w)))) = true.
Proof.
  intros A.
  destruct (dispatch (PyStr.strip (input_field t))) eqn:D;
    try (rewrite execute_command_keeps_current_dir;
         [exact A | rewrite D; discriminate]).
  destruct (PyStr.is_empty (PyStr.strip (input_field t))) eqn:E.
  - apply is_empty_spec in E.
    now rewrite (execute_command_blank W h t w E).
  - apply is_empty_false in E.
    rewrite (execute_command_accepted W h t w _ eq_refl E), D.
    cbn [perform_action]. rewrite change_directory_target.
    destruct (isdir h w _); [|exact A].
    apply abspath_isabs. right. now apply join_isabs.
Qed.

(** When the program starts in an absolute directory, the current
    directory is an absolute path in every state the session reaches:
    [cd] stores the result of [os.path.abspath], and nothing else
    writes the field. *)
Theorem current_dir_is_absolute (w0 : W) (s : Terminal * W) :
  PosixPath.isabs (getcwd h) = true ->
  reachable h w0 s ->
  PosixPath.isabs (current_dir (fst s)) = true.
Proof.
  intros A R. induction R as [|s e s' R IH St].
  - exact A.
  - destruct St as [t w e t' w' Q H]. cbn [fst] in *.
    destruct e as [text| |k| |w1]; cbn [handle] in H.
    + injection H as <- _. exact IH.
    + pose proof (execute_command_isabs t w IH) as X.
      now rewrite H in X.
    + pose proof (keyPressEvent_keeps_current_dir k t w) as X.
      rewrite H in X. cbn [fst] in X. now rewrite X.
    + destruct (update_system_monitor_sets_label W h t w) as [text X].
      rewrite X in H. injection H as <- _. exact IH.
    + injection H as <- _. exact IH.
Qed.

End AbsoluteInvariant.

Lemma current_dir_is_absolute_witness :
  PosixPath.isabs
    (current_dir
       (fst (fst (fst (execute_command Demo.host
                         (Demo.typed "cd docs/../docs" (init Demo.host))
                         Demo.home_world)),
             Demo.home_world))) = true.
Proof.
  apply (current_dir_is_absolute Demo.world Demo.host Demo.home_world).
  - reflexivity.
  - apply reachable_step
      with (s := (Demo.typed "cd docs/../docs" (init Demo.host),
                  Demo.home_world))
           (e := ReturnPressed Demo.world).
    + apply reachable_step
        with (s := (init Demo.host, Demo.home_world))
             (e := TextEdited Demo.world "cd docs/../docs").
      * constructor.
      * constructor; reflexivity.
    + constructor; reflexivity.
Defined.

(** ** [cd] and [pwd] together, and [cd] alone *)

Section ChangeDirectoryMore.

Variable W : Type.
Variable h : Host W.

Lemma join_absolute_right (a b : string) :
  PosixPath.isabs b = true -> PosixPath.join a b = b.
Proof. intros B. unfold PosixPath.join. unfold PosixPath.isabs in B.
  now rewrite B. Qed.

(** After a [cd P] that succeeds, [pwd] prints the normalised absolute
    path that [cd] tested, and that path is the current directory. *)
Theorem cd_then_pwd (t : Terminal) (w : W) (text P : string) :
  PyStr.strip text = ("cd " ++ P)%string ->
  isdir h w (PosixPath.abspath (getcwd h)
               (PosixPath.join (current_dir t) P)) = true ->
  current_dir (fst (submit_all h [text; "pwd"] t w))
  = PosixPath.abspath (getcwd h) (PosixPath.join (current_dir t) P)
  /\ output_area (fst (submit_all h [text; "pwd"] t w))
     = output_area t
       ++ [("$ cd " ++ P)%string; "$ pwd";
           PosixPath.abspath (getcwd h)
             (PosixPath.join (current_dir t) P)].
Proof.
  intros E D.
  assert (NP : P <> EmptyString) by exact (strip_verb_argument _ "cd" _ E).
  apply is_empty_false in NP.
  cbn [submit_all]. unfold submit.
  rewrite (execute_command_accepted W h (set_input_field text t) w
             ("cd " ++ P)) by (try exact E; discriminate).
  rewrite dispatch_cd. cbn [perform_action].
  unfold change_directory, try_except, mbind, get, ask. rewrite NP.
  cbn [accepted current_dir set_output_area set_history_index
       set_command_history set_input_field].
  rewrite D.
  unfold modify, update_prompt, mbind, get, modify.
  rewrite (execute_command_accepted W h _ w "pwd")
    by (reflexivity || discriminate).
  split; [reflexivity|].
  cbn [dispatch perform_action]. change (dispatch "pwd") with Pwd.
  cbn. now rewrite <- !app_assoc.
Qed.

(** [cd] without a path goes to the home directory, whatever the current
    directory is; when the home directory is not there, the error names
    it. *)
Theorem cd_alone_goes_home (t : Terminal) (w : W) :
  PyStr.strip (input_field t) = "cd" ->
  PosixPath.isabs (expanduser_home h) = true ->
  current_dir (fst (fst (execute_command h t w)))
  = (if isdir h w (PosixPath.normpath (expanduser_home h))
     then PosixPath.normpath (expanduser_home h) else current_dir t)
  /\ output_area (fst (fst (execute_command h t w)))
     = output_area t ++ ["$ cd"]
       ++ (if isdir h w (PosixPath.normpath (expanduser_home h)) then []
           else [("Error: Directory not found: " ++ expanduser_home h)
                   %string]).
Proof.
  intros E A.
  rewrite (execute_command_accepted W h t w "cd" E) by discriminate.
  change (dispatch "cd") with (ChangeDirectory EmptyString).
  cbn [perform_action].
  unfold change_directory, try_except, mbind, get, ask.
  cbn [PyStr.is_empty accepted current_dir set_output_area
       set_history_index set_command_history set_input_field].
  rewrite (join_absolute_right _ _ A).
  unfold PosixPath.abspath. rewrite A.
  destruct (isdir h w (PosixPath.normpath (expanduser_home h))).
  - split; [reflexivity|]. cbn. now rewrite <- ?app_assoc.
  - split; [reflexivity|]. cbn. now rewrite <- ?app_assoc.
Qed.

End ChangeDirectoryMore.

Lemma cd_then_pwd_witness :
  output_area
    (fst (submit_all Demo.host ["cd docs"; "pwd"] (init Demo.host)
            Demo.home_world))
  = output_area (init Demo.host)
    ++ ["$ cd docs"; "$ pwd";
        PosixPath.abspath (getcwd Demo.host)
          (PosixPath.join (current_dir (init Demo.host)) "docs")].
Proof.
  apply (cd_then_pwd Demo.world Demo.host (init Demo.host) Demo.home_world
           "cd docs" "docs"); reflexivity.
Defined.

Lemma cd_alone_goes_home_witness :
  current_dir
    (fst (fst (execute_command Demo.host
                 (Demo.typed "cd"
                    (set_current_dir "/home/user/docs" (init Demo.host)))
                 Demo.home_world)))
  = (if isdir Demo.host Demo.home_world
          (PosixPath.normpath (expanduser_home Demo.host))
     then PosixPath.normpath (expanduser_home Demo.host)
     else current_dir
            (Demo.typed "cd"
               (set_current_dir "/home/user/docs" (init Demo.host)))).
Proof.
  apply (cd_alone_goes_home Demo.world Demo.host
           (Demo.typed "cd"
              (set_current_dir "/home/user/docs" (init Demo.host)))
           Demo.home_world); reflexivity.
Defined.

(** ** Lines the built-ins refuse *)

Section Refusals.

Variable W : Type.
Variable h : Host W.

Lemma read_tokens_errors (input : string) :
  forall st tok quoted esc e,
    Shlex.read_tokens input st tok quoted esc = inl e ->
    e = "No closing quotation" \/ e = "No escaped character".
Proof.
  induction input as [|c input IH]; intros st tok quoted esc e H;
    cbn [Shlex.read_tokens] in H.
  - destruct st; try destruct (Shlex.emit tok quoted);
      try discriminate H; injection H as <-; auto.
  - destruct st;
      repeat match type of H with
             | context [if ?b then _ else _] => destruct b
             | context [match Shlex.emit ?a ?b with _ => _ end] =>
                 destruct (Shlex.emit a b)
             end;
      try discriminate H; try (eapply IH; exact H);
      unfold bind in H;
      match type of H with
      | context [match Shlex.read_tokens ?i ?s ?k ?q ?x with _ => _ end] =>
          destruct (Shlex.read_tokens i s k q x) as [e'|ts] eqn:R
      end;
      try discriminate H; injection H as <-; eapply IH; exact R.
Qed.

(** The tokenizer fails in two ways only, and [ls], [cp] and [mv] answer
    a line it cannot split with that error and nothing else: no listing,
    no copy, no move. *)
Theorem unbalanced_quotes_are_reported (t : Terminal) (w : W)
    (command e : string) :
  Shlex.split command = inl e ->
  (e = "No closing quotation" \/ e = "No escaped character")
  /\ list_files h command t w
     = (set_output_area (output_area t ++ [("Error: " ++ e)%string]) t,
        w, inr tt)
  /\ copy_file_or_dir h command t w
     = (set_output_area (output_area t ++ [("Error: " ++ e)%string]) t,
        w, inr tt)
  /\ move_file_or_dir h command t w
     = (set_output_area (output_area t ++ [("Error: " ++ e)%string]) t,
        w, inr tt).
Proof.
  intros S. split; [exact (read_tokens_errors _ _ _ _ _ _ S)|].
  unfold list_files, copy_file_or_dir, move_file_or_dir, try_except,
    mbind, lift.
  rewrite S. repeat split.
Qed.

(** [cp] and [mv] with fewer than two arguments say what they require
    and do not touch the world. *)
Theorem copy_and_move_need_two_arguments (t : Terminal) (w : W)
    (command : string) (parts : list string) :
  Shlex.split command = inr parts ->
  List.length parts < 3 ->
  copy_file_or_dir h command t w
  = (set_output_area
       (output_area t ++ ["Error: cp requires source and destination"]) t,
     w, inr tt)
  /\ move_file_or_dir h command t w
     = (set_output_area
          (output_area t ++ ["Error: mv requires source and destination"])
          t, w, inr tt).
Proof.
  intros S L.
  unfold copy_file_or_dir, move_file_or_dir, try_except, mbind, lift.
  rewrite S.
  destruct parts as [|p0 [|p1 [|p2 rest]]]; cbn in L; try lia;
    split; reflexivity.
Qed.

(** [ls] on a path that is not there names the path it looked for, the
    argument joined to the current directory, and lists nothing. *)
Theorem ls_missing_path (t : Terminal) (w : W) (command v p : string)
    (rest : list string) :
  Shlex.split command = inr (v :: p :: rest) ->
  PyStr.startswith p "-" = false ->
  exists_ h w (PosixPath.join (current_dir t) p) = false ->
  list_files h command t w
  = (set_output_area
       (output_area t
        ++ [("Error: Path not found: "
             ++ PosixPath.join (current_dir t) p)%string]) t,
     w, inr tt).
Proof.
  intros S F E.
  unfold list_files, try_except, mbind, lift, get, ask.
  rewrite S. cbn [ls_options]. rewrite F, E. reflexivity.
Qed.

(** [ls] on a regular file the host can [stat]: when the host can render
    the modification time, [ls] prints one line for the file, of type [-]
    and under its base name, whatever the flags ([-a] is not needed for a
    hidden file named on the line); when it cannot, [ls] prints the
    error of the rendering and no line. *)
Theorem ls_single_file (t : Terminal) (w : W) (command : string)
    (parts : list string) (path : string) (show_all long_format : bool)
    (st : stat_result) :
  Shlex.split command = inr parts ->
  ls_options (current_dir t) parts = (path, show_all, long_format) ->
  exists_ h w path = true ->
  isfile h w path = true ->
  stat h w path = inr st ->
  (forall mtime,
     strftime_local h (st_mtime st) = inr mtime ->
     exists rest,
       detail_text h w path (PosixPath.basename path) st mtime
       = String "-" rest
       /\ list_files h command t w
          = (set_output_area (output_area t ++ [String "-" rest]) t, w,
             inr tt))
  /\ (forall e,
        strftime_local h (st_mtime st) = inl e ->
        list_files h command t w
        = (set_output_area (output_area t ++ [("Error: " ++ e)%string]) t,
           w, inr tt)).
Proof.
  intros S O E F St.
  assert (L : list_files h command t w
              = match detail_of h w path (PosixPath.basename path) with
                | inr line =>
                    (set_output_area (output_area t ++ [line]) t, w, inr tt)
                | inl e =>
                    (set_output_area
                       (output_area t ++ [("Error: " ++ e)%string]) t,
                     w, inr tt)
                end).
  { unfold list_files, try_except.
    unfold mbind at 1. unfold lift. rewrite S.
    unfold mbind at 1. unfold get. rewrite O.
    unfold mbind at 1. unfold ask at 1. rewrite E. cbn [negb].
    unfold mbind at 1. unfold ask at 1. rewrite F.
    unfold mbind at 1. rewrite detail_line_pure.
    now destruct (detail_of h w path (PosixPath.basename path)). }
  rewrite L. unfold detail_of, bind. rewrite St. split.
  - intros mtime T. rewrite T. unfold detail_text. rewrite F.
    cbn [String.append]. eexists. split; reflexivity.
  - intros e T. now rewrite T.
Qed.

(** When the host cannot start the command, the external executor says
    so with the host's message; the session stays as it was. *)
Theorem external_command_spawn_failure (t : Terminal) (w w' : W)
    (command e : string) :
  PyStr.strip (input_field t) = command ->
  command <> EmptyString ->
  dispatch command = External command ->
  popen_communicate h w command (current_dir t) = (w', inl e) ->
  execute_command h t w
  = (set_output_area
       (output_area t
        ++ [("$ " ++ command)%string;
            ("Error executing command: " ++ e)%string])
       (accepted command t), w', inr tt).
Proof.
  intros E N D P.
  rewrite (execute_command_accepted W h t w _ E N), D.
  cbn [perform_action].
  unfold execute_system_command, try_except, mbind, get, perform.
  cbn [accepted current_dir set_output_area set_history_index
       set_command_history set_input_field].
  rewrite P. unfold append, modify. cbn. now rewrite <- app_assoc.
Qed.

End Refusals.

Lemma unbalanced_quotes_are_reported_witness :
  list_files Demo.host "ls 'docs" (init Demo.host) Demo.home_world
  = (set_output_area
       (output_area (init Demo.host) ++ ["Error: No closing quotation"])
       (init Demo.host), Demo.home_world, inr tt).
Proof.
  apply (unbalanced_quotes_are_reported Demo.world Demo.host
           (init Demo.host) Demo.home_world "ls 'docs"
           "No closing quotation").
  reflexivity.
Defined.

Lemma copy_and_move_need_two_arguments_witness :
  copy_file_or_dir Demo.host "cp notes.txt" (init Demo.host)
    Demo.home_world
  = (set_output_area
       (output_area (init Demo.host)
        ++ ["Error: cp requires source and destination"])
       (init Demo.host), Demo.home_world, inr tt).
Proof.
  apply (copy_and_move_need_two_arguments Demo.world Demo.host
           (init Demo.host) Demo.home_world "cp notes.txt"
           ["cp"; "notes.txt"]).
  - reflexivity.
  - cbn. lia.
Defined.

Lemma ls_missing_path_witness :
  list_files Demo.host "ls nowhere" (init Demo.host) Demo.home_world
  = (set_output_area
       (output_area (init Demo.host)
        ++ [("Error: Path not found: "
             ++ PosixPath.join (current_dir (init Demo.host)) "nowhere")
              %string])
       (init Demo.host), Demo.home_world, inr tt).
Proof.
  apply (ls_missing_path Demo.world Demo.host (init Demo.host)
           Demo.home_world "ls nowhere" "ls" "nowhere" []);
    reflexivity.
Defined.

Lemma ls_single_file_witness :
  exists rest,
    detail_text Demo.host Demo.home_world "/home/user/.profile"
      (PosixPath.basename "/home/user/.profile")
      {| st_size := 64; st_mtime := 0 |} "1970-01-01 00:00"
    = String "-" rest
    /\ list_files Demo.host "ls .profile" (init Demo.host) Demo.home_world
       = (set_output_area
            (output_area (init Demo.host) ++ [String "-" rest])
            (init Demo.host), Demo.home_world, inr tt).
Proof.
  apply (proj1 (ls_single_file Demo.world Demo.host (init Demo.host)
                  Demo.home_world "ls .profile" ["ls"; ".profile"]
                  "/home/user/.profile" false false
                  {| st_size := 64; st_mtime := 0 |}
                  eq_refl eq_refl eq_refl eq_refl eq_refl)
           "1970-01-01 00:00").
  reflexivity.
Defined.

Lemma external_command_spawn_failure_witness :
  execute_command strict_host
    (Demo.typed "make" (set_current_dir "/home/user/gone" (init Demo.host)))
    Demo.home_world
  = (set_output_area
       (output_area
          (Demo.typed "make"
             (set_current_dir "/home/user/gone" (init Demo.host)))
        ++ ["$ make";
            ("Error executing command: "
             ++ "[Errno 2] No such file or directory: '/home/user/gone'")
              %string])
       (accepted "make"
          (Demo.typed "make"
             (set_current_dir "/home/user/gone" (init Demo.host)))),
     Demo.home_world, inr tt).
Proof.
  apply (external_command_spawn_failure Demo.world strict_host
           (Demo.typed "make"
              (set_current_dir "/home/user/gone" (init Demo.host)))
           Demo.home_world Demo.home_world "make"
           "[Errno 2] No such file or directory: '/home/user/gone'").
  - reflexivity.
  - discriminate.
  - reflexivity.
  - reflexivity.
Defined.

(** ** [history] and [clear] *)

Section HistoryAndClear.

Variable W : Type.
Variable h : Host W.

Lemma numbered_nth (cmds : list string) :
  forall i k c,
    nth_error cmds k = Some c ->
    nth_error (numbered i cmds) k
    = Some (PyStr.of_nat (i + k + 1) ++ ": " ++ c)%string.
Proof.
  unfold numbered.
  induction cmds as [|x cmds IH]; intros i k c H;
    destruct k as [|k]; cbn in *; try discriminate.
  - injection H as <-. now rewrite Nat.add_0_r.
  - rewrite (IH (i + 1) k c H). do 3 f_equal. lia.
Qed.

Lemma numbered_length (i : nat) (cmds : list string) :
  List.length (numbered i cmds) = List.length cmds.
Proof.
  unfold numbered. rewrite length_map. revert i.
  induction cmds as [|x cmds IH]; intros i; cbn; [reflexivity|].
  now rewrite IH.
Qed.

Lemma for_each_numbered (cmds : list string) :
  forall (i : nat) (t : Terminal) (w : W),
    for_each (enumerate_from i cmds)
      (fun ic => append (PyStr.of_nat (fst ic + 1) ++ ": " ++ snd ic)%string)
      t w
    = (set_output_area (output_area t ++ numbered i cmds) t, w, inr tt).
Proof.
  unfold numbered.
  induction cmds as [|c cmds IH]; intros i t w.
  - cbn. now rewrite app_nil_r, set_output_area_same.
  - cbn [enumerate_from for_each map]. unfold mbind at 1.
    unfold append at 1, modify. rewrite IH.
    cbn [output_area set_output_area fst snd].
    now rewrite <- app_assoc.
Qed.

Lemma show_history_numbered (t : Terminal) (w : W) :
  show_history t w
  = (set_output_area (output_area t ++ numbered 0 (command_history t)) t,
     w, inr tt).
Proof.
  unfold show_history, mbind, get. apply for_each_numbered.
Qed.

(** [history] prints one line for every recorded command, in order and
    numbered from one; the line [history] itself is recorded before it
    is run, so it is the last one printed. *)
Theorem history_lists_every_command (t : Terminal) (w : W) :
  PyStr.strip (input_field t) = "history" ->
  let t' := fst (fst (execute_command h t w)) in
  output_area t'
  = output_area t ++ ["$ history"]
    ++ numbered 0 (command_history t ++ ["history"])
  /\ List.length (numbered 0 (command_history t ++ ["history"]))
     = List.length (command_history t) + 1
  /\ (forall k c,
        nth_error (command_history t ++ ["history"]) k = Some c ->
        nth_error (numbered 0 (command_history t ++ ["history"])) k
        = Some (PyStr.of_nat (k + 1) ++ ": " ++ c)%string).
Proof.
  intros E t'. subst t'.
  rewrite (execute_command_accepted W h t w "history" E) by discriminate.
  change (dispatch "history") with History. cbn [perform_action].
  rewrite show_history_numbered. cbn [fst].
  split; [|split].
  - cbn [accepted output_area command_history set_output_area
         set_history_index set_command_history set_input_field].
    now rewrite <- app_assoc.
  - now rewrite numbered_length, length_app.
  - intros k c H. now rewrite (numbered_nth _ 0 k c H).
Qed.

(** [clear] empties the output pane, the echo of the line included, and
    leaves the session alone: the line is in the history, and the
    current directory and the world are what they were. *)
Theorem clear_keeps_the_session (t : Terminal) (w : W) :
  PyStr.strip (input_field t) = "clear" ->
  execute_command h t w
  = (set_output_area [] (accepted "clear" t), w, inr tt)
  /\ output_area (fst (fst (execute_command h t w))) = []
  /\ command_history (fst (fst (execute_command h t w)))
     = command_history t ++ ["clear"]
  /\ current_dir (fst (fst (execute_command h t w))) = current_dir t.
Proof.
  intros E.
  rewrite (execute_command_accepted W h t w "clear" E) by discriminate.
  repeat split.
Qed.

End HistoryAndClear.

Lemma history_lists_every_command_witness :
  output_area
    (fst (fst (execute_command Demo.host
                 (Demo.typed "history"
                    (fst (submit_all Demo.host ["pwd"; "ls"; "cd .."]
                            (init Demo.host) Demo.home_world)))
                 Demo.home_world)))
  = output_area
      (Demo.typed "history"
         (fst (submit_all Demo.host ["pwd"; "ls"; "cd .."]
                 (init Demo.host) Demo.home_world)))
    ++ ["$ history"]
    ++ numbered 0 (["pwd"; "ls"; "cd .."] ++ ["history"]).
Proof.
  apply (history_lists_every_command Demo.world Demo.host
           (Demo.typed "history"
              (fst (submit_all Demo.host ["pwd"; "ls"; "cd .."]
                      (init Demo.host) Demo.home_world)))
           Demo.home_world).
  reflexivity.
Defined.

Lemma clear_keeps_the_session_witness :
  output_area
    (fst (fst (execute_command Demo.host
                 (Demo.typed " clear " (init Demo.host))
                 Demo.home_world))) = [].
Proof.
  apply (clear_keeps_the_session Demo.world Demo.host
           (Demo.typed " clear " (init Demo.host)) Demo.home_world).
  reflexivity.
Defined.

(** ** [ps]: the sort and the rows *)

Section ProcessTable.

Variable W : Type.
Variable h : Host W.

Lemma insert_desc_permutation (p : proc_info) (l : list proc_info) :
  Permutation (insert_desc p l) (p :: l).
Proof.
  induction l as [|q l IH]; cbn [insert_desc]; [reflexivity|].
  destruct (Qle_bool (cpu_key q) (cpu_key p)); [reflexivity|].
  rewrite IH. apply perm_swap.
Qed.

Lemma sort_by_cpu_permutation (l : list proc_info) :
  Permutation (sort_by_cpu l) l.
Proof.
  induction l as [|p l IH]; cbn; [constructor|].
  fold (sort_by_cpu l). rewrite insert_desc_permutation.
  now constructor.
Qed.

Lemma insert_desc_sorted (p : proc_info) (l : list proc_info) :
  StronglySorted cpu_ge l -> StronglySorted cpu_ge (insert_desc p l).
Proof.
  intros S. induction S as [|q l S IH F]; cbn [insert_desc].
  - constructor; constructor.
  - destruct (Qle_bool (cpu_key q) (cpu_key p)) eqn:E.
    + apply Qle_bool_iff in E. constructor; [now constructor|].
      constructor; [exact E|].
      eapply Forall_impl; [|exact F].
      intros r Hr. unfold cpu_ge in *. eapply Qle_trans; eassumption.
    + constructor; [exact IH|].
      assert (L : cpu_ge q p).
      { unfold cpu_ge. apply Qlt_le_weak. apply Qnot_le_lt.
        intros X. apply Qle_bool_iff in X. congruence. }
      eapply Permutation_Forall;
        [symmetry; apply insert_desc_permutation|].
      now constructor.
Qed.

Lemma insert_desc_stable (k : Q) (p : proc_info) (l : list proc_info) :
  filter (fun x => Qeq_bool (cpu_key x) k) (insert_desc p l)
  = filter (fun x => Qeq_bool (cpu_key x) k) (p :: l).
Proof.
  induction l as [|q l IH]; cbn [insert_desc]; [reflexivity|].
  destruct (Qle_bool (cpu_key q) (cpu_key p)) eqn:E; [reflexivity|].
  cbn [filter] in *. rewrite IH.
  destruct (Qeq_bool (cpu_key p) k) eqn:Ep; [|reflexivity].
  destruct (Qeq_bool (cpu_key q) k) eqn:Eq; [|reflexivity].
  exfalso. apply Qeq_bool_iff in Ep, Eq.
  assert (X : Qle_bool (cpu_key q) (cpu_key p) = true).
  { apply Qle_bool_iff. rewrite Ep, Eq. apply Qle_refl. }
  congruence.
Qed.

(** The sort of [ps] gives back the same processes, from the highest
    CPU percentage to the lowest with a missing one counted as zero, and
    keeps processes of equal percentage in the order the provider gave
    them. *)
Theorem sort_by_cpu_sorts (l : list proc_info) :
  Permutation (sort_by_cpu l) l
  /\ StronglySorted cpu_ge (sort_by_cpu l)
  /\ (forall k,
        filter (fun x => Qeq_bool (cpu_key x) k) (sort_by_cpu l)
        = filter (fun x => Qeq_bool (cpu_key x) k) l).
Proof.
  split; [apply sort_by_cpu_permutation|]. split.
  - induction l as [|p l IH]; cbn; [constructor|].
    now apply insert_desc_sorted.
  - intros k. induction l as [|p l IH]; cbn [sort_by_cpu fold_right];
      [reflexivity|].
    fold (sort_by_cpu l). rewrite insert_desc_stable.
    cbn [filter]. now rewrite IH.
Qed.

Lemma process_line_row (p : proc_info) (c : Q) :
  cpu_percent p = Some c -> process_line p = inr (process_row p c).
Proof.
  intros E. unfold process_line, process_row, format_1f_opt, bind.
  now rewrite E.
Qed.

Lemma for_each_process_rows (ps : list proc_info) :
  forall (t : Terminal) (w : W),
    Forall (fun p => cpu_percent p <> None) ps ->
    for_each ps (fun p => mbind (lift (process_line p))
                            (fun line => append line)) t w
    = (set_output_area
         (output_area t ++ map (fun p => process_row p (cpu_key p)) ps) t,
       w, inr tt).
Proof.
  induction ps as [|p ps IH]; intros t w F.
  - cbn. now rewrite app_nil_r, set_output_area_same.
  - inversion F as [|? ? Hp Hps]; subst.
    destruct (cpu_percent p) as [c|] eqn:E; [|contradiction].
    cbn [for_each map]. unfold mbind at 1 2. unfold lift at 1.
    rewrite (process_line_row p c E).
    unfold append at 1, modify. rewrite (IH _ w Hps).
    cbn [output_area set_output_area]. unfold cpu_key at 2. rewrite E.
    now rewrite <- app_assoc.
Qed.

(** When every process has a CPU percentage, [ps] prints the header and
    then one row for each of the first ten processes of the sorted
    table: ten rows, or as many as there are processes. *)
Theorem ps_prints_the_top_ten (t : Terminal) (w : W)
    (procs : list proc_info) :
  process_iter h w = inr procs ->
  Forall (fun p => cpu_percent p <> None) procs ->
  show_processes h t w
  = (set_output_area
       (output_area t
        ++ ("PID" ++ tab ++ "NAME" ++ tab ++ "USER" ++ tab ++ "CPU%" ++ tab
            ++ "MEMORY")%string
           :: map (fun p => process_row p (cpu_key p))
                (firstn 10 (sort_by_cpu procs))) t,
     w, inr tt)
  /\ List.length (firstn 10 (sort_by_cpu procs))
     = Nat.min 10 (List.length procs).
Proof.
  intros P F. split.
  - unfold show_processes, try_except.
    unfold mbind at 1. unfold call. rewrite P.
    unfold mbind at 1. unfold append at 1, modify.
    rewrite for_each_process_rows.
    + cbn [output_area set_output_area]. now rewrite <- app_assoc.
    + apply Forall_forall. intros p Hp.
      apply (proj1 (Forall_forall _ procs) F).
      apply (Permutation_in p (sort_by_cpu_permutation procs)).
      rewrite <- (firstn_skipn 10 (sort_by_cpu procs)).
      apply in_or_app. now left.
  - rewrite length_firstn.
    now rewrite (Permutation_length (sort_by_cpu_permutation procs)).
Qed.

End ProcessTable.

Lemma ps_prints_the_top_ten_witness :
  show_processes Demo.host (init Demo.host) busy_world
  = (set_output_area
       (output_area (init Demo.host)
        ++ ("PID" ++ tab ++ "NAME" ++ tab ++ "USER" ++ tab ++ "CPU%" ++ tab
            ++ "MEMORY")%string
           :: map (fun p => process_row p (cpu_key p))
                (firstn 10 (sort_by_cpu (Demo.processes busy_world))))
       (init Demo.host), busy_world, inr tt).
Proof.
  apply (ps_prints_the_top_ten Demo.world Demo.host (init Demo.host)
           busy_world (Demo.processes busy_world)).
  - reflexivity.
  - repeat constructor; discriminate.
Defined.

(** ** The columns of the short listing *)

Section Columns.

Lemma max_length_bound (x : string) (l : list string) :
  In x l -> String.length x <= max_length l.
Proof.
  unfold max_length. induction l as [|y l IH]; intros H; [destruct H|].
  cbn. destruct H as [<-|H]; [lia|]. specialize (IH H). lia.
Qed.

(** The rows of the short format, put end to end, are the cells of the
    directories, each with its slash, followed by the cells of the
    files; every cell is exactly as wide as the longest name plus two. *)
Theorem short_rows_are_the_cells (dirs files : list string) :
  let width := max_length (files ++ dirs) + 2 in
  let cells :=
    map (fun d => PyStr.ljust (d ++ "/") width) dirs
    ++ map (fun f => PyStr.ljust f width) files in
  join_all (short_rows dirs files) = join_all cells
  /\ Forall (fun cell => String.length cell = width) cells
  /\ String.length (join_all (short_rows dirs files))
     = (List.length dirs + List.length files) * width.
Proof.
  intros width cells.
  assert (C : Forall (fun cell => String.length cell = width) cells).
  { subst cells. apply Forall_app. split; apply Forall_forall;
      intros cell H; apply in_map_iff in H; destruct H as (x & <- & H);
      rewrite ljust_length.
    - rewrite string_length_append. cbn.
      assert (String.length x <= max_length (files ++ dirs))
        by (apply max_length_bound, in_or_app; now right).
      subst width. lia.
    - assert (String.length x <= max_length (files ++ dirs))
        by (apply max_length_bound, in_or_app; now left).
      subst width. lia. }
  split; [apply short_rows_cells|]. split; [exact C|].
  rewrite short_rows_cells. fold width. fold cells.
  assert (L : List.length cells = List.length dirs + List.length files).
  { subst cells. now rewrite length_app, !length_map. }
  rewrite <- L. clear L. induction C as [|cell cells Hc C IH];
    [reflexivity|].
  cbn [join_all fold_right List.length]. fold (join_all cells).
  rewrite string_length_append, Hc, IH. lia.
Qed.

Lemma succ_mod (i p : nat) :
  0 < p ->
  (i + 1) mod p = if i mod p + 1 =? p then 0 else i mod p + 1.
Proof.
  intros P.
  pose proof (Nat.div_mod_eq i p) as D.
  pose proof (Nat.mod_upper_bound i p ltac:(lia)) as U.
  destruct (Nat.eqb_spec (i mod p + 1) p) as [E|E].
  - symmetry. apply (Nat.mod_unique (i + 1) p (i / p + 1) 0); [lia|].
    nia.
  - symmetry. apply (Nat.mod_unique (i + 1) p (i / p) (i mod p + 1));
      [lia|]. nia.
Qed.

(** One column loop that starts in step, with the line holding [i mod
    per_line] cells: every row it appends holds [per_line] cells, and
    the line left over holds the remainder. *)
Lemma column_loop_rows (width per_line : nat) (suffix : string)
    (items : list string) :
  0 < per_line ->
  Forall (fun d => String.length (d ++ suffix) <= width) items ->
  forall i line,
    String.length line = (i mod per_line) * width ->
    Forall (fun row => String.length row = per_line * width)
      (fst (column_loop width per_line suffix items i line))
    /\ String.length
         (snd (column_loop width per_line suffix items i line))
       = ((i + List.length items) mod per_line) * width.
Proof.
  intros P F. induction F as [|d items Hd F IH]; intros i line L.
  - cbn. split; [constructor|]. now rewrite Nat.add_0_r.
  - cbn [column_loop List.length].
    assert (C : String.length (line ++ PyStr.ljust (d ++ suffix) width)
                = (i mod per_line + 1) * width).
    { rewrite string_length_append, ljust_length, L. lia. }
    pose proof (succ_mod i per_line P) as M.
    replace (i + S (List.length items))
      with (i + 1 + List.length items) by lia.
    destruct (Nat.eqb_spec ((i + 1) mod per_line) 0) as [Z|Z].
    + destruct (Nat.eqb_spec (i mod per_line + 1) per_line) as [E|E];
        [|lia].
      destruct (IH (i + 1) EmptyString) as [R1 R2];
        [rewrite Z; reflexivity|].
      destruct (column_loop width per_line suffix items (i + 1)
                  EmptyString) as [rows left].
      cbn [fst snd] in *. split; [|exact R2].
      constructor; [|exact R1]. now rewrite C, E.
    + destruct (Nat.eqb_spec (i mod per_line + 1) per_line) as [E|E];
        [lia|].
      apply IH. now rewrite C, M.
Qed.

(** When the number of directories is a multiple of the number of
    entries per row, none at all for one, the rows are as wide as
    planned: every row holds at most [per_line] cells, and with names
    of at most 78 characters no row is wider than 80 columns. *)
Theorem short_rows_fit_without_leftover (dirs files : list string) :
  let width := max_length (files ++ dirs) + 2 in
  let per_line := Nat.max 1 (80 / width) in
  List.length dirs mod per_line = 0 ->
  Forall (fun row => String.length row <= per_line * width)
    (short_rows dirs files)
  /\ (max_length (files ++ dirs) <= 78 ->
      Forall (fun row => String.length row <= 80) (short_rows dirs files)).
Proof.
  intros width per_line Z.
  assert (P : 0 < per_line) by (subst per_line; lia).
  assert (R : Forall (fun row => String.length row <= per_line * width)
                (short_rows dirs files)).
  { unfold short_rows. fold width. fold per_line.
    destruct (column_loop_rows width per_line "/" dirs P) with
      (i := 0) (line := EmptyString) as [D1 D2].
    { apply Forall_forall. intros d H. rewrite string_length_append. cbn.
      assert (String.length d <= max_length (files ++ dirs))
        by (apply max_length_bound, in_or_app; now right).
      subst width. lia. }
    { now rewrite Nat.Div0.mod_0_l. }
    destruct (column_loop width per_line "/" dirs 0 EmptyString)
      as [rows_d line_d].
    cbn [fst snd] in *. rewrite Nat.add_0_l, Z in D2. cbn in D2.
    destruct (column_loop_rows width per_line EmptyString files P) with
      (i := 0) (line := line_d) as [F1 F2].
    { apply Forall_forall. intros f H. rewrite string_append_empty.
      assert (String.length f <= max_length (files ++ dirs))
        by (apply max_length_bound, in_or_app; now left).
      subst width. lia. }
    { now rewrite Nat.Div0.mod_0_l. }
    destruct (column_loop width per_line EmptyString files 0 line_d)
      as [rows_f line_f].
    cbn [fst snd] in *.
    apply Forall_app. split.
    { eapply Forall_impl; [|exact D1]. cbn. intros row ->. lia. }
    apply Forall_app. split.
    { eapply Forall_impl; [|exact F1]. cbn. intros row ->. lia. }
    destruct (PyStr.is_empty line_f); constructor; [|constructor].
    rewrite F2.
    pose proof (Nat.mod_upper_bound (0 + List.length files) per_line
                  ltac:(lia)).
    nia. }
  split; [exact R|].
  intros B.
  assert (X : per_line * width <= 80).
  { subst per_line.
    assert (1 <= 80 / width).
    { apply Nat.div_le_lower_bound; subst width; lia. }
    rewrite Nat.max_r by lia.
    rewrite Nat.mul_comm. apply Nat.Div0.mul_div_le. }
  eapply Forall_impl; [|exact R]. intros row H. cbv beta in H. lia.
Qed.

End Columns.

Lemma short_rows_fit_without_leftover_witness :
  Forall (fun row => String.length row <= 80)
    (short_rows [] [Demo.long_name; "b"; "c"]).
Proof.
  apply (short_rows_fit_without_leftover [] [Demo.long_name; "b"; "c"]).
  - reflexivity.
  - cbn. lia.
Defined.

(** ** Plain words go through the tokenizer unchanged *)

Section PlainWords.

Lemma plain_char_tests (c : ascii) :
  plain_char c = true ->
  Shlex.is_whitespace c = false /\ Shlex.is_quote c = false
  /\ Shlex.is_escape c = false.
Proof.
  unfold plain_char. intros H.
  apply andb_true_iff in H. destruct H as [H E].
  apply andb_true_iff in H. destruct H as [S Q].
  apply negb_true_iff in S, Q, E. auto.
Qed.

Lemma read_plain_tail (s rest tok : string) (quoted : bool)
    (esc : Shlex.state) :
  all_plain s = true ->
  Shlex.read_tokens (s ++ rest) Shlex.Word tok quoted esc
  = Shlex.read_tokens rest Shlex.Word (tok ++ s) quoted esc.
Proof.
  revert tok. induction s as [|c s IH]; intros tok H.
  - cbn [String.append]. now rewrite string_append_empty.
  - cbn [all_plain] in H. apply andb_true_iff in H. destruct H as [Hc Hs].
    destruct (plain_char_tests c Hc) as (S & Q & E).
    change ((String c s ++ rest)%string) with (String c (s ++ rest)).
    cbn [Shlex.read_tokens]. rewrite S, Q, E, (IH _ Hs).
    now rewrite push_cons.
Qed.

Lemma read_plain_word (s rest : string) (esc : Shlex.state) :
  plain_word s = true ->
  Shlex.read_tokens (s ++ rest) Shlex.Blank EmptyString false esc
  = Shlex.read_tokens rest Shlex.Word s false esc.
Proof.
  unfold plain_word. intros H.
  apply andb_true_iff in H. destruct H as [N P].
  destruct s as [|c s]; [discriminate N|].
  cbn [all_plain] in P. apply andb_true_iff in P. destruct P as [Hc Hs].
  destruct (plain_char_tests c Hc) as (S & Q & E).
  change ((String c s ++ rest)%string) with (String c (s ++ rest)).
  cbn [Shlex.read_tokens]. rewrite S, Q, E.
  now rewrite (read_plain_tail s rest _ false esc Hs).
Qed.

(** Words without white space, quote or backslash, written with one
    blank between them, are what the tokenizer gives back. *)
Theorem split_unwords (ws : list string) :
  Forall (fun s => plain_word s = true) ws ->
  Shlex.split (unwords ws) = inr ws.
Proof.
  unfold Shlex.split. generalize Shlex.Blank at 2 as esc.
  intros esc F. revert esc.
  induction F as [|s ws Hs F IH]; intros esc; [reflexivity|].
  assert (N : PyStr.is_empty s = false).
  { unfold plain_word in Hs. apply andb_true_iff in Hs.
    now apply negb_true_iff. }
  destruct ws as [|s2 ws].
  - cbn [unwords]. rewrite <- (string_append_empty s) at 1.
    rewrite (read_plain_word s EmptyString esc Hs).
    cbn [Shlex.read_tokens]. unfold Shlex.emit. now rewrite N.
  - change (unwords (s :: s2 :: ws))
      with (s ++ String " " (unwords (s2 :: ws)))%string.
    rewrite (read_plain_word s _ esc Hs).
    cbn [Shlex.read_tokens]. change (Shlex.is_whitespace " ") with true.
    cbv iota. unfold Shlex.emit. rewrite N. cbn [negb orb andb].
    unfold bind. now rewrite IH.
Qed.

End PlainWords.

Lemma split_unwords_witness :
  Shlex.split (unwords ["mv"; "notes.txt"; "docs/notes.txt"])
  = inr ["mv"; "notes.txt"; "docs/notes.txt"].
Proof.
  apply (split_unwords ["mv"; "notes.txt"; "docs/notes.txt"]).
  repeat constructor.
Defined.

(** ** The history after a run of lines *)

Section HistoryGrowth.

Variable W : Type.
Variable h : Host W.

(** After a run of lines the history is what it was, followed by the
    lines that are not blank, stripped, in the order they were
    submitted; nothing is ever removed or reordered. *)
Theorem history_after_lines (lines : list string) :
  forall (t : Terminal) (w : W),
    command_history (fst (submit_all h lines t w))
    = command_history t
      ++ filter (fun c => negb (PyStr.is_empty c))
           (map PyStr.strip lines).
Proof.
  induction lines as [|l lines IH]; intros t w.
  - cbn. now rewrite app_nil_r.
  - cbn [submit_all map filter]. unfold submit.
    destruct (execute_command h (set_input_field l t) w)
      as [[t' w'] r] eqn:X.
    rewrite IH.
    destruct (PyStr.is_empty (PyStr.strip l)) eqn:E; cbn [negb].
    + apply is_empty_spec in E.
      rewrite (execute_command_blank W h (set_input_field l t) w E) in X.
      now injection X as <- _ _.
    + apply is_empty_false in E.
      destruct (execute_command_records W h (set_input_field l t) w E)
        as [R _].
      rewrite X in R. cbn [fst input_field set_input_field
                           command_history] in R.
      rewrite R. now rewrite <- app_assoc.
Qed.

End HistoryGrowth.

Lemma history_after_lines_witness :
  command_history
    (fst (submit_all Demo.host ["pwd"; "   "; " ls "; "cd .."]
            (init Demo.host) Demo.home_world))
  = ["pwd"; "ls"; "cd .."].
Proof.
  exact (history_after_lines Demo.world Demo.host
           ["pwd"; "   "; " ls "; "cd .."] (init Demo.host)
           Demo.home_world).
Defined.

(** ** Recall with the arrow keys *)

Section Recall.

Variable W : Type.

Lemma key_up_step (t : Terminal) (w : W) :
  (0 < history_index t <= history_length t)%Z ->
  exists c,
    nth_error (command_history t) (Z.to_nat (history_index t - 1)) = Some c
    /\ keyPressEvent Key_Up t w
       = (set_input_field c (set_history_index (history_index t - 1) t),
          w, inr tt).
Proof.
  unfold history_length. intros R.
  unfold keyPressEvent, mbind, get.
  destruct (Z.eqb_spec (Z.of_nat (List.length (command_history t))) 0)
    as [Z0|Z0]; [lia|].
  destruct (Z.ltb_spec 0 (history_index t)) as [P|P]; [|lia].
  cbn [negb andb]. unfold modify, lift, py_index.
  cbn [command_history set_history_index].
  destruct (Z.ltb_spec (history_index t - 1) 0) as [L|L]; [lia|].
  destruct (Z.ltb_spec (history_index t - 1) 0) as [L'|L']; [lia|].
  destruct (nth_error (command_history t)
              (Z.to_nat (history_index t - 1))) as [c|] eqn:E.
  - exists c. split; reflexivity.
  - apply nth_error_None in E. lia.
Qed.

(** With the cursor at [i], pressing Up [k] times, [0 < k <= i], puts
    the command [k] places back, [history[i - k]], in the input field
    and the cursor on it.  At the oldest command, or before anything was
    recorded, Up changes nothing.  Down at the newest command, or past
    it, gives an empty line back and puts the cursor at
    [len(history)].  None of this changes the history. *)
Theorem recall_with_arrow_keys (t : Terminal) (w : W) :
  (forall k : nat,
     0 < k -> (Z.of_nat k <= history_index t <= history_length t)%Z ->
     exists t' c,
       press Key_Up k t w = inr t'
       /\ history_index t' = (history_index t - Z.of_nat k)%Z
       /\ nth_error (command_history t)
            (Z.to_nat (history_index t - Z.of_nat k)) = Some c
       /\ input_field t' = c
       /\ command_history t' = command_history t)
  /\ ((history_index t <= 0)%Z ->
      keyPressEvent Key_Up t w = (t, w, inr tt))
  /\ ((history_length t - 1 <= history_index t)%Z ->
      keyPressEvent Key_Down t w
      = (set_input_field EmptyString
           (set_history_index (history_length t) t), w, inr tt)).
Proof.
  split; [|split].
  - intros k. revert t.
    induction k as [|k IH]; intros t K R; [lia|].
    destruct (key_up_step t w) as (c & Hc & Hk); [lia|].
    cbn [press]. rewrite Hk.
    destruct k as [|k].
    + cbn [press]. eexists. exists c. split; [reflexivity|].
      cbn [history_index command_history input_field set_input_field
           set_history_index].
      repeat split; try reflexivity; exact Hc.
    + destruct (IH (set_input_field c
                      (set_history_index (history_index t - 1) t)))
        as (t' & c' & P1 & P2 & P3 & P4 & P5).
      * lia.
      * unfold history_length in *.
        cbn [history_index command_history set_input_field
             set_history_index]. lia.
      * cbn [history_index command_history set_input_field
             set_history_index] in *.
        exists t', c'. split; [exact P1|].
        replace (history_index t - Z.of_nat (S (S k)))%Z
          with (history_index t - 1 - Z.of_nat (S k))%Z by lia.
        auto.
  - intros L. unfold keyPressEvent, mbind, get.
    destruct (Z.ltb_spec 0 (history_index t)) as [P|P]; [lia|].
    now rewrite andb_false_r.
  - unfold history_length. intros L.
    unfold keyPressEvent, mbind, get.
    destruct (Z.ltb_spec (history_index t)
                (Z.of_nat (List.length (command_history t)) - 1))
      as [P|P]; [lia|].
    now rewrite andb_false_r.
Qed.

End Recall.

Lemma recall_with_arrow_keys_witness :
  exists t' c,
    press Key_Up 2
      (fst (submit_all Demo.host ["pwd"; "ls"; "cd .."] (init Demo.host)
              Demo.home_world)) Demo.home_world = inr t'
    /\ history_index t'
       = (history_index
            (fst (submit_all Demo.host ["pwd"; "ls"; "cd .."]
                    (init Demo.host) Demo.home_world)) - Z.of_nat 2)%Z
    /\ nth_error
         (command_history
            (fst (submit_all Demo.host ["pwd"; "ls"; "cd .."]
                    (init Demo.host) Demo.home_world)))
         (Z.to_nat
            (history_index
               (fst (submit_all Demo.host ["pwd"; "ls"; "cd .."]
                       (init Demo.host) Demo.home_world)) - Z.of_nat 2))
       = Some c
    /\ input_field t' = c
    /\ command_history t'
       = command_history
           (fst (submit_all Demo.host ["pwd"; "ls"; "cd .."]
                   (init Demo.host) Demo.home_world)).
Proof.
  apply (proj1 (recall_with_arrow_keys Demo.world
                  (fst (submit_all Demo.host ["pwd"; "ls"; "cd .."]
                          (init Demo.host) Demo.home_world))
                  Demo.home_world) 2).
  - lia.
  - vm_compute. split; discriminate.
Defined.

(** ** [top] *)

Section SystemStats.

Variable W : Type.
Variable h : Host W.

Lemma for_each_append_map {A : Type} (f : A -> string) (xs : list A) :
  forall (t : Terminal) (w : W),
    for_each xs (fun x => append (f x)) t w
    = (set_output_area (output_area t ++ map f xs) t, w, inr tt).
Proof.
  induction xs as [|x xs IH]; intros t w.
  - cbn. now rewrite app_nil_r, set_output_area_same.
  - cbn [for_each map]. unfold mbind at 1. unfold append at 1, modify.
    rewrite IH. cbn [output_area set_output_area].
    now rewrite <- app_assoc.
Qed.

Lemma enumerate_from_length {A : Type} (xs : list A) :
  forall i, List.length (enumerate_from i xs) = List.length xs.
Proof.
  induction xs as [|x xs IH]; intros i; cbn; [reflexivity|].
  now rewrite IH.
Qed.

(** [top] asks the provider for everything before it prints anything:
    when one of the four queries fails the only output is the error with
    the provider's message, and otherwise the report is complete, three
    heading lines, one line for every core and four lines for memory and
    disk. *)
Theorem top_prints_all_or_the_error (t : Terminal) (w : W) :
  exists lines,
    show_system_stats h t w
    = (set_output_area (output_area t ++ lines) t, w, inr tt)
    /\ ((exists e,
           lines = [("Error getting system stats: " ++ e)%string]
           /\ (cpu_count h w = inl e \/ cpu_percent_percpu h w = inl e
               \/ virtual_memory h w = inl e
               \/ disk_usage_root h w = inl e))
        \/ (exists count cores memory disk,
              cpu_count h w = inr count
              /\ cpu_percent_percpu h w = inr cores
              /\ virtual_memory h w = inr memory
              /\ disk_usage_root h w = inr disk
              /\ List.length lines = 7 + List.length cores
              /\ lines
                 = ["=== SYSTEM STATISTICS ===";
                    ("CPU Cores: " ++ str_opt PyStr.of_N count)%string;
                    "CPU Usage per core:"]
                   ++ map (fun iu =>
                             ("  Core " ++ PyStr.of_nat (fst iu + 1) ++ ": "
                              ++ repr_float h (snd iu) ++ "%")%string)
                        (enumerate_from 0 cores)
                   ++ [("Memory Total: " ++ gigabytes (total memory)
                        ++ " GB")%string;
                       ("Memory Used: " ++ gigabytes (used memory)
                        ++ " GB (" ++ repr_float h (percent memory)
                        ++ "%)")%string;
                       ("Disk Total: " ++ gigabytes (total disk)
                        ++ " GB")%string;
                       ("Disk Used: " ++ gigabytes (used disk)
                        ++ " GB (" ++ repr_float h (percent disk)
                        ++ "%)")%string])).
Proof.
  unfold show_system_stats, try_except.
  unfold mbind at 1. unfold call at 1.
  destruct (cpu_count h w) as [e|count] eqn:C.
  { eexists. split; [reflexivity|]. left. exists e. auto. }
  unfold mbind at 1. unfold call at 1.
  destruct (cpu_percent_percpu h w) as [e|cores] eqn:P.
  { eexists. split; [reflexivity|]. left. exists e. auto. }
  unfold mbind at 1. unfold call at 1.
  destruct (virtual_memory h w) as [e|memory] eqn:V.
  { eexists. split; [reflexivity|]. left. exists e. auto. }
  unfold mbind at 1. unfold call at 1.
  destruct (disk_usage_root h w) as [e|disk] eqn:D.
  { eexists. split; [reflexivity|]. left. exists e. auto 6. }
  eexists. split.
  - unfold mbind at 1 2 3. unfold append at 1 2 3, modify.
    unfold mbind at 1. rewrite for_each_append_map.
    unfold mbind, append, modify.
    cbn [output_area set_output_area].
    rewrite <- !app_assoc. cbn [app]. reflexivity.
  - right. exists count, cores, memory, disk.
    repeat (split; [reflexivity|]). split; [|reflexivity].
    cbn [List.length app]. rewrite length_app, length_map.
    cbn [List.length].
    rewrite enumerate_from_length. lia.
Qed.

End SystemStats.

(** ** Verbs without a blank after them, and words [ls] does not read *)

Section BareVerbs.

Variable W : Type.
Variable h : Host W.

(** [rm], [cp] and [mv] are built-ins only when a blank follows the
    verb: the bare verb is run by the host shell.  So [rm] never gets an
    empty path, and its answer for one is never printed. *)
Theorem bare_verbs_go_to_the_shell (t : Terminal) (w : W) (v : string) :
  In v ["rm"; "cp"; "mv"] ->
  PyStr.strip (input_field t) = v ->
  execute_command h t w
  = execute_system_command h v (accepted v t) w
  /\ (forall text path,
        dispatch (PyStr.strip text) = Remove path -> path <> EmptyString).
Proof.
  intros V E. split.
  - rewrite (execute_command_accepted W h t w v E)
      by (intros ->; cbn in V; intuition discriminate).
    cbn in V. destruct V as [<-|[<-|[<-|[]]]]; reflexivity.
  - intros text path D. apply dispatch_selects in D.
    inversion D as [| | | | | | |p X| | | | | | |]; subst.
    exact (strip_verb_argument text "rm" path X).
Qed.

(** [ls] reads its first argument, and the second one when the first is
    a flag word; what follows on the line changes nothing, so flags
    after the path are not flags. *)
Theorem ls_reads_two_arguments (t : Terminal) (w : W)
    (c1 c2 v1 v2 p : string) (r1 r2 : list string) :
  Shlex.split c1 = inr (v1 :: p :: r1) ->
  Shlex.split c2 = inr (v2 :: p :: r2) ->
  (PyStr.startswith p "-" = false \/ (hd_error r1 = hd_error r2)) ->
  list_files h c1 t w = list_files h c2 t w.
Proof.
  intros S1 S2 F.
  assert (E : ls_options (current_dir t) (v2 :: p :: r2)
              = ls_options (current_dir t) (v1 :: p :: r1)).
  { cbn [ls_options]. destruct (PyStr.startswith p "-"); [|reflexivity].
    destruct F as [F|F]; [discriminate|].
    destruct r1, r2; cbn in F; try discriminate; [reflexivity|].
    now injection F as <-. }
  unfold list_files, try_except, mbind, lift, get.
  now rewrite S1, S2, E.
Qed.

End BareVerbs.

Lemma bare_verbs_go_to_the_shell_witness :
  execute_command Demo.host (Demo.typed "rm" (init Demo.host))
    Demo.home_world
  = execute_system_command Demo.host "rm"
      (accepted "rm" (Demo.typed "rm" (init Demo.host))) Demo.home_world.
Proof.
  apply (bare_verbs_go_to_the_shell Demo.world Demo.host
           (Demo.typed "rm" (init Demo.host)) Demo.home_world "rm").
  - simpl; auto.
  - reflexivity.
Defined.

Lemma ls_reads_two_arguments_witness :
  list_files Demo.host "ls docs -a" (init Demo.host) Demo.home_world
  = list_files Demo.host "ls docs" (init Demo.host) Demo.home_world.
Proof.
  apply (ls_reads_two_arguments Demo.world Demo.host (init Demo.host)
           Demo.home_world "ls docs -a" "ls docs" "ls" "ls" "docs"
           ["-a"] []).
  - reflexivity.
  - reflexivity.
  - left. reflexivity.
Defined.

Lemma monitor_changes_only_its_label_witness :
  exists text,
    update_system_monitor Demo.host (init Demo.host) Demo.home_world
    = (set_monitor_label text (init Demo.host), Demo.home_world, inr tt)
    /\ (forall e,
          cpu_percent_total Demo.host Demo.home_world = inl e
          \/ virtual_memory Demo.host Demo.home_world = inl e
          \/ disk_usage_root Demo.host Demo.home_world = inl e ->
          text = "System monitor unavailable").
Proof.
  exact (monitor_changes_only_its_label Demo.world Demo.host
           (init Demo.host) Demo.home_world).
Defined.
